(** * Covid-data-analysis: the helper functions of [functions.py]

    A shallow embedding of the functions of [functions.py] ([find_word],
    [count_words], [get_date_range], [get_matching_entries],
    [calculate_differences], the [pyplot] wrappers [set_parameters] and
    [plot_differences], and the map plot [plot_data]) together with the
    properties stated about them.

    Python exceptions are values of [exn]; a call that can raise returns a
    [result].  Library calls ([datetime], [pandas], [numpy], [re],
    [pyplot], [geopandas]) are modelled by the behaviour the library
    documents for the calls made in [functions.py]. *)

From Stdlib Require Import Floats.SpecFloat.
From Stdlib Require Import ZArith Bool Ascii String List Lia Arith.
From Stdlib Require Import Sorted Permutation.
Import ListNotations.

Local Open Scope Z_scope.
Local Open Scope list_scope.

(* ===================================================================== *)
(** * Exceptions and results *)
(* ===================================================================== *)

(** The exceptions that the modelled calls can raise.  [ValueError] is split
    by origin so that a parse failure can be told from the other ones. *)
Inductive exn : Type :=
| ValueError_strptime     (* datetime.strptime: data does not match format *)
| ValueError_mask_na      (* boolean indexing with a mask that holds NaN *)
| ValueError_level_twice  (* get_level_values: the level name occurs twice *)
| KeyError                (* absent column or index level *)
| OverflowError           (* datetime / timedelta arithmetic out of range,
                             a Python int too large for a float *)
| UnboundLocalError       (* a local read before any assignment *)
| AttributeError          (* .str accessor on a column without strings,
                             a column read as an attribute that is absent *)
| TypeError               (* an operator on values that are not numbers *)
| ValueError_limits       (* Axes.set_xlim / set_ylim: a limit is NaN or Inf *)
| ValueError_geometry     (* GeoSeries.x / .y on a geometry that is no point *)
| ValueError_shape        (* pyplot.plot: x and y differ in length *)
| re_error                (* re.compile: invalid pattern *)
| Unmodelled.             (* the call leaves the modelled fragment *)

Inductive result (A : Type) : Type :=
| Ok (a : A)
| Err (e : exn).

Arguments Ok {A} a.
Arguments Err {A} e.

Definition bind {A B : Type} (r : result A) (k : A -> result B) : result B :=
  match r with
  | Ok a => k a
  | Err e => Err e
  end.

Notation "x <- r ;; k" := (bind r (fun x => k))
  (at level 61, r at next level, right associativity).

Definition is_ok {A : Type} (r : result A) : bool :=
  match r with Ok _ => true | Err _ => false end.

(** [raises r e]: the call ends by raising [e]. *)
Definition raises {A : Type} (r : result A) (e : exn) : Prop := r = Err e.

(* ===================================================================== *)
(** * [datetime]: dates, durations and their arithmetic *)
(* ===================================================================== *)

(** A [datetime.datetime] is kept as its proleptic Gregorian ordinal
    ([toordinal()]: 1 is 0001-01-01) and the microseconds elapsed since
    midnight.  Consecutive ordinals are consecutive calendar days. *)
Record datetime : Type := mkDatetime {
  ordinal : Z;
  tod : Z
}.

Definition MINYEAR : Z := 1.
Definition MAXYEAR : Z := 9999.
(** [date.max.toordinal()], the ordinal of 9999-12-31. *)
Definition MAXORDINAL : Z := 3652059.
(** A [timedelta] holds at most this many days, in either direction. *)
Definition MAX_DELTA_DAYS : Z := 999999999.
Definition US_PER_DAY : Z := 86400000000.

Definition valid_datetime (d : datetime) : Prop :=
  1 <= ordinal d <= MAXORDINAL /\ 0 <= tod d < US_PER_DAY.

Definition datetime_eqb (a b : datetime) : bool :=
  (ordinal a =? ordinal b) && (tod a =? tod b).

(** [datetime.timedelta(days=n)]: only the [days] keyword is used by the
    code, so a duration is its number of days. *)
Definition timedelta (days : Z) : result Z :=
  if (Z.abs days <=? MAX_DELTA_DAYS) then Ok days else Err OverflowError.

(** [dt + delta]: the date moves by [delta] days, the time of day stays;
    a result outside 0001-01-01 .. 9999-12-31 raises [OverflowError]. *)
Definition datetime_add (dt : datetime) (delta : Z) : result datetime :=
  let o := ordinal dt + delta in
  if (1 <=? o) && (o <=? MAXORDINAL)
  then Ok (mkDatetime o (tod dt))
  else Err OverflowError.

(** [dt - delta] is [dt + (-delta)]. *)
Definition datetime_sub (dt : datetime) (delta : Z) : result datetime :=
  datetime_add dt (- delta).

(** ** The calendar, as in [datetime]'s [_ymd2ord] *)

Definition is_leap (y : Z) : bool :=
  (y mod 4 =? 0) && (negb (y mod 100 =? 0) || (y mod 400 =? 0)).

Definition days_in_month (y m : Z) : Z :=
  if m =? 2 then (if is_leap y then 29 else 28)
  else if (m =? 4) || (m =? 6) || (m =? 9) || (m =? 11) then 30
  else 31.

Definition days_before_year (y : Z) : Z :=
  let p := y - 1 in p * 365 + p / 4 - p / 100 + p / 400.

Fixpoint days_before_month_aux (y : Z) (n : nat) : Z :=
  match n with
  | O => 0
  | S k => days_before_month_aux y k + days_in_month y (Z.of_nat (S k))
  end.

(** Days of year [y] that precede the first day of month [m]. *)
Definition days_before_month (y m : Z) : Z :=
  days_before_month_aux y (Z.to_nat (m - 1)).

Definition ymd2ord (y m d : Z) : Z :=
  days_before_year y + days_before_month y m + d.

(** [datetime.datetime(y, m, d)] for a valid calendar date. *)
Definition date_of_ymd (y m d : Z) : datetime := mkDatetime (ymd2ord y m d) 0.

(* ===================================================================== *)
(** * [get_date_range] *)
(* ===================================================================== *)

(** [range(7)]. *)
Definition range7 : list Z := [0; 1; 2; 3; 4; 5; 6].

(** The body of the [for i in range(7)] loop, threaded over the indices
    still to visit; [date_range] is the list built so far. *)
Fixpoint date_range_loop (start_date : datetime) (idx : list Z)
                         (date_range : list datetime)
  : result (list datetime) :=
  match idx with
  | [] => Ok date_range
  | i :: idx' =>
      delta <- timedelta i ;;
      date <- datetime_add start_date delta ;;
      date_range_loop start_date idx' (date_range ++ [date])
  end.

Definition get_date_range (chosen_date : datetime) (days : Z)
  : result (list datetime) :=
  delta <- timedelta days ;;
  start_date <- datetime_sub chosen_date delta ;;
  date_range_loop start_date range7 [].

(** The date [n] days after [d] (before, when [n] is negative). *)
Definition shift_days (d : datetime) (n : Z) : datetime :=
  mkDatetime (ordinal d + n) (tod d).

(** [consecutive_days l]: each element of [l] is the calendar day after the
    element before it, at the same time of day. *)
Fixpoint consecutive_days (l : list datetime) : Prop :=
  match l with
  | a :: ((b :: _) as t) => b = shift_days a 1 /\ consecutive_days t
  | _ => True
  end.

(* ===================================================================== *)
(** * [datetime.datetime.strptime(s, '%Y-%m-%d')] *)
(* ===================================================================== *)

(** A Python [str] is a [string]; its characters are read as the code points
    0 to 255.  [_strptime] turns the format ['%Y-%m-%d'] into the regular
    expression
    [(?P<Y>\d\d\d\d)-(?P<m>1[0-2]|0[1-9]|[1-9])-(?P<d>3[0-1]|[1-2]\d|0[1-9]|[1-9]| [1-9])],
    matches it at the start of the data, refuses data that goes on after the
    match, and builds the date, which refuses a day the month does not have. *)

Definition char_between (lo hi c : ascii) : bool :=
  (nat_of_ascii lo <=? nat_of_ascii c)%nat && (nat_of_ascii c <=? nat_of_ascii hi)%nat.

(** [\d] on the code points below 256: the ten ASCII digits. *)
Definition is_digit (c : ascii) : bool := char_between "0" "9" c.

Definition digit_val (c : ascii) : Z := Z.of_nat (nat_of_ascii c) - 48.

(** [(?P<Y>\d\d\d\d)]: the year and the text after it. *)
Definition re_Y (s : list ascii) : option (Z * list ascii) :=
  match s with
  | a :: b :: c :: d :: rest =>
      if is_digit a && is_digit b && is_digit c && is_digit d
      then Some (1000 * digit_val a + 100 * digit_val b
                 + 10 * digit_val c + digit_val d, rest)
      else None
  | _ => None
  end.

(** One alternative made of two characters. *)
Definition alt2 (p1 p2 : ascii -> bool) (s : list ascii) : list (Z * list ascii) :=
  match s with
  | a :: b :: rest =>
      if p1 a && p2 b then [(10 * digit_val a + digit_val b, rest)] else []
  | _ => []
  end.

(** One alternative made of one character. *)
Definition alt1 (p : ascii -> bool) (s : list ascii) : list (Z * list ascii) :=
  match s with
  | a :: rest => if p a then [(digit_val a, rest)] else []
  | _ => []
  end.

(** [(?P<m>1[0-2]|0[1-9]|[1-9])]: every way to match, in the order in which
    the backtracking matcher tries the alternatives. *)
Definition re_m (s : list ascii) : list (Z * list ascii) :=
  alt2 (Ascii.eqb "1") (char_between "0" "2") s
  ++ alt2 (Ascii.eqb "0") (char_between "1" "9") s
  ++ alt1 (char_between "1" "9") s.

(** [(?P<d>3[0-1]|[1-2]\d|0[1-9]|[1-9]| [1-9])]; in the last alternative the
    blank counts for nothing ([int(' 5')] is 5). *)
Definition re_d (s : list ascii) : list (Z * list ascii) :=
  alt2 (Ascii.eqb "3") (char_between "0" "1") s
  ++ alt2 (char_between "1" "2") is_digit s
  ++ alt2 (Ascii.eqb "0") (char_between "1" "9") s
  ++ alt1 (char_between "1" "9") s
  ++ match s with
     | a :: b :: rest =>
         if Ascii.eqb a " " && char_between "1" "9" b
         then [(digit_val b, rest)] else []
     | _ => []
     end.

(** The first month alternative after which ["-"] and a day follow. *)
Fixpoint first_month_day (ms : list (Z * list ascii))
  : option (Z * Z * list ascii) :=
  match ms with
  | [] => None
  | (m, s2) :: ms' =>
      match s2 with
      | "-"%char :: s3 =>
          match re_d s3 with
          | (d, s4) :: _ => Some (m, d, s4)
          | [] => first_month_day ms'
          end
      | _ => first_month_day ms'
      end
  end.

(** [format_regex.match(data_string)]: year, month, day and the unmatched
    rest of the data. *)
Definition match_Ymd (s : list ascii) : option (Z * Z * Z * list ascii) :=
  match re_Y s with
  | Some (y, "-"%char :: s1) =>
      match first_month_day (re_m s1) with
      | Some (m, d, s4) => Some (y, m, d, s4)
      | None => None
      end
  | _ => None
  end.

Definition strptime_Ymd (date_str : string) : result datetime :=
  match match_Ymd (list_ascii_of_string date_str) with
  | None => Err ValueError_strptime            (* does not match format *)
  | Some (y, m, d, rest) =>
      match rest with
      | _ :: _ => Err ValueError_strptime      (* unconverted data remains *)
      | [] =>
          if (MINYEAR <=? y) && (1 <=? d) && (d <=? days_in_month y m)
          then Ok (date_of_ymd y m d)
          else Err ValueError_strptime         (* day is out of range for month *)
      end
  end.

(** The format as the words ['YYYY-MM-DD'] have it: four digits, a dash, two
    digits, a dash, two digits, and nothing else. *)
Definition has_shape_YYYY_MM_DD (date_str : string) : bool :=
  match list_ascii_of_string date_str with
  | [y1; y2; y3; y4; s1; m1; m2; s2; d1; d2] =>
      is_digit y1 && is_digit y2 && is_digit y3 && is_digit y4
      && Ascii.eqb s1 "-" && is_digit m1 && is_digit m2
      && Ascii.eqb s2 "-" && is_digit d1 && is_digit d2
  | _ => false
  end.

(* ===================================================================== *)
(** * Tables *)
(* ===================================================================== *)

(** ** Numbers

    A float64 is an IEEE 754 binary64 value, kept as the [spec_float] of the
    standard library (53 bits of mantissa, exponents below 1024), and
    computed with by its round-to-nearest-even operations.  An int64 is an
    integer from [-2^63] to [2^63 - 1]; arithmetic on it wraps around. *)

Definition PREC : Z := 53.
Definition EMAX : Z := 1024.

(** A finite float64 in its one normal form, a zero or an infinity. *)
Definition is_float64 (f : spec_float) : bool :=
  match f with
  | S754_nan => false
  | _ => valid_binary PREC EMAX f
  end.

(** [float(z)]: the float64 nearest to the integer, ties to even; an
    infinity when [z] is too large. *)
Definition float_of_Z (z : Z) : spec_float :=
  binary_normalize PREC EMAX z 0 false.

Definition float_sub (g f : spec_float) : spec_float := SFsub PREC EMAX g f.
Definition float_add (g f : spec_float) : spec_float := SFadd PREC EMAX g f.
Definition float_div (g f : spec_float) : spec_float := SFdiv PREC EMAX g f.

Definition is_finite (f : spec_float) : bool :=
  match f with
  | S754_zero _ | S754_finite _ _ _ => true
  | _ => false
  end.

Definition INT64_MIN : Z := - 2 ^ 63.
Definition INT64_MAX : Z := 2 ^ 63 - 1.

Definition in_int64 (z : Z) : bool := (INT64_MIN <=? z) && (z <=? INT64_MAX).

(** The int64 that a result stands for after wrap-around. *)
Definition wrap_int64 (z : Z) : Z := (z + 2 ^ 63) mod 2 ^ 64 - 2 ^ 63.

(** ** Cells *)

(** A cell holds an integer, a float64 that is a number, a string, a
    datetime, or the missing value (NaN, None, NaT). *)
Inductive cell : Type :=
| CInt (z : Z)
| CStr (s : string)
| CDate (d : datetime)
| CNaN
| CFloat (f : spec_float).

(** The cell of a float64: NaN is the missing value. *)
Definition float_cell (f : spec_float) : cell :=
  match f with
  | S754_nan => CNaN
  | _ => CFloat f
  end.

Definition datetime_eq_dec (a b : datetime) : {a = b} + {a <> b}.
Proof. decide equality; apply Z.eq_dec. Defined.

Definition spec_float_eq_dec (a b : spec_float) : {a = b} + {a <> b}.
Proof.
  decide equality;
    try apply Bool.bool_dec; try apply Z.eq_dec; apply Pos.eq_dec.
Defined.

Definition cell_eq_dec (a b : cell) : {a = b} + {a <> b}.
Proof.
  decide equality;
    [apply Z.eq_dec | apply string_dec | apply datetime_eq_dec
    | apply spec_float_eq_dec].
Defined.

(** Sameness of two cells as a hash table sees it ([unique], [isin],
    [value_counts]): here the missing value is the same as itself.  Two
    floats, or a float and an integer, can be equal as numbers without being
    the same cell; index labels that are floats are therefore left out of
    the model (see [get_level_values]). *)
Definition cell_same (a b : cell) : bool :=
  if cell_eq_dec a b then true else false.

(** Elementwise [==]: NaN equals nothing, itself included. *)
Definition cell_py_eq (a b : cell) : bool :=
  match a, b with
  | CNaN, _ | _, CNaN => false
  | _, _ => cell_same a b
  end.

(** A row: its index labels, one per index level, and its cells, one per
    column. *)
Record row : Type := mkRow {
  r_index : list cell;
  r_cells : list cell
}.

(** A [pandas.DataFrame]: the names of the index levels ([None] for an
    unnamed one), the column labels (taken to be distinct), and the rows in
    table order. *)
Record DataFrame : Type := mkDataFrame {
  index_names : list (option string);
  columns : list string;
  rows : list row
}.

(** [pd.DataFrame()]: no columns, no rows, an empty unnamed [RangeIndex]. *)
Definition empty_frame : DataFrame := mkDataFrame [None] [] [].

(** Position of the first [x] in [l]. *)
Fixpoint index_of {A : Type} (eqb : A -> A -> bool) (x : A) (l : list A)
  : option nat :=
  match l with
  | [] => None
  | y :: l' =>
      if eqb x y then Some O
      else match index_of eqb x l' with
           | Some n => Some (S n)
           | None => None
           end
  end.

(** The cell of a row at a column position; a row that is too short reads as
    missing there. *)
Definition cell_at (n : nat) (cells : list cell) : cell := nth n cells CNaN.

(** [data[column]]: the values of one column, top to bottom; [KeyError]
    when there is no such column. *)
Definition getitem (data : DataFrame) (column : string) : result (list cell) :=
  match index_of String.eqb column (columns data) with
  | Some n => Ok (map (fun r => cell_at n (r_cells r)) (rows data))
  | None => Err KeyError
  end.

(** Keep the rows at which the mask is true. *)
Fixpoint select_rows (rs : list row) (mask : list bool) : list row :=
  match rs, mask with
  | r :: rs', b :: mask' =>
      if b then r :: select_rows rs' mask' else select_rows rs' mask'
  | _, _ => []
  end.

(** [data[mask]] for a boolean mask: same index names and columns, the
    selected rows with their index labels. *)
Definition getitem_mask (data : DataFrame) (mask : list bool) : DataFrame :=
  mkDataFrame (index_names data) (columns data) (select_rows (rows data) mask).

(** [series.isin(values)] for a list of datetimes. *)
Definition cell_isin (values : list datetime) (c : cell) : bool :=
  match c with
  | CDate d => existsb (datetime_eqb d) values
  | _ => false
  end.

Definition isin (series : list cell) (values : list datetime) : list bool :=
  map (cell_isin values) series.

(** Union of two column indexes, in order of appearance. *)
Definition union_columns (a b : list string) : list string :=
  a ++ filter (fun c => negb (existsb (String.eqb c) a)) b.

(** Cells of a row laid out for new columns: a column the row's frame did
    not have reads as missing.  Nothing moves when the columns are the same. *)
Definition reindex_cells (old new : list string) (cells : list cell) : list cell :=
  if list_eq_dec string_dec old new then cells
  else map (fun c => match index_of String.eqb c old with
                     | Some n => cell_at n cells
                     | None => CNaN
                     end) new.

(** Index labels 0, 1, 2, ... from [n] on. *)
Fixpoint renumber (n : Z) (cells : list (list cell)) : list row :=
  match cells with
  | [] => []
  | c :: cells' => mkRow [CInt n] c :: renumber (n + 1) cells'
  end.

(** [pd.concat([a, b], ignore_index=True)]: the rows of [a], then those of
    [b], over the union of the columns, under a fresh [RangeIndex]. *)
Definition concat_ignore_index (a b : DataFrame) : DataFrame :=
  let cols := union_columns (columns a) (columns b) in
  mkDataFrame [None] cols
    (renumber 0
       (map (fun r => reindex_cells (columns a) cols (r_cells r)) (rows a)
        ++ map (fun r => reindex_cells (columns b) cols (r_cells r)) (rows b))).

(* ===================================================================== *)
(** * [get_matching_entries] *)
(* ===================================================================== *)

(** The [for date_str in dates_of_interest] loop; [matching_entries] is the
    table accumulated so far. *)
Fixpoint matching_entries_loop (dates_of_interest : list string)
    (data : DataFrame) (date_column : string) (days : Z)
    (matching_entries : DataFrame) : result DataFrame :=
  match dates_of_interest with
  | [] => Ok matching_entries
  | date_str :: dates' =>
      date_obj <- strptime_Ymd date_str ;;
      date_range <- get_date_range date_obj days ;;
      series <- getitem data date_column ;;
      let matching_df := getitem_mask data (isin series date_range) in
      matching_entries_loop dates' data date_column days
        (concat_ignore_index matching_entries matching_df)
  end.

Definition get_matching_entries (dates_of_interest : list string)
    (data : DataFrame) (date_column : string) (days : Z) : result DataFrame :=
  matching_entries_loop dates_of_interest data date_column days empty_frame.

(** The 7-date window of one reference-date string. *)
Definition window_of (date_str : string) (days : Z) : result (list datetime) :=
  date_obj <- strptime_Ymd date_str ;;
  get_date_range date_obj days.

(** The rows of [data] whose cell at column position [n] lies in [window],
    in table order. *)
Definition rows_in_window (data : DataFrame) (n : nat) (window : list datetime)
  : list row :=
  filter (fun r => cell_isin window (cell_at n (r_cells r))) (rows data).

(** The rows that the window of [date_str] selects from [data], looking at
    column position [n]. *)
Definition window_rows (data : DataFrame) (n : nat) (days : Z)
    (date_str : string) : list row :=
  match window_of date_str days with
  | Ok w => rows_in_window data n w
  | Err _ => []
  end.

(** ** Sample data *)

(** A policy table with a [start_date] column, as in the docstring of
    [get_matching_entries]. *)
Definition policy_data : DataFrame :=
  mkDataFrame [None] ["start_date"; "policy"]%string
    [ mkRow [CInt 0] [CDate (date_of_ymd 2023 4 24); CStr "masks"];
      mkRow [CInt 1] [CDate (date_of_ymd 2023 5 24); CStr "schools"];
      mkRow [CInt 2] [CDate (date_of_ymd 2023 4 30); CStr "travel"] ].

(* ===================================================================== *)
(** * [calculate_differences] *)
(* ===================================================================== *)

Definition name_eqb (a b : option string) : bool :=
  match a, b with
  | Some x, Some y => String.eqb x y
  | None, None => true
  | _, _ => false
  end.

(** The positions at which [name] stands in [names], counted from [n]. *)
Fixpoint positions (name : option string) (names : list (option string))
    (n : nat) : list nat :=
  match names with
  | [] => []
  | x :: names' =>
      if name_eqb name x then n :: positions name names' (S n)
      else positions name names' (S n)
  end.

Definition is_float (c : cell) : bool :=
  match c with CFloat _ => true | _ => false end.

Definition is_nan (c : cell) : bool :=
  match c with CNaN => true | _ => false end.

(** No index label of the table is a float: labels are then equal as
    Python values exactly when they are the same cell. *)
Definition index_modelled (data : DataFrame) : bool :=
  forallb (fun r => forallb (fun c => negb (is_float c)) (r_index r))
          (rows data).

(** [data.index.get_level_values(level)] for a level given by name: the
    labels of that level, row by row; [KeyError] when no level has the name,
    [ValueError] when more than one has.  An index with float labels is
    outside the model. *)
Definition get_level_values (data : DataFrame) (level : string)
  : result (list cell) :=
  match positions (Some level) (index_names data) O with
  | [] => Err KeyError
  | [n] =>
      if index_modelled data
      then Ok (map (fun r => cell_at n (r_index r)) (rows data))
      else Err Unmodelled
  | _ :: _ :: _ => Err ValueError_level_twice
  end.

(** [Index.unique()]: the distinct labels in order of first appearance. *)
Fixpoint unique (l : list cell) : list cell :=
  match l with
  | [] => []
  | x :: l' => x :: filter (fun y => negb (cell_same x y)) (unique l')
  end.

(** ** Column types

    A column of a table has one dtype, which the rows selected from the
    table keep.  It is the dtype that pandas infers for the cells of the
    column: int64 for integers that all fit in 64 bits; float64 for numbers
    among which a float or a missing value stands (an integer cell in such a
    column stands for the float nearest to it); object as soon as a string
    stands in the column, the cells then being Python objects.  Columns of
    datetimes and columns of integers beyond 64 bits are outside the
    model. *)
Inductive dtype : Type :=
| Int64
| Float64
| Object.

Definition is_int64_cell (c : cell) : bool :=
  match c with
  | CInt z => in_int64 z
  | _ => false
  end.

Definition is_float64_cell (c : cell) : bool :=
  match c with
  | CInt z => in_int64 z
  | CFloat f => is_float64 f
  | CNaN => true
  | _ => false
  end.

Definition is_str_cell (c : cell) : bool :=
  match c with CStr _ => true | _ => false end.

Definition is_object_cell (c : cell) : bool :=
  match c with
  | CDate _ => false
  | CFloat f => is_float64 f
  | _ => true
  end.

Definition dtype_of (cells : list cell) : result dtype :=
  if forallb is_int64_cell cells then Ok Int64
  else if forallb is_float64_cell cells then Ok Float64
  else if existsb is_str_cell cells && forallb is_object_cell cells
       then Ok Object
  else Err Unmodelled.

(** The float64 that a cell of a float64 column stands for. *)
Definition as_float (c : cell) : option spec_float :=
  match c with
  | CInt z => Some (float_of_Z z)
  | CFloat f => Some f
  | CNaN => Some S754_nan
  | _ => None
  end.

(** [float(z)] for a Python [int]: [OverflowError] when [z] is too large. *)
Definition py_float (z : Z) : result spec_float :=
  let f := float_of_Z z in
  if is_finite f then Ok f else Err OverflowError.

(** [b - a] on two Python objects: integers subtract exactly, floats as
    float64, an integer beside a float is converted first, a string raises
    [TypeError].  A missing operand can be [None] or NaN and a datetime
    gives a [timedelta]: neither is represented. *)
Definition py_sub (b a : cell) : result cell :=
  match b, a with
  | CStr _, _ | _, CStr _ => Err TypeError
  | CInt y, CInt x => Ok (CInt (y - x))
  | CFloat g, CFloat f => Ok (float_cell (float_sub g f))
  | CInt y, CFloat f => g <- py_float y ;; Ok (float_cell (float_sub g f))
  | CFloat g, CInt x => f <- py_float x ;; Ok (float_cell (float_sub g f))
  | _, _ => Err Unmodelled
  end.

(** [b - a] as NumPy subtracts two elements of an array of the dtype: int64
    wraps around, float64 rounds to the nearest float and gives NaN as soon
    as an operand is missing, objects subtract as Python does. *)
Definition subtract (t : dtype) (b a : cell) : result cell :=
  match t with
  | Int64 =>
      match b, a with
      | CInt y, CInt x => Ok (CInt (wrap_int64 (y - x)))
      | _, _ => Err Unmodelled
      end
  | Float64 =>
      match as_float b, as_float a with
      | Some g, Some f => Ok (float_cell (float_sub g f))
      | _, _ => Err Unmodelled
      end
  | Object => py_sub b a
  end.

(** [a[1:] - a[:-1]] on an array of dtype [t]. *)
Fixpoint diff_as (t : dtype) (a : list cell) : result (list cell) :=
  match a with
  | x :: ((y :: _) as a') =>
      d <- subtract t y x ;;
      ds <- diff_as t a' ;;
      Ok (d :: ds)
  | _ => Ok []
  end.

(** [np.diff(a)] for a series of the given dtype: [a[1:] - a[:-1]], empty
    when [a] has fewer than two elements, whatever it holds. *)
Definition np_diff (t : result dtype) (a : list cell) : result (list cell) :=
  match a with
  | _ :: _ :: _ => t' <- t ;; diff_as t' a
  | _ => Ok []
  end.

(** The dtype of a column of a table; the rows selected from the table keep
    it. *)
Definition dtype_of_column (data : DataFrame) (column : string)
  : result dtype :=
  series <- getitem data column ;;
  dtype_of series.

(** ** Dicts *)

(** A Python [dict] from labels to sequences, in insertion order. *)
Definition dict : Type := list (cell * list cell).

(** The entry under a key is replaced where the key is stored, else the
    entry is added at the end. *)
Fixpoint dict_set (k : cell) (v : list cell) (d : dict) : dict :=
  match d with
  | [] => [(k, v)]
  | (k', v') :: d' =>
      if cell_same k k' then (k', v) :: d' else (k', v') :: dict_set k v d'
  end.

(** The entry stored under a key.  This reads the dict as it is stored; the
    lookup [d[k]] that Python makes is [dict_item]. *)
Fixpoint dict_get (k : cell) (d : dict) : option (list cell) :=
  match d with
  | [] => None
  | (k', v') :: d' => if cell_same k k' then Some v' else dict_get k d'
  end.

Definition dict_keys (d : dict) : list cell := map fst d.

(** Whether [k] is found among the keys of [d] is not decided by the cells:
    Python finds a NaN key by the identity of the float object only, which a
    cell does not have (the labels that iterating a float64 [Index] hands
    out are new objects every time, those of an object [Index] are not), and
    finds float keys by their value as numbers. *)
Definition key_clash (k : cell) (d : dict) : bool :=
  is_float k || existsb is_float (dict_keys d)
  || (is_nan k && existsb is_nan (dict_keys d)).

(** [d[k] = v]. *)
Definition dict_assign (k : cell) (v : list cell) (d : dict) : result dict :=
  if key_clash k d then Err Unmodelled else Ok (dict_set k v d).

(** [d[k]]: [KeyError] when no key of [d] is equal to [k]. *)
Definition dict_item (d : dict) (k : cell) : result (list cell) :=
  if key_clash k d then Err Unmodelled
  else match dict_get k d with
       | Some v => Ok v
       | None => Err KeyError
       end.

(** The column read for the fatality percentage. *)
Definition fatalities_column : string := "fatalities, %".

(** [data[data.index.get_level_values(index_column) == value]], given the
    labels of that level. *)
Definition subset_of (data : DataFrame) (labels : list cell) (value : cell)
  : DataFrame :=
  getitem_mask data (map (fun c => cell_py_eq c value) labels).

(** The [for value in unique_values] loop.  [differences] and
    [differences_fatalities] are the two dicts as filled so far; [subset] is
    the local of that name, unbound ([None]) until the first round. *)
Fixpoint differences_loop (values : list cell) (data : DataFrame)
    (index_column value_column : string)
    (differences differences_fatalities : dict) (subset : option DataFrame)
  : result (dict * dict * option DataFrame) :=
  match values with
  | [] => Ok (differences, differences_fatalities, subset)
  | value :: values' =>
      labels <- get_level_values data index_column ;;
      let subset := subset_of data labels value in
      series <- getitem subset value_column ;;
      d <- np_diff (dtype_of_column data value_column) series ;;
      differences <- dict_assign value d differences ;;
      series_f <- getitem subset fatalities_column ;;
      f <- np_diff (dtype_of_column data fatalities_column) series_f ;;
      differences_fatalities <- dict_assign value f differences_fatalities ;;
      differences_loop values' data index_column value_column
        differences differences_fatalities (Some subset)
  end.

Definition calculate_differences (data : DataFrame)
    (index_column value_column : string)
  : result (dict * dict * list cell * list cell) :=
  labels <- get_level_values data index_column ;;
  let unique_values := unique labels in
  st <- differences_loop unique_values data index_column value_column
          [] [] None ;;
  let '(differences, differences_fatalities, subset) := st in
  match subset with
  | None => Err UnboundLocalError
  | Some subset =>
      all_dates <- get_level_values subset "date" ;;
      Ok (differences, differences_fatalities, tl all_dates, unique_values)
  end.

(** The difference sequence of one column of the group of [value]. *)
Definition group_diff (data : DataFrame) (labels : list cell)
    (column : string) (value : cell) : result (list cell) :=
  series <- getitem (subset_of data labels value) column ;;
  np_diff (dtype_of_column data column) series.

(** A table keyed by province and date, with one value column and the
    fatality percentage. *)
Definition covid_data : DataFrame :=
  mkDataFrame [Some "province"; Some "date"]%string
    ["confirmed"; "fatalities, %"]%string
    [ mkRow [CStr "A"; CDate (date_of_ymd 2020 3 1)] [CInt 10; CInt 1];
      mkRow [CNaN; CDate (date_of_ymd 2020 3 1)] [CInt 1; CInt 0];
      mkRow [CStr "B"; CDate (date_of_ymd 2020 3 1)] [CInt 7; CInt 2];
      mkRow [CStr "A"; CDate (date_of_ymd 2020 3 2)] [CInt 15; CInt 3];
      mkRow [CStr "C"; CDate (date_of_ymd 2020 3 2)] [CInt 4; CInt 0];
      mkRow [CStr "A"; CDate (date_of_ymd 2020 3 3)] [CInt 13; CInt 3];
      mkRow [CStr "D"; CDate (date_of_ymd 2020 3 4)] [CInt 2; CInt 1];
      mkRow [CStr "D"; CDate (date_of_ymd 2020 3 5)] [CInt 6; CInt 1];
      mkRow [CStr "B"; CDate (date_of_ymd 2020 3 5)] [CInt 9; CInt 2];
      mkRow [CStr "D"; CDate (date_of_ymd 2020 3 6)] [CInt 8; CInt 4] ].

(** ** Differences, in the words of the specification *)

Definition int64_range (z : Z) : Prop := - 2 ^ 63 <= z <= 2 ^ 63 - 1.

(** The float64 that a cell of a float64 column stands for: itself, NaN for
    a missing value, the nearest float for an integer. *)
Inductive float_value : cell -> spec_float -> Prop :=
| float_value_float (f : spec_float) : float_value (CFloat f) f
| float_value_missing : float_value CNaN S754_nan
| float_value_int (z : Z) :
    float_value (CInt z) (binary_normalize 53 1024 z 0 false).

(** The number type of a column, from its cells: 64-bit integers; floats,
    when a float or a missing value stands among the numbers; Python
    objects, when a string stands in the column. *)
Inductive column_kind : list cell -> dtype -> Prop :=
| kind_int64 (col : list cell) :
    Forall (fun c => exists z, c = CInt z /\ int64_range z) col ->
    column_kind col Int64
| kind_float64 (col : list cell) :
    Forall (fun c => exists f, float_value c f) col ->
    Exists (fun c => forall z, c <> CInt z) col ->
    column_kind col Float64
| kind_object (col : list cell) :
    Exists (fun c => exists s, c = CStr s) col ->
    column_kind col Object.

(** [d] is [b - a] in the arithmetic of a column of dtype [t].  On int64 it
    is the integer that differs from [b - a] by a multiple of [2^64] and
    fits in 64 bits; on float64 it is the float nearest to the difference of
    the two floats, and missing when an operand or the result is; on Python
    objects integers subtract exactly, floats as on float64, and an integer
    beside a float is converted to a float first. *)
Inductive difference : dtype -> cell -> cell -> cell -> Prop :=
| difference_int64 (a b c : Z) :
    int64_range c ->
    (c - (b - a)) mod 2 ^ 64 = 0 ->
    difference Int64 (CInt b) (CInt a) (CInt c)
| difference_float64 (x y : cell) (f g : spec_float) :
    float_value x f -> float_value y g ->
    difference Float64 y x (float_cell (SFsub 53 1024 g f))
| difference_object_int (a b : Z) :
    difference Object (CInt b) (CInt a) (CInt (b - a))
| difference_object_float (x y : cell) (f g : spec_float) :
    float_value x f -> float_value y g ->
    x <> CNaN -> y <> CNaN ->
    (forall a b, x = CInt a -> y = CInt b -> False) ->
    (forall s, f <> S754_infinity s \/ exists f', x = CFloat f') ->
    (forall s, g <> S754_infinity s \/ exists g', y = CFloat g') ->
    difference Object y x (float_cell (SFsub 53 1024 g f)).

(** [ds] holds the successive differences of [series], a part of a column
    of dtype [t]: it is one element shorter, its element [i] is
    [series[i+1] - series[i]] in the arithmetic of [t], and that is the
    difference of the two integers itself on an int64 column when it fits
    in 64 bits. *)
Definition column_differences (t : dtype) (series ds : list cell) : Prop :=
  (length ds = length series - 1)%nat /\
  (forall i x y,
     nth_error series i = Some x -> nth_error series (S i) = Some y ->
     exists d, nth_error ds i = Some d /\ difference t y x d) /\
  (forall i a b,
     t = Int64 ->
     nth_error series i = Some (CInt a) ->
     nth_error series (S i) = Some (CInt b) ->
     int64_range (b - a) ->
     nth_error ds i = Some (CInt (b - a))).

(** [successive_differences t series ds]: [ds] is one element shorter than
    [series] and its element [i] is [series[i+1] - series[i]] in the
    arithmetic of dtype [t]. *)
Definition successive_differences (t : result dtype) (series ds : list cell)
  : Prop :=
  (length ds = length series - 1)%nat /\
  forall i x y,
    nth_error series i = Some x -> nth_error series (S i) = Some y ->
    exists t' d,
      t = Ok t' /\ subtract t' y x = Ok d /\ nth_error ds i = Some d.

(** [x] stands before [y] in [l]. *)
Definition before (x y : cell) (l : list cell) : Prop :=
  exists l1 l2 l3, l = l1 ++ x :: l2 ++ y :: l3.

(** The first [x] of [l] comes before the first [y] of [l]. *)
Definition first_before (x y : cell) (l : list cell) : Prop :=
  exists l1 l2, l = l1 ++ x :: l2 /\ ~ In x l1 /\ ~ In y l1 /\ x <> y.

(** What [calculate_differences covid_data "province" "confirmed"] returns. *)
Definition covid_keys : list cell :=
  [CStr "A"; CNaN; CStr "B"; CStr "C"; CStr "D"].

Definition covid_differences : dict :=
  [ (CStr "A", [CInt 5; CInt (-2)]); (CNaN, []); (CStr "B", [CInt 2]);
    (CStr "C", []); (CStr "D", [CInt 4; CInt 2]) ].

Definition covid_fatalities : dict :=
  [ (CStr "A", [CInt 2; CInt 0]); (CNaN, []); (CStr "B", [CInt 0]);
    (CStr "C", []); (CStr "D", [CInt 0; CInt 3]) ].

(** Two series over a common axis of two dates. *)
Definition two_series : dict :=
  [ (CStr "A", [CInt 5; CInt (-2)]); (CStr "D", [CInt 4; CInt 2]) ].

Definition covid_dates : list cell :=
  [CDate (date_of_ymd 2020 3 5); CDate (date_of_ymd 2020 3 6)].

(** A table whose value columns hold the two ends of the int64 range, and
    what [calculate_differences] returns on it. *)
Definition wide_data : DataFrame :=
  mkDataFrame [Some "province"; Some "date"]%string
    ["confirmed"; "fatalities, %"]%string
    [ mkRow [CStr "A"; CDate (date_of_ymd 2020 3 1)]
            [CInt (- 2 ^ 63); CInt 0];
      mkRow [CStr "A"; CDate (date_of_ymd 2020 3 2)]
            [CInt (2 ^ 63 - 1); CInt 1] ].

(** One tenth, three tenths and two tenths as float64. *)
Definition tenth : spec_float := float_div (float_of_Z 1) (float_of_Z 10).
Definition three_tenths : spec_float :=
  float_div (float_of_Z 3) (float_of_Z 10).
Definition two_tenths : spec_float := float_div (float_of_Z 2) (float_of_Z 10).

(** A table whose fatality percentage is a float64 column. *)
Definition rates_data : DataFrame :=
  mkDataFrame [Some "province"; Some "date"]%string
    ["confirmed"; "fatalities, %"]%string
    [ mkRow [CStr "A"; CDate (date_of_ymd 2020 3 1)]
            [CInt 10; CFloat tenth];
      mkRow [CStr "A"; CDate (date_of_ymd 2020 3 2)]
            [CInt 15; CFloat three_tenths];
      mkRow [CStr "A"; CDate (date_of_ymd 2020 3 3)]
            [CInt 13; CNaN] ].

(** The labels of the [province] level of [covid_data], row by row. *)
Definition covid_labels : list cell :=
  [CStr "A"; CNaN; CStr "B"; CStr "A"; CStr "C"; CStr "A"; CStr "D";
   CStr "D"; CStr "B"; CStr "D"].

(* ===================================================================== *)
(** * Regular expressions, as far as [find_word] needs them *)
(* ===================================================================== *)

(** [\w] on the code points below 256: [str.isalnum()] or the underscore
    (ASCII letters and digits, and the Latin-1 letters and numerals). *)
Definition is_word_char (c : ascii) : bool :=
  let n := nat_of_ascii c in
  (char_between "0" "9" c || char_between "A" "Z" c || char_between "a" "z" c
   || Ascii.eqb c "_"
   || (n =? 170) || (n =? 178) || (n =? 179) || (n =? 181) || (n =? 185)
   || (n =? 186)
   || ((188 <=? n) && (n <=? 190)) || ((192 <=? n) && (n <=? 214))
   || ((216 <=? n) && (n <=? 246)) || (248 <=? n))%nat.

Definition is_word_opt (c : option ascii) : bool :=
  match c with
  | Some a => is_word_char a
  | None => false
  end.

(** The fragment of the pattern syntax that is modelled: literal characters,
    [.], a greedy [?] after one of these, [\b], and [|] between
    alternatives. *)
Inductive atom : Type :=
| AChar (c : ascii)
| AAny.

Inductive item : Type :=
| IAtom (a : atom)
| IOpt (a : atom)
| IWordB.

(** The characters whose meaning in a pattern is outside the fragment. *)
Definition is_special (c : ascii) : bool :=
  existsb (Ascii.eqb c) (list_ascii_of_string "*+()[]{}^$").

Definition atom_of (c : ascii) : atom :=
  if Ascii.eqb c "." then AAny else AChar c.

(** Put an item in front of the first alternative. *)
Definition push (it : item) (alts : list (list item)) : list (list item) :=
  match alts with
  | a :: rest => (it :: a) :: rest
  | [] => [[it]]
  end.

(** [re.compile(pattern)]: the alternatives of the pattern, each a sequence
    of items.  [?] with nothing to repeat and a trailing backslash raise
    [re.error]; syntax outside the fragment ends in [Unmodelled]. *)
Fixpoint re_compile (p : list ascii) : result (list (list item)) :=
  match p with
  | [] => Ok [[]]
  | c :: p' =>
      if Ascii.eqb c "|" then
        alts <- re_compile p' ;; Ok ([] :: alts)
      else if Ascii.eqb c "\" then
        match p' with
        | b :: p'' =>
            if Ascii.eqb b "b"
            then alts <- re_compile p'' ;; Ok (push IWordB alts)
            else Err Unmodelled
        | [] => Err re_error
        end
      else if Ascii.eqb c "?" then Err re_error
      else if is_special c then Err Unmodelled
      else
        match p' with
        | q :: p'' =>
            if Ascii.eqb q "?" then
              match p'' with
              | r :: _ =>
                  if Ascii.eqb r "?" || Ascii.eqb r "+" then Err Unmodelled
                  else alts <- re_compile p'' ;;
                       Ok (push (IOpt (atom_of c)) alts)
              | [] => alts <- re_compile p'' ;;
                      Ok (push (IOpt (atom_of c)) alts)
              end
            else alts <- re_compile p' ;; Ok (push (IAtom (atom_of c)) alts)
        | [] => alts <- re_compile p' ;; Ok (push (IAtom (atom_of c)) alts)
        end
  end.

(** [.] matches any character but the newline. *)
Definition atom_matches (a : atom) (c : ascii) : bool :=
  match a with
  | AChar x => Ascii.eqb x c
  | AAny => negb (Ascii.eqb c (ascii_of_nat 10))
  end.

(** [\b] between the character before the position and the one at it: just
    one of the two is a word character (the ends of the text are not). *)
Definition at_boundary (prev : option ascii) (s : list ascii) : bool :=
  xorb (is_word_opt prev) (is_word_opt (hd_error s)).

(** Some way of matching the items starts at this position; [prev] is the
    character before it. *)
Fixpoint match_here (its : list item) (prev : option ascii) (s : list ascii)
  : bool :=
  match its with
  | [] => true
  | IWordB :: its' => at_boundary prev s && match_here its' prev s
  | IAtom a :: its' =>
      match s with
      | c :: s' => atom_matches a c && match_here its' (Some c) s'
      | [] => false
      end
  | IOpt a :: its' =>
      match s with
      | c :: s' => atom_matches a c && match_here its' (Some c) s'
      | [] => false
      end
      || match_here its' prev s
  end.

(** [regex.search(text)] as a truth value: some alternative matches at some
    position. *)
Fixpoint re_search (alts : list (list item)) (prev : option ascii)
    (s : list ascii) : bool :=
  existsb (fun its => match_here its prev s) alts
  || match s with
     | c :: s' => re_search alts (Some c) s'
     | [] => false
     end.

(* ===================================================================== *)
(** * [find_word] *)
(* ===================================================================== *)

(** [series.str]: the accessor exists for a column that holds a string (or
    nothing at all). *)
Definition is_str (c : cell) : bool :=
  match c with CStr _ => true | _ => false end.

Definition str_accessor (series : list cell) : result unit :=
  match series with
  | [] => Ok tt
  | _ :: _ => if existsb is_str series then Ok tt else Err AttributeError
  end.

(** One element of [series.str.contains(pattern, regex=True)]: a truth
    value for a string, missing for anything else. *)
Definition str_contains (alts : list (list item)) (c : cell) : option bool :=
  match c with
  | CStr s => Some (re_search alts None (list_ascii_of_string s))
  | _ => None
  end.

(** A mask is usable for indexing when no element of it is missing. *)
Fixpoint bool_mask (m : list (option bool)) : result (list bool) :=
  match m with
  | [] => Ok []
  | Some b :: m' => bs <- bool_mask m' ;; Ok (b :: bs)
  | None :: _ => Err ValueError_mask_na
  end.

(** [fr'\b{word}s?\b']. *)
Definition word_pattern (word : string) : string :=
  ("\b" ++ word ++ "s?\b")%string.

Definition find_word (dataframe : DataFrame) (column word : string)
  : result DataFrame :=
  let pattern := word_pattern word in
  series <- getitem dataframe column ;;
  _ <- str_accessor series ;;
  regex <- re_compile (list_ascii_of_string pattern) ;;
  mask <- bool_mask (map (str_contains regex) series) ;;
  let filtered_df := getitem_mask dataframe mask in
  Ok filtered_df.

(** ** Whole words, in the words of the specification *)

(** The text after [form], when the text starts with [form]. *)
Fixpoint strip_prefix (form text : list ascii) : option (list ascii) :=
  match form, text with
  | [], _ => Some text
  | a :: form', c :: text' =>
      if Ascii.eqb a c then strip_prefix form' text' else None
  | _ :: _, [] => None
  end.

(** [form] stands at this position as a whole word: no word character
    right before it and none right after it. *)
Definition whole_word_here (form : list ascii) (prev : option ascii)
    (text : list ascii) : bool :=
  negb (is_word_opt prev)
  && match strip_prefix form text with
     | Some rest => negb (is_word_opt (hd_error rest))
     | None => false
     end.

(** [form] stands somewhere in the text as a whole word. *)
Fixpoint whole_word_in (form : list ascii) (prev : option ascii)
    (text : list ascii) : bool :=
  whole_word_here form prev text
  || match text with
     | c :: text' => whole_word_in form (Some c) text'
     | [] => false
     end.

(** The text contains the word as a whole word, as it is or with one ["s"]
    after it. *)
Definition contains_word (word text : string) : bool :=
  let w := list_ascii_of_string word in
  let t := list_ascii_of_string text in
  whole_word_in w None t || whole_word_in (w ++ ["s"%char]) None t.

(** The rows whose cell at column position [n] is a string containing the
    word. *)
Definition rows_with_word (dataframe : DataFrame) (n : nat) (word : string)
  : list row :=
  filter (fun r => match cell_at n (r_cells r) with
                   | CStr s => contains_word word s
                   | _ => false
                   end) (rows dataframe).

(** A text column, as in the example of the word filter. *)
Definition animals : DataFrame :=
  mkDataFrame [None] ["text"%string]
    [ mkRow [CInt 0] [CStr "cat runs"];
      mkRow [CInt 1] [CStr "cats jump"];
      mkRow [CInt 2] [CStr "dog barks"] ].

(** A column on which the dot of a word acts as a wildcard. *)
Definition cuts : DataFrame :=
  mkDataFrame [None] ["text"%string]
    [ mkRow [CInt 0] [CStr "a cut above"];
      mkRow [CInt 1] [CStr "dog barks"] ].

(** The items of a word taken literally. *)
Definition literal (w : list ascii) : list item :=
  map (fun c => IAtom (AChar c)) w.

(** The items of [\b{word}s?\b] for a word of literal characters. *)
Definition word_items (w : list ascii) : list item :=
  IWordB :: literal w ++ [IOpt (AChar "s"); IWordB].

(** A character that stands for itself in a pattern. *)
Definition is_plain (c : ascii) : bool :=
  negb (Ascii.eqb c "|") && negb (Ascii.eqb c "\") && negb (Ascii.eqb c "?")
  && negb (is_special c) && negb (Ascii.eqb c ".").

Definition starts_with_question (p : list ascii) : bool :=
  match p with
  | q :: _ => Ascii.eqb q "?"
  | [] => false
  end.

(* ===================================================================== *)
(** * [count_words] *)
(* ===================================================================== *)

(** [str.isspace()] on the code points below 256. *)
Definition is_space (c : ascii) : bool :=
  let n := nat_of_ascii c in
  (((9 <=? n) && (n <=? 13)) || ((28 <=? n) && (n <=? 32))
   || (n =? 133) || (n =? 160))%nat.

(** [s.split()]: the maximal runs of characters that are not blanks; [cur]
    is the run being read. *)
Fixpoint split_ws (s cur : list ascii) : list (list ascii) :=
  match s with
  | [] => match cur with [] => [] | _ :: _ => [cur] end
  | c :: s' =>
      if is_space c
      then match cur with
           | [] => split_ws s' []
           | _ :: _ => cur :: split_ws s' []
           end
      else split_ws s' (cur ++ [c])
  end.

(** One element of [series.str.split().str[-1]]: the last token of a string;
    missing for a string without token and for what is no string. *)
Definition last_word (c : cell) : cell :=
  match c with
  | CStr s =>
      match last (map Some (split_ws (list_ascii_of_string s) [])) None with
      | Some t => CStr (string_of_list_ascii t)
      | None => CNaN
      end
  | _ => CNaN
  end.

(** Count one more occurrence of [c]. *)
Fixpoint count_add (c : cell) (counts : list (cell * nat))
  : list (cell * nat) :=
  match counts with
  | [] => [(c, 1%nat)]
  | (k, n) :: counts' =>
      if cell_same c k then (k, S n) :: counts'
      else (k, n) :: count_add c counts'
  end.

(** Put an entry into a list sorted by falling count, before the entries
    that do not count more. *)
Fixpoint insert_count (x : cell * nat) (sorted : list (cell * nat))
  : list (cell * nat) :=
  match sorted with
  | [] => [x]
  | y :: sorted' =>
      if (snd y <=? snd x)%nat then x :: y :: sorted'
      else y :: insert_count x sorted'
  end.

(** [series.value_counts()]: the values that are not missing with their
    counts, most frequent first; values that count the same stay in order
    of first appearance. *)
Definition value_counts (series : list cell) : list (cell * nat) :=
  fold_right insert_count []
    (fold_left (fun counts c =>
                  match c with
                  | CNaN => counts
                  | _ => count_add c counts
                  end) series []).

(** [x.head(n)]: the first [n] entries, all but the last [-n] for a negative
    [n]. *)
Definition head {A : Type} (n : Z) (l : list A) : list A :=
  if 0 <=? n then firstn (Z.to_nat n) l
  else firstn (length l - Z.to_nat (- n)) l.

Definition count_words (dataframe : DataFrame) (column : string) (n : Z)
  : result (list cell) :=
  series <- getitem dataframe column ;;
  _ <- str_accessor series ;;
  let last_words := map last_word series in
  let word_counts := value_counts last_words in
  let words := map fst (head n word_counts) in
  Ok words.

(* ===================================================================== *)
(** * Calls on shared objects: the heap and the drawing surface *)
(* ===================================================================== *)

(** The mutable objects that the functions are handed: tables, lists and
    dicts live in a heap and are passed by reference; strings, integers,
    datetimes and [pandas.Index] values are immutable and passed as they
    are. *)
Inductive object : Type :=
| OFrame (df : DataFrame)
| OStrList (l : list string)
| ODateList (l : list datetime)
| OCellList (l : list cell)
| ODict (d : dict)
| OSeries (values : list cell)
| OMask (m : list (option bool))
| OCounts (counts : list (cell * nat)).

(** A geometry of a [GeoDataFrame]: a point, or a shape that is no point (a
    border, an area), which the code only hands on to be drawn. *)
Inductive geometry : Type :=
| GPoint (x y : spec_float)
| GShape (id : nat).

(** What [pyplot] has been told: the commands for the current figure, in
    the order in which they were given; [Subplots] opens a new figure, which
    is the current one from then on. *)
Inductive draw : Type :=
| Title (s : string)
| XLabel (s : string)
| YLabel (s : string)
| XTicks (rotation : Z)
| Legend
| Line (x y : list cell) (label : cell)
| Subplots (width height : Z)
| GeoPlot (shapes : list geometry) (style : list (string * string))
| Markers (points : list geometry) (markersize : list cell)
          (style : list (string * string))
| XLim (lo hi : spec_float)
| YLim (lo hi : spec_float)
| Aspect (s : string)
| Annotate (text : cell) (x y : spec_float) (style : list (string * string)).

Definition ref : Type := nat.

Record world : Type := mkWorld {
  heap : list object;
  surface : list draw
}.

(** A call: from the world before it to its outcome and the world after. *)
Definition call (A : Type) : Type := world -> result A * world.

Definition ret {A : Type} (a : A) : call A := fun w => (Ok a, w).

Definition and_then {A B : Type} (m : call A) (k : A -> call B) : call B :=
  fun w =>
    match m w with
    | (Ok a, w') => k a w'
    | (Err e, w') => (Err e, w')
    end.

Notation "x <~ m ;; k" := (and_then m (fun x => k))
  (at level 61, m at next level, right associativity).

(** A computation on values, which touches nothing. *)
Definition lift {A : Type} (r : result A) : call A := fun w => (r, w).

(** A new object, at the next free address. *)
Definition alloc (o : object) : call ref :=
  fun w => (Ok (length (heap w)), mkWorld (heap w ++ [o]) (surface w)).

Definition load (r : ref) : call object :=
  fun w => match nth_error (heap w) r with
           | Some o => (Ok o, w)
           | None => (Err Unmodelled, w)
           end.

Definition load_frame (r : ref) : call DataFrame :=
  o <~ load r ;;
  match o with OFrame df => ret df | _ => lift (Err TypeError) end.

Definition load_str_list (r : ref) : call (list string) :=
  o <~ load r ;;
  match o with OStrList l => ret l | _ => lift (Err TypeError) end.

Definition load_dict (r : ref) : call dict :=
  o <~ load r ;;
  match o with ODict d => ret d | _ => lift (Err TypeError) end.

(** One more command for the current figure. *)
Definition plt (c : draw) : call unit :=
  fun w => (Ok tt, mkWorld (heap w) (surface w ++ [c])).

(** [plt.plot(x, y, label=label)]: one more line on the current figure;
    nothing is drawn, and [ValueError] is raised, when [x] and [y] differ in
    length. *)
Definition plt_plot (x y : list cell) (label : cell) : call unit :=
  if (length x =? length y)%nat then plt (Line x y label)
  else lift (Err ValueError_shape).

(** ** The functions as calls *)

Definition load_date_list (r : ref) : call (list datetime) :=
  o <~ load r ;;
  match o with ODateList l => ret l | _ => lift (Err TypeError) end.

(** The list with its element at position [n] replaced. *)
Fixpoint replace_nth {A : Type} (n : nat) (x : A) (l : list A) : list A :=
  match l, n with
  | [], _ => []
  | _ :: l', O => x :: l'
  | y :: l', S k => y :: replace_nth k x l'
  end.

(** An object changed in place. *)
Definition store (r : ref) (o : object) : call unit :=
  fun w =>
    if (r <? length (heap w))%nat
    then (Ok tt, mkWorld (replace_nth r o (heap w)) (surface w))
    else (Err Unmodelled, w).

(** [date_range.append(date)]. *)
Definition list_append (date_range : ref) (date : datetime) : call unit :=
  l <~ load_date_list date_range ;;
  store date_range (ODateList (l ++ [date])).

(** [d[k] = v]. *)
Definition dict_setitem (d : ref) (k : cell) (v : list cell) : call unit :=
  o <~ load_dict d ;;
  o' <~ lift (dict_assign k v o) ;;
  store d (ODict o').

Definition load_series (r : ref) : call (list cell) :=
  o <~ load r ;;
  match o with OSeries l => ret l | _ => lift (Err TypeError) end.

Definition load_mask (r : ref) : call (list (option bool)) :=
  o <~ load r ;;
  match o with OMask m => ret m | _ => lift (Err TypeError) end.

Definition load_counts (r : ref) : call (list (cell * nat)) :=
  o <~ load r ;;
  match o with OCounts c => ret c | _ => lift (Err TypeError) end.

(** [dataframe[column]]: a Series object over the values of the column. *)
Definition getitem_call (dataframe : ref) (column : string) : call ref :=
  df <~ load_frame dataframe ;;
  values <~ lift (getitem df column) ;;
  alloc (OSeries values).

(** [series.str.contains(pattern, regex=True)]: a new Series of truth
    values. *)
Definition str_contains_call (series : ref) (pattern : string) : call ref :=
  values <~ load_series series ;;
  _ <~ lift (str_accessor values) ;;
  regex <~ lift (re_compile (list_ascii_of_string pattern)) ;;
  alloc (OMask (map (str_contains regex) values)).

(** [dataframe[mask]]: a new table with the selected rows. *)
Definition getitem_mask_call (dataframe mask : ref) : call ref :=
  df <~ load_frame dataframe ;;
  m <~ load_mask mask ;;
  bm <~ lift (bool_mask m) ;;
  alloc (OFrame (getitem_mask df bm)).

(** [find_word] statement by statement: each pandas call makes an object of
    its own and none stores into the table it reads. *)
Definition find_word_call (dataframe : ref) (column word : string) : call ref :=
  let pattern := word_pattern word in
  series <~ getitem_call dataframe column ;;
  mask <~ str_contains_call series pattern ;;
  filtered_df <~ getitem_mask_call dataframe mask ;;
  ret filtered_df.

(** [series.str.split().str[-1]]: a new Series of last words. *)
Definition last_words_call (series : ref) : call ref :=
  values <~ load_series series ;;
  _ <~ lift (str_accessor values) ;;
  alloc (OSeries (map last_word values)).

(** [last_words.value_counts()]: a new Series of counts. *)
Definition value_counts_call (series : ref) : call ref :=
  values <~ load_series series ;;
  alloc (OCounts (value_counts values)).

(** [word_counts.head(n).index.tolist()]: a new list. *)
Definition head_index_tolist_call (counts : ref) (n : Z) : call ref :=
  c <~ load_counts counts ;;
  alloc (OCellList (map fst (head n c))).

Definition count_words_call (dataframe : ref) (column : string) (n : Z)
  : call ref :=
  series <~ getitem_call dataframe column ;;
  last_words <~ last_words_call series ;;
  word_counts <~ value_counts_call last_words ;;
  words <~ head_index_tolist_call word_counts n ;;
  ret words.

(** [get_date_range] with its list on the heap: [date_range = []] makes a
    new list, which each round of the loop appends to in place. *)
Fixpoint date_range_loop_call (start_date : datetime) (idx : list Z)
    (date_range : ref) : call unit :=
  match idx with
  | [] => ret tt
  | i :: idx' =>
      delta <~ lift (timedelta i) ;;
      date <~ lift (datetime_add start_date delta) ;;
      _ <~ list_append date_range date ;;
      date_range_loop_call start_date idx' date_range
  end.

Definition get_date_range_call (chosen_date : datetime) (days : Z) : call ref :=
  delta <~ lift (timedelta days) ;;
  start_date <~ lift (datetime_sub chosen_date delta) ;;
  date_range <~ alloc (ODateList []) ;;
  _ <~ date_range_loop_call start_date range7 date_range ;;
  ret date_range.

(** [get_matching_entries] on the heap: [matching_entries] is a variable
    holding a reference; each round makes the window list, reads the table,
    and binds the variable to the new table that [pd.concat] makes. *)
Fixpoint matching_entries_loop_call (dates : list string) (data : ref)
    (date_column : string) (days : Z) (matching_entries : ref) : call ref :=
  match dates with
  | [] => ret matching_entries
  | date_str :: dates' =>
      date_obj <~ lift (strptime_Ymd date_str) ;;
      date_range <~ get_date_range_call date_obj days ;;
      window <~ load_date_list date_range ;;
      df <~ load_frame data ;;
      series <~ lift (getitem df date_column) ;;
      let matching_df := getitem_mask df (isin series window) in
      acc <~ load_frame matching_entries ;;
      matching_entries <~ alloc (OFrame (concat_ignore_index acc matching_df)) ;;
      matching_entries_loop_call dates' data date_column days matching_entries
  end.

Definition get_matching_entries_call (dates_of_interest data : ref)
    (date_column : string) (days : Z) : call ref :=
  dates <~ load_str_list dates_of_interest ;;
  matching_entries <~ alloc (OFrame empty_frame) ;;
  matching_entries_loop_call dates data date_column days matching_entries.

(** [calculate_differences] on the heap: the two dicts are new objects that
    the loop fills in place; [subset] is a local variable. *)
Fixpoint differences_loop_call (values : list cell) (data : ref)
    (index_column value_column : string)
    (differences differences_fatalities : ref) (subset : option DataFrame)
  : call (option DataFrame) :=
  match values with
  | [] => ret subset
  | value :: values' =>
      df <~ load_frame data ;;
      labels <~ lift (get_level_values df index_column) ;;
      let subset := subset_of df labels value in
      series <~ lift (getitem subset value_column) ;;
      d <~ lift (np_diff (dtype_of_column df value_column) series) ;;
      _ <~ dict_setitem differences value d ;;
      series_f <~ lift (getitem subset fatalities_column) ;;
      f <~ lift (np_diff (dtype_of_column df fatalities_column) series_f) ;;
      _ <~ dict_setitem differences_fatalities value f ;;
      differences_loop_call values' data index_column value_column
        differences differences_fatalities (Some subset)
  end.

Definition calculate_differences_call (data : ref)
    (index_column value_column : string)
  : call (ref * ref * list cell * list cell) :=
  df <~ load_frame data ;;
  labels <~ lift (get_level_values df index_column) ;;
  let unique_values := unique labels in
  differences <~ alloc (ODict []) ;;
  differences_fatalities <~ alloc (ODict []) ;;
  subset <~ differences_loop_call unique_values data index_column value_column
              differences differences_fatalities None ;;
  match subset with
  | None => lift (Err UnboundLocalError)
  | Some subset =>
      all_dates <~ lift (get_level_values subset "date") ;;
      ret (differences, differences_fatalities, tl all_dates, unique_values)
  end.

(** [set_parameters]: five commands for the current figure. *)
Definition set_parameters_call (title xlabel ylabel : string) (rotation : Z)
  : call unit :=
  _ <~ plt (Title title) ;;
  _ <~ plt (XLabel xlabel) ;;
  _ <~ plt (YLabel ylabel) ;;
  _ <~ plt (XTicks rotation) ;;
  plt Legend.

(** The [for value in unique_values] loop of [plot_differences]. *)
Fixpoint plot_differences_loop (values : list cell) (xaxis : list cell)
    (yaxis : ref) : call unit :=
  match values with
  | [] => ret tt
  | value :: values' =>
      d <~ load_dict yaxis ;;
      y <~ lift (dict_item d value) ;;
      _ <~ plt_plot xaxis y value ;;
      plot_differences_loop values' xaxis yaxis
  end.

Definition plot_differences_call (unique_values xaxis : list cell)
    (yaxis : ref) : call unit :=
  plot_differences_loop unique_values xaxis yaxis.

(** ** Frames *)

(** The call left every object that existed before it as it was, and drew
    nothing. *)
Definition untouched (w w' : world) : Prop :=
  surface w' = surface w /\
  forall a o, nth_error (heap w) a = Some o -> nth_error (heap w') a = Some o.

(** The object that a returned reference points to. *)
Definition fetch (out : result ref * world) : result object :=
  match out with
  | (Ok r, w) => match nth_error (heap w) r with
                 | Some o => Ok o
                 | None => Err Unmodelled
                 end
  | (Err e, _) => Err e
  end.

Definition map_result {A B : Type} (f : A -> B) (r : result A) : result B :=
  match r with
  | Ok a => Ok (f a)
  | Err e => Err e
  end.

(** The two dicts and the two indexes that [calculate_differences_call]
    hands back. *)
Definition fetch_differences
    (out : result (ref * ref * list cell * list cell) * world)
  : result (dict * dict * list cell * list cell) :=
  match out with
  | (Ok (d, f, dates, uniq), w) =>
      match nth_error (heap w) d, nth_error (heap w) f with
      | Some (ODict dd), Some (ODict ff) => Ok (dd, ff, dates, uniq)
      | _, _ => Err Unmodelled
      end
  | (Err e, _) => Err e
  end.

(** A world with the sample tables, a list of reference dates and the dict
    of differences, and with a title already on the figure. *)
Definition sample_world : world :=
  mkWorld
    [ OFrame animals; OFrame policy_data;
      OStrList ["2023-05-01"; "2023-05-02"]%string;
      OFrame covid_data; ODict two_series ]
    [Title "before"].

(** The call only added objects: what was on the heap is still there,
    unchanged, and the figure is as it was. *)
Definition grown (w w' : world) : Prop :=
  surface w' = surface w /\ exists new, heap w' = heap w ++ new.

(** A text column with a missing value. *)
Definition gaps : DataFrame :=
  mkDataFrame [None] ["text"%string]
    [ mkRow [CInt 0] [CStr "cat runs"];
      mkRow [CInt 1] [CNaN] ].

(** What [get_matching_entries] returns on [policy_data] for the reference
    dates 2023-05-01 and 2023-05-02 with [days = 7]. *)
Definition policy_matches : DataFrame :=
  mkDataFrame [None] ["start_date"; "policy"]%string
    [ mkRow [CInt 0] [CDate (date_of_ymd 2023 4 24); CStr "masks"];
      mkRow [CInt 1] [CDate (date_of_ymd 2023 4 30); CStr "travel"];
      mkRow [CInt 2] [CDate (date_of_ymd 2023 4 30); CStr "travel"] ].

(** The index of a table is a fresh [RangeIndex]: one unnamed level whose
    labels are the row positions 0, 1, 2, ... *)
Definition range_indexed (df : DataFrame) : Prop :=
  index_names df = [None] /\
  forall i r, nth_error (rows df) i = Some r ->
              r_index r = [CInt (Z.of_nat i)].

(** Whether [str.contains] keeps a cell: the truth value of the search for a
    string. *)
Definition str_keep (alts : list (list item)) (c : cell) : bool :=
  match str_contains alts c with
  | Some b => b
  | None => false
  end.

(** How often [w] stands in [l]. *)
Definition occurrences (w : cell) (l : list cell) : nat :=
  count_occ cell_eq_dec l w.

(** The last words of the entries of a column, entry by entry (missing for
    an entry without words). *)
Definition last_words_of (df : DataFrame) (column : string) : list cell :=
  match getitem df column with
  | Ok series => map last_word series
  | Err _ => []
  end.

(** [counts] is the tally of the entries [done]: one pair for each value
    that is not missing, holding the number of its occurrences. *)
Definition tallied (done : list cell) (counts : list (cell * nat)) : Prop :=
  NoDup (map fst counts) /\
  Forall (fun p => fst p <> CNaN /\ snd p = occurrences (fst p) done) counts /\
  forall k, k <> CNaN -> In k done -> In k (map fst counts).

(** No pair counts more than a pair before it. *)
Definition falling (x y : cell * nat) : Prop := (snd y <= snd x)%nat.

(** A column in which the last words repeat. *)
Definition headlines : DataFrame :=
  mkDataFrame [None] ["title"%string]
    [ mkRow [CInt 0] [CStr "cases rise"];
      mkRow [CInt 1] [CStr "new rules"];
      mkRow [CInt 2] [CStr "strict rules "];
      mkRow [CInt 3] [CStr ""];
      mkRow [CInt 4] [CStr "prices rise"];
      mkRow [CInt 5] [CStr "more rules"];
      mkRow [CInt 6] [CStr "calm"] ].

(** A keyed table without rows. *)
Definition covid_no_rows : DataFrame :=
  mkDataFrame [Some "province"; Some "date"]%string
    ["confirmed"; "fatalities, %"]%string [].

(** A keyed table whose last key is missing. *)
Definition covid_missing_last : DataFrame :=
  mkDataFrame [Some "province"; Some "date"]%string
    ["confirmed"; "fatalities, %"]%string
    [ mkRow [CStr "A"; CDate (date_of_ymd 2020 3 1)] [CInt 10; CInt 1];
      mkRow [CStr "A"; CDate (date_of_ymd 2020 3 2)] [CInt 15; CInt 3];
      mkRow [CNaN; CDate (date_of_ymd 2020 3 2)] [CInt 1; CInt 0] ].

(** The line that [plot_differences] draws for one key. *)
Definition line_of (xaxis : list cell) (d : dict) (value : cell) : draw :=
  Line xaxis (match dict_get value d with Some y => y | None => [] end) value.

(** The lookup of the key in the dict finds a series, as long as the
    x axis. *)
Definition plottable (xaxis : list cell) (d : dict) (value : cell) : Prop :=
  exists y, dict_item d value = Ok y /\ length y = length xaxis.




(** ** Windows, in the words of the specification *)

(** The cell is a datetime on one of the seven days that start [days] days
    before [date], at the time of day of [date]. *)
Definition in_week (date : datetime) (days : Z) (c : cell) : bool :=
  match c with
  | CDate d =>
      (tod d =? tod date)
      && (ordinal date - days <=? ordinal d)
      && (ordinal d <=? ordinal date - days + 6)
  | _ => false
  end.

(** The rows of [data] whose cell at column position [n] lies in the week
    of [date], in table order. *)
Definition week_rows (data : DataFrame) (n : nat) (days : Z)
    (date : datetime) : list row :=
  filter (fun r => in_week date days (cell_at n (r_cells r))) (rows data).

(** The reference dates 2023-05-01 and 2023-05-02. *)
Definition may_days : list datetime :=
  [date_of_ymd 2023 5 1; date_of_ymd 2023 5 2].

(** The call only adds objects, whatever the world it starts in. *)
Definition allocates {A : Type} (m : call A) : Prop :=
  forall w, grown w (snd (m w)).

(* ===================================================================== *)
(** * [plot_data] *)
(* ===================================================================== *)

(** [plot_data] is followed on what it tells [pyplot]: the commands it
    gives, in order, and the exception that ends it, if one does.  The
    shapefiles are read by [geopandas]; what a path holds is a parameter.
    Whether the [GeoDataFrame] made from [mapping_data] shares the table it
    is made from is not followed. *)

(** A [GeoDataFrame]: named columns, and rows of cells that each carry a
    geometry. *)
Record GeoDataFrame : Type := mkGeo {
  geo_columns : list string;
  geo_rows : list (list cell * geometry)
}.

(** [frame[column]]. *)
Definition geo_getitem (frame : GeoDataFrame) (column : string)
  : result (list cell) :=
  match index_of String.eqb column (geo_columns frame) with
  | Some n => Ok (map (fun r => cell_at n (fst r)) (geo_rows frame))
  | None => Err KeyError
  end.

Fixpoint select {A : Type} (l : list A) (mask : list bool) : list A :=
  match l, mask with
  | x :: l', b :: mask' => if b then x :: select l' mask' else select l' mask'
  | _, _ => []
  end.

(** [frame[mask]]. *)
Definition geo_select (frame : GeoDataFrame) (mask : list bool)
  : GeoDataFrame :=
  mkGeo (geo_columns frame) (select (geo_rows frame) mask).

Definition geometries (frame : GeoDataFrame) : list geometry :=
  map snd (geo_rows frame).

(** [frame[frame[column] == text]]. *)
Definition where_equal (frame : GeoDataFrame) (column text : string)
  : result GeoDataFrame :=
  series <- geo_getitem frame column ;;
  Ok (geo_select frame (map (fun c => cell_py_eq c (CStr text)) series)).

(** [series <= z] for an integer [z]: elementwise on numbers, false at a
    missing value; a column with strings raises [TypeError]. *)
Definition series_le (series : list cell) (z : Z) : result (list bool) :=
  t <- dtype_of series ;;
  match t with
  | Int64 =>
      Ok (map (fun c => match c with CInt v => v <=? z | _ => false end)
              series)
  | Float64 =>
      Ok (map (fun c => match as_float c with
                        | Some f => SFleb f (float_of_Z z)
                        | None => false
                        end) series)
  | Object => Err TypeError
  end.

(** [frame[frame[column] <= z]]. *)
Definition where_at_most (frame : GeoDataFrame) (column : string) (z : Z)
  : result GeoDataFrame :=
  series <- geo_getitem frame column ;;
  mask <- series_le series z ;;
  Ok (geo_select frame mask).

(** The numbers of a numeric column as floats, the missing ones left out. *)
Definition numbers (series : list cell) : list spec_float :=
  flat_map (fun c => match as_float c with
                     | Some S754_nan | None => []
                     | Some f => [f]
                     end) series.

Definition float_min (f g : spec_float) : spec_float :=
  if SFltb g f then g else f.

Definition float_max (f g : spec_float) : spec_float :=
  if SFltb f g then g else f.

(** The least (greatest) of some floats; NaN when there is none. *)
Definition least (l : list spec_float) : spec_float :=
  match l with
  | [] => S754_nan
  | f :: l' => fold_left float_min l' f
  end.

Definition greatest (l : list spec_float) : spec_float :=
  match l with
  | [] => S754_nan
  | f :: l' => fold_left float_max l' f
  end.

(** [series.min() - zoom_level] and [series.max() + zoom_level] for a float
    [zoom_level]: missing values are skipped, the result is a float64, NaN
    for a column without a number; on a column with strings the
    subtraction or the comparison of objects raises [TypeError]. *)
Definition min_minus (series : list cell) (zoom_level : spec_float)
  : result spec_float :=
  t <- dtype_of series ;;
  match t with
  | Object => Err TypeError
  | _ => Ok (float_sub (least (numbers series)) zoom_level)
  end.

Definition max_plus (series : list cell) (zoom_level : spec_float)
  : result spec_float :=
  t <- dtype_of series ;;
  match t with
  | Object => Err TypeError
  | _ => Ok (float_add (greatest (numbers series)) zoom_level)
  end.

(** [Point(xy)] for the numbers of two numeric columns. *)
Definition point_of (xy : cell * cell) : result geometry :=
  match as_float (fst xy), as_float (snd xy) with
  | Some x, Some y => Ok (GPoint x y)
  | _, _ => Err Unmodelled
  end.

Fixpoint all_ok {A : Type} (l : list (result A)) : result (list A) :=
  match l with
  | [] => Ok []
  | r :: l' => a <- r ;; l'' <- all_ok l' ;; Ok (a :: l'')
  end.

(** [frame.attr] for a name that is no attribute of a [DataFrame]: the
    column of that name, [AttributeError] when there is none. *)
Definition getattr_column (data : DataFrame) (name : string)
  : result (list cell) :=
  match getitem data name with
  | Ok series => Ok series
  | Err _ => Err AttributeError
  end.

(** Marker sizes have to be numbers. *)
Definition marker_sizes (series : list cell) : result (list cell) :=
  t <- dtype_of series ;;
  match t with
  | Object => Err Unmodelled
  | _ => Ok series
  end.

(** [frame.geometry.x] and [frame.geometry.y] zipped: the coordinates of
    the points; [ValueError] when a geometry is no point. *)
Definition point_coordinates (g : geometry)
  : result (spec_float * spec_float) :=
  match g with
  | GPoint x y => Ok (x, y)
  | GShape _ => Err ValueError_geometry
  end.

(** A computation that gives commands to [pyplot]: from the commands given
    so far to its outcome and the commands given after it. *)
Definition drawing (A : Type) : Type := list draw -> result A * list draw.

Definition then_draw {A B : Type} (m : drawing A) (k : A -> drawing B)
  : drawing B :=
  fun s =>
    match m s with
    | (Ok a, s') => k a s'
    | (Err e, s') => (Err e, s')
    end.

Notation "x <~~ m ;; k" := (then_draw m (fun x => k))
  (at level 61, m at next level, right associativity).

(** A computation on values, which gives no command. *)
Definition compute {A : Type} (r : result A) : drawing A := fun s => (r, s).

(** One command. *)
Definition emit (c : draw) : drawing unit := fun s => (Ok tt, s ++ [c]).

(** The commands of a loop that cannot fail, one per round. *)
Definition emit_each (cs : list draw) : drawing unit :=
  fun s => (Ok tt, s ++ cs).

(** [ax.set_xlim(lo, hi)] and [ax.set_ylim(lo, hi)]: a limit that is NaN or
    infinite raises [ValueError]. *)
Definition set_xlim (lo hi : spec_float) : drawing unit :=
  if is_finite lo && is_finite hi then emit (XLim lo hi)
  else compute (Err ValueError_limits).

Definition set_ylim (lo hi : spec_float) : drawing unit :=
  if is_finite lo && is_finite hi then emit (YLim lo hi)
  else compute (Err ValueError_limits).

Definition annotate_style : list (string * string) :=
  [("xytext", "(3, 3)"); ("weight", "bold");
   ("textcoords", "offset points"); ("fontsize", "10")]%string.

Section PlotData.

(** [gpd.read_file(path)]. *)
Variable read_file : string -> result GeoDataFrame.

(** The three layers of the map: the country, its districts, and the places
    of scale rank 6 or less. *)
Definition load_maps : result (GeoDataFrame * GeoDataFrame * GeoDataFrame) :=
  map_data <- read_file "maps\ne_10m_admin_0_countries.shp" ;;
  map_data <- where_equal map_data "SOVEREIGNT" "South Korea" ;;
  district_data <- read_file "maps\ne_10m_admin_1_states_provinces.shp" ;;
  district_data <- where_equal district_data "iso_a2" "KR" ;;
  name_data <- read_file "maps\ne_10m_populated_places.shp" ;;
  name_data <- where_at_most name_data "SCALERANK" 6 ;;
  Ok (map_data, district_data, name_data).

(** The limits of the plot: the span of the coordinates, widened by
    [zoom_level] on every side. *)
Definition extent_of (mapping_data : DataFrame) (zoom_level : spec_float)
  : result (spec_float * spec_float * spec_float * spec_float) :=
  longitude <- getitem mapping_data "longitude" ;;
  x0 <- min_minus longitude zoom_level ;;
  longitude <- getitem mapping_data "longitude" ;;
  x1 <- max_plus longitude zoom_level ;;
  latitude <- getitem mapping_data "latitude" ;;
  y0 <- min_minus latitude zoom_level ;;
  latitude <- getitem mapping_data "latitude" ;;
  y1 <- max_plus latitude zoom_level ;;
  Ok (x0, x1, y0, y1).

(** The points of the data, one [Point] per row from its longitude and
    latitude, which [gpd.GeoDataFrame(mapping_data, geometry=...)] pairs
    with the rows, and the marker sizes [mapping_data.confirmed]. *)
Definition points_of (mapping_data : DataFrame)
  : result (list geometry * list cell) :=
  longitude <- getitem mapping_data "longitude" ;;
  latitude <- getitem mapping_data "latitude" ;;
  point_geometry <- all_ok (map point_of (combine longitude latitude)) ;;
  confirmed <- getattr_column mapping_data "confirmed" ;;
  sizes <- marker_sizes confirmed ;;
  Ok (point_geometry, sizes).

(** The annotations: the name of every place at its point. *)
Definition annotations (name_data : GeoDataFrame) : result (list draw) :=
  xy <- all_ok (map point_coordinates (geometries name_data)) ;;
  names <- geo_getitem name_data "NAME" ;;
  Ok (map (fun p => Annotate (snd p) (fst (fst p)) (snd (fst p))
                      annotate_style)
          (combine xy names)).

Definition plot_data (mapping_data : DataFrame) (zoom_level : spec_float)
  : drawing unit :=
  maps <~~ compute load_maps ;;
  let '(map_data, district_data, name_data) := maps in
  _ <~~ emit (Subplots 8 8) ;;
  _ <~~ emit (GeoPlot (geometries map_data) []) ;;
  _ <~~ emit (GeoPlot (geometries district_data)
                [("edgecolor", "black"); ("facecolor", "none")]%string) ;;
  _ <~~ emit (GeoPlot (geometries name_data)
                [("color", "black"); ("markersize", "3")]%string) ;;
  extent <~~ compute (extent_of mapping_data zoom_level) ;;
  let '(x0, x1, y0, y1) := extent in
  _ <~~ set_xlim x0 x1 ;;
  _ <~~ set_ylim y0 y1 ;;
  _ <~~ emit (Aspect "equal") ;;
  points <~~ compute (points_of mapping_data) ;;
  _ <~~ emit (Markers (fst points) (snd points)
                [("color", "red"); ("alpha", "0.5")]%string) ;;
  labels <~~ compute (annotations name_data) ;;
  emit_each labels.

End PlotData.

(** ** Sample maps and cases *)

Definition countries : GeoDataFrame :=
  mkGeo ["SOVEREIGNT"%string]
    [ ([CStr "South Korea"], GShape 1); ([CStr "Japan"], GShape 2) ].

Definition provinces : GeoDataFrame :=
  mkGeo ["iso_a2"%string]
    [ ([CStr "KR"], GShape 3); ([CStr "JP"], GShape 4) ].

Definition places : GeoDataFrame :=
  mkGeo ["SCALERANK"; "NAME"]%string
    [ ([CInt 3; CStr "Seoul"], GPoint (float_of_Z 127) (float_of_Z 37));
      ([CInt 8; CStr "Sokcho"], GPoint (float_of_Z 128) (float_of_Z 38)) ].

Definition sample_files (path : string) : result GeoDataFrame :=
  if String.eqb path "maps\ne_10m_admin_0_countries.shp" then Ok countries
  else if String.eqb path "maps\ne_10m_admin_1_states_provinces.shp"
  then Ok provinces
  else if String.eqb path "maps\ne_10m_populated_places.shp" then Ok places
  else Err Unmodelled.

Definition cases : DataFrame :=
  mkDataFrame [None] ["longitude"; "latitude"; "confirmed"]%string
    [ mkRow [CInt 0] [CInt 126; CInt 37; CInt 10];
      mkRow [CInt 1] [CInt 129; CInt 35; CInt 20] ].

Definition half : spec_float := float_div (float_of_Z 1) (float_of_Z 2).

(** The drawing only adds commands, whatever was given before. *)
Definition appends {A : Type} (m : drawing A) : Prop :=
  forall s, exists drawn, snd (m s) = s ++ drawn.

(* ===================================================================== *)
(** * Properties *)
(* ===================================================================== *)

(** ** Results *)

Lemma bind_ok_inv {A B : Type} (r : result A) (k : A -> result B) (b : B) :
  bind r k = Ok b -> exists a, r = Ok a /\ k a = Ok b.
Proof.
  destruct r as [a | e]; simpl; intro H.
  - exists a. split; [reflexivity | exact H].
  - discriminate H.
Qed.

Lemma bind_err_inv {A B : Type} (r : result A) (k : A -> result B) (e : exn) :
  bind r k = Err e -> r = Err e \/ exists a, r = Ok a /\ k a = Err e.
Proof.
  destruct r as [a | e']; simpl; intro H.
  - right. exists a. split; [reflexivity | exact H].
  - left. now inversion H.
Qed.

(** ** [get_date_range] *)

Lemma timedelta_ok (n : Z) :
  Z.abs n <= MAX_DELTA_DAYS -> timedelta n = Ok n.
Proof.
  intro H. unfold timedelta.
  destruct (Z.leb_spec (Z.abs n) MAX_DELTA_DAYS); [reflexivity | lia].
Qed.

Lemma datetime_add_ok (dt : datetime) (n : Z) :
  1 <= ordinal dt + n <= MAXORDINAL ->
  datetime_add dt n = Ok (shift_days dt n).
Proof.
  intros [H1 H2]. unfold datetime_add, shift_days.
  destruct (Z.leb_spec 1 (ordinal dt + n)); [| lia].
  destruct (Z.leb_spec (ordinal dt + n) MAXORDINAL); [| lia].
  reflexivity.
Qed.

Lemma datetime_add_err (dt : datetime) (n : Z) :
  ordinal dt + n < 1 \/ MAXORDINAL < ordinal dt + n ->
  datetime_add dt n = Err OverflowError.
Proof.
  intros H. unfold datetime_add.
  destruct (Z.leb_spec 1 (ordinal dt + n)); simpl; [| reflexivity].
  destruct (Z.leb_spec (ordinal dt + n) MAXORDINAL); [lia | reflexivity].
Qed.

Lemma shift_days_shift (d : datetime) (a b : Z) :
  shift_days (shift_days d a) b = shift_days d (a + b).
Proof.
  unfold shift_days. simpl. f_equal. lia.
Qed.

(** The loop appends the days [start + i] for the indices it is given, as
    long as they all are dates. *)
Lemma date_range_loop_ok (start : datetime) (idx : list Z) (acc : list datetime) :
  Forall (fun i => Z.abs i <= MAX_DELTA_DAYS /\ 1 <= ordinal start + i <= MAXORDINAL) idx ->
  date_range_loop start idx acc = Ok (acc ++ map (shift_days start) idx).
Proof.
  revert acc. induction idx as [| i idx IH]; intros acc HF; simpl.
  - now rewrite app_nil_r.
  - inversion HF as [| ? ? [Hi Ho] HF']; subst.
    rewrite (timedelta_ok i Hi). simpl.
    rewrite (datetime_add_ok start i Ho). simpl.
    rewrite (IH _ HF'). now rewrite <- app_assoc.
Qed.

Lemma get_date_range_ok (D : datetime) (days : Z) :
  valid_datetime D ->
  1 <= ordinal D - days -> ordinal D - days + 6 <= MAXORDINAL ->
  get_date_range D days = Ok (map (fun i => shift_days D (i - days)) range7).
Proof.
  intros [[HD1 HD2] _] Hlo Hhi.
  unfold MAXORDINAL in *.
  unfold get_date_range.
  rewrite timedelta_ok by (unfold MAX_DELTA_DAYS; lia). cbn [bind].
  unfold datetime_sub.
  rewrite datetime_add_ok by (unfold MAXORDINAL; lia). cbn [bind].
  rewrite date_range_loop_ok.
  - cbn [app map range7]. rewrite !shift_days_shift.
    repeat (f_equal; try lia).
  - unfold range7, MAX_DELTA_DAYS, MAXORDINAL.
    repeat constructor; simpl; lia.
Qed.

(** Outside that range the call raises [OverflowError]. *)
Lemma get_date_range_overflow (D : datetime) (days : Z) :
  valid_datetime D ->
  ordinal D - days < 1 \/ MAXORDINAL < ordinal D - days + 6 ->
  get_date_range D days = Err OverflowError.
Proof.
  intros [[HD1 HD2] _] H. unfold MAXORDINAL in *.
  unfold get_date_range, timedelta.
  destruct (Z.leb_spec (Z.abs days) MAX_DELTA_DAYS) as [Hd | Hd]; simpl;
    [| reflexivity].
  unfold datetime_sub, datetime_add. simpl.
  destruct (Z.leb_spec 1 (ordinal D + - days)); simpl; [| reflexivity].
  destruct (Z.leb_spec (ordinal D + - days) MAXORDINAL); simpl; [| reflexivity].
  unfold MAXORDINAL in *.
  assert (Hs : 3652059 < ordinal D - days + 6) by lia.
  unfold timedelta, datetime_add, MAX_DELTA_DAYS, MAXORDINAL. simpl.
  repeat match goal with
  | |- context [ (?a <=? ?b) ] => destruct (Z.leb_spec a b); simpl; try lia
  end; reflexivity.
Qed.

(** C1, as the code has it: for every reference date [D] and every [days]
    for which the seven days from [D - days] on are dates at all (years 1 to
    9999), [get_date_range D days] returns exactly 7 dates, each the calendar
    day after the one before, the first being [D] minus [days] days; the length
    does not depend on [days]. *)
Theorem get_date_range_seven_days (D : datetime) (days : Z) :
  valid_datetime D ->
  1 <= ordinal D - days -> ordinal D - days + 6 <= MAXORDINAL ->
  exists l,
    get_date_range D days = Ok l /\
    length l = 7%nat /\
    hd_error l = Some (shift_days D (- days)) /\
    consecutive_days l /\
    (forall i, (i < 7)%nat ->
       nth_error l i = Some (shift_days D (Z.of_nat i - days))).
Proof.
  intros HD Hlo Hhi.
  exists (map (fun i => shift_days D (i - days)) range7).
  split; [now apply get_date_range_ok |].
  split; [reflexivity |].
  split; [reflexivity |].
  split.
  - cbn [consecutive_days map range7]. rewrite !shift_days_shift.
    repeat split; f_equal; lia.
  - intros i Hi.
    do 7 (destruct i as [| i]; [reflexivity |]). lia.
Qed.

(** The docstring's example: 2023-05-01 and 7 give 2023-04-24 .. 2023-04-30. *)
Lemma get_date_range_seven_days_witness :
  exists l,
    get_date_range (date_of_ymd 2023 5 1) 7 = Ok l /\
    length l = 7%nat /\
    hd_error l = Some (shift_days (date_of_ymd 2023 5 1) (- (7))) /\
    consecutive_days l /\
    (forall i, (i < 7)%nat ->
       nth_error l i = Some (shift_days (date_of_ymd 2023 5 1) (Z.of_nat i - 7))).
Proof.
  apply (get_date_range_seven_days (date_of_ymd 2023 5 1) 7).
  - unfold valid_datetime, MAXORDINAL, US_PER_DAY. vm_compute.
    repeat split; discriminate.
  - vm_compute. discriminate.
  - vm_compute. discriminate.
Defined.

Example get_date_range_docstring :
  get_date_range (date_of_ymd 2023 5 1) 7 =
  Ok [date_of_ymd 2023 4 24; date_of_ymd 2023 4 25; date_of_ymd 2023 4 26;
      date_of_ymd 2023 4 27; date_of_ymd 2023 4 28; date_of_ymd 2023 4 29;
      date_of_ymd 2023 4 30].
Proof. reflexivity. Qed.

(** C1 as stated fails: one day before 0001-01-01 is no date, and the call
    raises [OverflowError] instead of returning 7 dates. *)
Lemma get_date_range_not_total :
  valid_datetime (date_of_ymd 1 1 1) /\
  get_date_range (date_of_ymd 1 1 1) 1 = Err OverflowError /\
  ~ (forall D days, valid_datetime D ->
       exists l, get_date_range D days = Ok l /\ length l = 7%nat).
Proof.
  assert (HV : valid_datetime (date_of_ymd 1 1 1)).
  { unfold valid_datetime. vm_compute. repeat split; discriminate. }
  split; [exact HV |].
  split; [reflexivity |].
  intro H. destruct (H (date_of_ymd 1 1 1) 1 HV) as [l [Hl _]].
  discriminate Hl.
Qed.

(** ** Tables *)

Lemma select_rows_map (p : row -> bool) (rs : list row) :
  select_rows rs (map p rs) = filter p rs.
Proof.
  induction rs as [| r rs IH]; simpl; [reflexivity |].
  destruct (p r); now rewrite IH.
Qed.

Lemma renumber_cells (n : Z) (cs : list (list cell)) :
  map r_cells (renumber n cs) = cs.
Proof.
  revert n. induction cs as [| c cs IH]; intro n; simpl; [reflexivity |].
  now rewrite IH.
Qed.

Lemma index_of_In (x : string) (l : list string) (n : nat) :
  index_of String.eqb x l = Some n -> In x l.
Proof.
  revert n. induction l as [| y l IH]; intros n; simpl; [discriminate |].
  destruct (String.eqb_spec x y) as [-> | Hne]; [now left |].
  destruct (index_of String.eqb x l) as [k |]; [| discriminate].
  intros _. right. now apply (IH k).
Qed.

Lemma In_index_of (x : string) (l : list string) :
  In x l -> exists n, index_of String.eqb x l = Some n.
Proof.
  induction l as [| y l IH]; simpl; [tauto |].
  intros Hin. destruct (String.eqb_spec x y) as [-> | Hne]; [now exists O |].
  destruct Hin as [-> | Hin]; [congruence |].
  destruct (IH Hin) as [n ->]. now exists (S n).
Qed.

Lemma union_columns_nil_l (b : list string) : union_columns [] b = b.
Proof.
  unfold union_columns. simpl. induction b as [| c b IH]; simpl; congruence.
Qed.

Lemma existsb_eqb_In (c : string) (a : list string) :
  In c a -> existsb (String.eqb c) a = true.
Proof.
  intro H. apply existsb_exists. exists c. split; [exact H | apply String.eqb_refl].
Qed.

Lemma union_columns_self (a : list string) : union_columns a a = a.
Proof.
  unfold union_columns.
  assert (H : forall b, incl b a ->
            filter (fun c => negb (existsb (String.eqb c) a)) b = []).
  { induction b as [| c b IH]; intro Hi; simpl; [reflexivity |].
    rewrite existsb_eqb_In by (apply Hi; now left). simpl.
    apply IH. intros x Hx. apply Hi. now right. }
  rewrite H by apply incl_refl. apply app_nil_r.
Qed.

Lemma reindex_cells_same (cols : list string) (cells : list cell) :
  reindex_cells cols cols cells = cells.
Proof.
  unfold reindex_cells. destruct (list_eq_dec string_dec cols cols); congruence.
Qed.

Lemma getitem_ok (data : DataFrame) (column : string) (n : nat) :
  index_of String.eqb column (columns data) = Some n ->
  getitem data column = Ok (map (fun r => cell_at n (r_cells r)) (rows data)).
Proof. intro H. unfold getitem. now rewrite H. Qed.

Lemma getitem_err (data : DataFrame) (column : string) (e : exn) :
  getitem data column = Err e ->
  e = KeyError /\ ~ In column (columns data).
Proof.
  unfold getitem.
  destruct (index_of String.eqb column (columns data)) eqn:E; [discriminate |].
  intro H. split; [congruence |].
  intro Hin. destruct (In_index_of _ _ Hin) as [n Hn]. congruence.
Qed.

(** The rows selected for one window are the rows of [rows_in_window]. *)
Lemma matching_rows (data : DataFrame) (n : nat) (w : list datetime) :
  rows (getitem_mask data
          (isin (map (fun r => cell_at n (r_cells r)) (rows data)) w))
  = rows_in_window data n w.
Proof.
  unfold getitem_mask, isin, rows_in_window. simpl.
  rewrite map_map.
  apply (select_rows_map (fun r => cell_isin w (cell_at n (r_cells r)))).
Qed.

(** ** Errors of the calls made by [get_matching_entries] *)

Lemma strptime_err (s : string) (e : exn) :
  strptime_Ymd s = Err e -> e = ValueError_strptime.
Proof.
  unfold strptime_Ymd.
  destruct (match_Ymd (list_ascii_of_string s)) as [[[[y m] d] rest] |];
    [| congruence].
  destruct rest; [| congruence].
  destruct ((MINYEAR <=? y) && (1 <=? d) && (d <=? days_in_month y m));
    congruence.
Qed.

Lemma datetime_add_error (dt : datetime) (n : Z) (e : exn) :
  datetime_add dt n = Err e -> e = OverflowError.
Proof.
  unfold datetime_add.
  destruct ((1 <=? ordinal dt + n) && (ordinal dt + n <=? MAXORDINAL));
    congruence.
Qed.

Lemma timedelta_error (n : Z) (e : exn) :
  timedelta n = Err e -> e = OverflowError.
Proof.
  unfold timedelta. destruct (Z.abs n <=? MAX_DELTA_DAYS); congruence.
Qed.

Lemma date_range_loop_error (start : datetime) (idx : list Z)
    (acc : list datetime) (e : exn) :
  date_range_loop start idx acc = Err e -> e = OverflowError.
Proof.
  revert acc. induction idx as [| i idx IH]; intros acc; simpl; [discriminate |].
  intro H. apply bind_err_inv in H as [H | [d [_ H]]];
    [now apply timedelta_error in H |].
  apply bind_err_inv in H as [H | [d' [_ H]]];
    [now apply datetime_add_error in H |].
  now apply IH in H.
Qed.

Lemma get_date_range_error (D : datetime) (days : Z) (e : exn) :
  get_date_range D days = Err e -> e = OverflowError.
Proof.
  unfold get_date_range. intro H.
  apply bind_err_inv in H as [H | [d [_ H]]];
    [now apply timedelta_error in H |].
  apply bind_err_inv in H as [H | [d' [_ H]]];
    [now apply datetime_add_error in H |].
  now apply date_range_loop_error in H.
Qed.

Lemma window_of_error (s : string) (days : Z) (e : exn) :
  window_of s days = Err e ->
  (e = ValueError_strptime /\ strptime_Ymd s = Err ValueError_strptime)
  \/ (e = OverflowError /\ exists d, strptime_Ymd s = Ok d).
Proof.
  unfold window_of. intro H.
  apply bind_err_inv in H as [H | [d [Hd H]]].
  - left. pose proof (strptime_err _ _ H) as ->. now split.
  - right. apply get_date_range_error in H. split; [exact H | now exists d].
Qed.

(** ** [get_matching_entries] *)

Lemma window_of_ok_inv (s : string) (days : Z) (w : list datetime) :
  window_of s days = Ok w ->
  exists d, strptime_Ymd s = Ok d /\ get_date_range d days = Ok w.
Proof. unfold window_of. intro H. now apply bind_ok_inv in H. Qed.

Lemma is_ok_true {A : Type} (r : result A) :
  is_ok r = true -> exists a, r = Ok a.
Proof. destruct r as [a | e]; simpl; [now exists a | discriminate]. Qed.

Lemma is_ok_false {A : Type} (r : result A) :
  is_ok r = false -> exists e, r = Err e.
Proof. destruct r as [a | e]; simpl; [discriminate | now exists e]. Qed.

(** One round of the loop, when the date parses, its window exists and the
    column is there. *)
Lemma matching_entries_loop_step (s : string) (dates : list string)
    (data : DataFrame) (col : string) (days : Z) (acc : DataFrame)
    (n : nat) (w : list datetime) :
  index_of String.eqb col (columns data) = Some n ->
  window_of s days = Ok w ->
  matching_entries_loop (s :: dates) data col days acc =
  matching_entries_loop dates data col days
    (concat_ignore_index acc
       (mkDataFrame (index_names data) (columns data) (rows_in_window data n w))).
Proof.
  intros Hn Hw. apply window_of_ok_inv in Hw as [d [Hd Hr]].
  cbn [matching_entries_loop]. rewrite Hd. cbn [bind]. rewrite Hr. cbn [bind].
  rewrite (getitem_ok _ _ _ Hn). cbn [bind].
  f_equal. f_equal. unfold getitem_mask. f_equal. apply matching_rows.
Qed.

(** Appending a selection of [data] to an accumulator that is still
    [pd.DataFrame()] or already has the columns of [data]. *)
Lemma concat_accumulates (acc sel : DataFrame) :
  columns acc = columns sel \/ (columns acc = [] /\ rows acc = []) ->
  columns (concat_ignore_index acc sel) = columns sel /\
  map r_cells (rows (concat_ignore_index acc sel))
  = map r_cells (rows acc) ++ map r_cells (rows sel).
Proof.
  intros [Hc | [Hc Hr]]; unfold concat_ignore_index; cbn [columns rows];
    rewrite renumber_cells, Hc.
  - rewrite union_columns_self. split; [reflexivity |].
    f_equal; apply map_ext; intro r; apply reindex_cells_same.
  - rewrite union_columns_nil_l, Hr. split; [reflexivity |].
    simpl. apply map_ext; intro r; apply reindex_cells_same.
Qed.

Lemma matching_entries_loop_ok (data : DataFrame) (col : string) (days : Z)
    (n : nat) (dates : list string) :
  index_of String.eqb col (columns data) = Some n ->
  Forall (fun s => is_ok (window_of s days) = true) dates ->
  forall acc,
    columns acc = columns data \/ (columns acc = [] /\ rows acc = []) ->
    exists t,
      matching_entries_loop dates data col days acc = Ok t /\
      map r_cells (rows t)
      = map r_cells (rows acc)
        ++ flat_map (fun s => map r_cells (window_rows data n days s)) dates /\
      (dates <> [] -> columns t = columns data).
Proof.
  intros Hn HF. induction HF as [| s dates Hs HF IH]; intros acc Hacc.
  - exists acc. simpl. rewrite app_nil_r. repeat split; congruence.
  - apply is_ok_true in Hs as [w Hw].
    rewrite (matching_entries_loop_step s dates data col days acc n w Hn Hw).
    set (sel := mkDataFrame (index_names data) (columns data)
                  (rows_in_window data n w)).
    destruct (concat_accumulates acc sel Hacc) as [Hc Hr].
    destruct (IH (concat_ignore_index acc sel)) as [t [Ht [Hrows Hcols]]].
    { left. exact Hc. }
    exists t. split; [exact Ht |]. split.
    + rewrite Hrows, Hr. cbn [flat_map]. unfold window_rows at 2.
      rewrite Hw. now rewrite <- app_assoc.
    + intros _. destruct dates as [| s' dates'].
      * simpl in Ht. injection Ht as <-. exact Hc.
      * apply Hcols. discriminate.
Qed.

Lemma length_flat_map {A B : Type} (f : A -> list B) (l : list A) :
  length (flat_map f l) = list_sum (map (fun a => length (f a)) l).
Proof.
  induction l as [| a l IH]; simpl; [reflexivity |].
  now rewrite length_app, IH.
Qed.

Example get_matching_entries_overlap :
  exists t,
    get_matching_entries ["2023-05-01"; "2023-05-02"]%string policy_data
      "start_date" 7 = Ok t /\
    map r_cells (rows t) =
      [ [CDate (date_of_ymd 2023 4 24); CStr "masks"];
        [CDate (date_of_ymd 2023 4 30); CStr "travel"];
        [CDate (date_of_ymd 2023 4 30); CStr "travel"] ].
Proof. eexists. split; reflexivity. Qed.

(** C7: with no reference dates the result is the empty table
    [pd.DataFrame()], whatever the table, the column name and [days]. *)
Theorem get_matching_entries_no_dates (data : DataFrame) (col : string)
    (days : Z) :
  get_matching_entries [] data col days = Ok empty_frame /\
  rows empty_frame = [] /\ columns empty_frame = [].
Proof. repeat split. Qed.

(** A parse error comes from a string that does not parse. *)
Lemma matching_entries_loop_parse_error (data : DataFrame) (col : string)
    (days : Z) (dates : list string) :
  forall acc,
    matching_entries_loop dates data col days acc = Err ValueError_strptime <->
    exists pre s post,
      dates = pre ++ s :: post /\
      strptime_Ymd s = Err ValueError_strptime /\
      Forall (fun p => is_ok (window_of p days) = true) pre /\
      (pre = [] \/ In col (columns data)).
Proof.
  induction dates as [| s dates IH]; intro acc.
  - simpl. split; [discriminate |].
    intros [pre [s [post [H _]]]]. now destruct pre.
  - cbn [matching_entries_loop].
    destruct (strptime_Ymd s) as [d | e] eqn:Hd; cbn [bind].
    2:{ pose proof (strptime_err _ _ Hd) as ->. split; [| reflexivity].
        intros _. exists [], s, dates. repeat split; auto. }
    assert (Hhead : forall pre s0 post,
              s :: dates = pre ++ s0 :: post ->
              strptime_Ymd s0 = Err ValueError_strptime ->
              exists pre', pre = s :: pre' /\ dates = pre' ++ s0 :: post).
    { intros pre s0 post Heq Hs0. destruct pre as [| p pre'].
      - simpl in Heq. injection Heq as <- _. congruence.
      - simpl in Heq. injection Heq as <- ->. now exists pre'. }
    destruct (get_date_range d days) as [w | e] eqn:Hw; cbn [bind].
    2:{ pose proof (get_date_range_error _ _ _ Hw) as ->.
        split; [discriminate |].
        intros [pre [s0 [post [Heq [Hs0 [HF _]]]]]].
        destruct (Hhead _ _ _ Heq Hs0) as [pre' [-> _]].
        inversion HF as [| ? ? Hok _]; subst.
        unfold window_of in Hok. rewrite Hd in Hok. cbn [bind] in Hok.
        rewrite Hw in Hok. discriminate. }
    destruct (getitem data col) as [series | e] eqn:Hg; cbn [bind].
    2:{ destruct (getitem_err _ _ _ Hg) as [-> Hnin].
        split; [discriminate |].
        intros [pre [s0 [post [Heq [Hs0 [_ [Hp | Hin]]]]]]]; [| tauto].
        destruct (Hhead _ _ _ Heq Hs0) as [pre' [-> _]]. now subst. }
    assert (Hin : In col (columns data)).
    { unfold getitem in Hg.
      destruct (index_of String.eqb col (columns data)) eqn:E; [| discriminate].
      now apply index_of_In in E. }
    rewrite IH. split.
    + intros [pre [s0 [post [-> [Hs0 [HF _]]]]]].
      exists (s :: pre), s0, post. repeat split; auto.
      constructor; [| exact HF].
      unfold window_of. rewrite Hd. cbn [bind]. now rewrite Hw.
    + intros [pre [s0 [post [Heq [Hs0 [HF _]]]]]].
      destruct (Hhead _ _ _ Heq Hs0) as [pre' [-> ->]].
      exists pre', s0, post. repeat split; auto.
      now inversion HF.
Qed.

(** A string that does not parse leaves the loop without a result. *)
Lemma matching_entries_loop_no_result (data : DataFrame) (col : string)
    (days : Z) (dates : list string) (s : string) :
  In s dates -> is_ok (strptime_Ymd s) = false ->
  forall acc, is_ok (matching_entries_loop dates data col days acc) = false.
Proof.
  intros Hin Hs. induction dates as [| s' dates IH]; intro acc;
    [destruct Hin |].
  cbn [matching_entries_loop].
  destruct Hin as [-> | Hin].
  - apply is_ok_false in Hs as [e ->]. reflexivity.
  - destruct (strptime_Ymd s'); [| reflexivity]. cbn [bind].
    destruct (get_date_range a days); [| reflexivity]. cbn [bind].
    destruct (getitem data col); [| reflexivity]. cbn [bind].
    now apply IH.
Qed.

(** C6, as the code has it: [get_matching_entries] raises the parse error of
    [strptime], which nothing catches, exactly when some reference date does
    not parse while every reference date before it has its window and, if
    there is one before it, the date column is present; and whenever some
    reference date does not parse, the call ends without a result. *)
Theorem get_matching_entries_parse_error (dates : list string)
    (data : DataFrame) (col : string) (days : Z) :
  (raises (get_matching_entries dates data col days) ValueError_strptime <->
   exists pre s post,
     dates = pre ++ s :: post /\
     strptime_Ymd s = Err ValueError_strptime /\
     Forall (fun p => is_ok (window_of p days) = true) pre /\
     (pre = [] \/ In col (columns data))) /\
  ((exists s, In s dates /\ is_ok (strptime_Ymd s) = false) ->
   is_ok (get_matching_entries dates data col days) = false).
Proof.
  split.
  - apply matching_entries_loop_parse_error.
  - intros [s [Hin Hs]].
    now apply (matching_entries_loop_no_result data col days dates s).
Qed.

(** C6 as stated fails: with a table that lacks the date column, the first
    round raises [KeyError] before the malformed second string is ever
    parsed, so a string that does not match the format is there and yet no
    parse error is raised. *)
Lemma get_matching_entries_parse_error_not_iff :
  get_matching_entries ["2023-05-01"; "garbage"]%string policy_data
    "end_date" 7 = Err KeyError /\
  strptime_Ymd "garbage" = Err ValueError_strptime /\
  has_shape_YYYY_MM_DD "garbage" = false /\
  ~ (forall dates data col days,
       raises (get_matching_entries dates data col days) ValueError_strptime <->
       exists s, In s dates /\ strptime_Ymd s = Err ValueError_strptime) /\
  ~ (forall dates data col days,
       raises (get_matching_entries dates data col days) ValueError_strptime <->
       exists s, In s dates /\ has_shape_YYYY_MM_DD s = false).
Proof.
  split; [reflexivity |]. split; [reflexivity |]. split; [reflexivity |].
  split; intro H;
    destruct (H ["2023-05-01"; "garbage"]%string policy_data
                "end_date"%string 7) as [_ H2];
    assert (Hr : raises (get_matching_entries ["2023-05-01"; "garbage"]%string
                           policy_data "end_date" 7) ValueError_strptime)
      by (apply H2; exists "garbage"%string; split;
          [right; now left | reflexivity]);
    discriminate Hr.
Qed.

(** [strptime] and the shape ['YYYY-MM-DD'] differ both ways: one-digit
    months and days parse, and a well-shaped string naming no calendar day
    does not. *)
Example strptime_lenient :
  has_shape_YYYY_MM_DD "2023-5-1" = false /\
  strptime_Ymd "2023-5-1" = Ok (date_of_ymd 2023 5 1).
Proof. split; reflexivity. Qed.

Example strptime_no_such_day :
  has_shape_YYYY_MM_DD "2023-02-30" = true /\
  strptime_Ymd "2023-02-30" = Err ValueError_strptime.
Proof. split; reflexivity. Qed.

(** ** Labels, [unique] and dicts *)

Lemma cell_same_true (a b : cell) : cell_same a b = true <-> a = b.
Proof.
  unfold cell_same. destruct (cell_eq_dec a b); split; congruence.
Qed.

Lemma cell_same_false (a b : cell) : cell_same a b = false <-> a <> b.
Proof.
  unfold cell_same. destruct (cell_eq_dec a b); split; congruence.
Qed.

Lemma cell_same_refl (a : cell) : cell_same a a = true.
Proof. now apply cell_same_true. Qed.

Lemma unique_In (x : cell) (l : list cell) : In x (unique l) <-> In x l.
Proof.
  induction l as [| a l IH]; simpl; [tauto |].
  rewrite filter_In, IH, negb_true_iff, cell_same_false.
  destruct (cell_eq_dec a x); tauto.
Qed.

Lemma NoDup_filter_cells (p : cell -> bool) (l : list cell) :
  NoDup l -> NoDup (filter p l).
Proof.
  induction 1 as [| a l Hnin Hnd IH]; simpl; [constructor |].
  destruct (p a); [| exact IH].
  constructor; [| exact IH]. rewrite filter_In. tauto.
Qed.

Lemma unique_NoDup (l : list cell) : NoDup (unique l).
Proof.
  induction l as [| a l IH]; simpl; constructor.
  - rewrite filter_In, negb_true_iff, cell_same_false. tauto.
  - now apply NoDup_filter_cells.
Qed.

Lemma before_cons (a x y : cell) (l : list cell) :
  before x y l -> before x y (a :: l).
Proof.
  intros [l1 [l2 [l3 ->]]]. now exists (a :: l1), l2, l3.
Qed.

Lemma before_filter (p : cell -> bool) (x y : cell) (l : list cell) :
  before x y (filter p l) -> before x y l.
Proof.
  induction l as [| b l IH]; simpl.
  - intros [l1 [l2 [l3 H]]]. now destruct l1.
  - destruct (p b) eqn:Hp.
    + intros [l1 [l2 [l3 H]]]. destruct l1 as [| c l1]; simpl in H.
      * injection H as <- H.
        assert (Hy : In y l).
        { assert (Hy : In y (filter p l))
            by (rewrite H; apply in_or_app; right; now left).
          now apply filter_In in Hy. }
        apply in_split in Hy as [n1 [n2 ->]]. now exists [], n1, n2.
      * injection H as <- H. apply before_cons, IH. now exists l1, l2, l3.
    + intro H. now apply before_cons, IH.
Qed.

(** [unique] keeps the order of first appearance. *)
Lemma unique_first_before (x y : cell) (l : list cell) :
  before x y (unique l) -> first_before x y l.
Proof.
  revert x y. induction l as [| a l IH]; intros x y; simpl.
  - intros [l1 [l2 [l3 H]]]. now destruct l1.
  - intros [l1 [l2 [l3 H]]]. destruct l1 as [| c l1]; simpl in H.
    + injection H as <- H.
      assert (Hy : In y (filter (fun z => negb (cell_same a z)) (unique l)))
        by (rewrite H; apply in_or_app; right; now left).
      apply filter_In in Hy as [_ Hy].
      apply negb_true_iff, cell_same_false in Hy.
      exists [], l. repeat split; auto.
    + injection H as <- H.
      assert (Hb : before x y (filter (fun z => negb (cell_same a z)) (unique l)))
        by now exists l1, l2, l3.
      assert (Hx : a <> x).
      { assert (Hx : In x (filter (fun z => negb (cell_same a z)) (unique l)))
          by (rewrite H; apply in_or_app; right; now left).
        apply filter_In in Hx as [_ Hx].
        now apply negb_true_iff, cell_same_false in Hx. }
      assert (Hy : a <> y).
      { assert (Hy : In y (filter (fun z => negb (cell_same a z)) (unique l))).
        { rewrite H. apply in_or_app. right. right.
          apply in_or_app. right. now left. }
        apply filter_In in Hy as [_ Hy].
        now apply negb_true_iff, cell_same_false in Hy. }
      apply before_filter, IH in Hb as [m1 [m2 [-> [H1 [H2 H3]]]]].
      exists (a :: m1), m2. repeat split; auto; simpl; intuition congruence.
Qed.

Lemma dict_get_set_same (k : cell) (v : list cell) (d : dict) :
  dict_get k (dict_set k v d) = Some v.
Proof.
  induction d as [| [k' v'] d IH]; simpl.
  - now rewrite cell_same_refl.
  - destruct (cell_same k k') eqn:E; simpl; rewrite E; [reflexivity | exact IH].
Qed.

Lemma dict_get_set_other (k k' : cell) (v : list cell) (d : dict) :
  k <> k' -> dict_get k' (dict_set k v d) = dict_get k' d.
Proof.
  intro Hne. induction d as [| [k0 v0] d IH]; simpl.
  - assert (E : cell_same k' k = false) by (apply cell_same_false; congruence).
    now rewrite E.
  - destruct (cell_same k k0) eqn:E; simpl.
    + apply cell_same_true in E as <-.
      assert (E : cell_same k' k = false) by (apply cell_same_false; congruence).
      now rewrite E.
    + destruct (cell_same k' k0); [reflexivity | exact IH].
Qed.

Lemma dict_keys_set_new (k : cell) (v : list cell) (d : dict) :
  ~ In k (dict_keys d) -> dict_keys (dict_set k v d) = dict_keys d ++ [k].
Proof.
  unfold dict_keys. induction d as [| [k0 v0] d IH]; simpl; [reflexivity |].
  intro Hnin.
  assert (E : cell_same k k0 = false) by (apply cell_same_false; intuition).
  rewrite E. simpl. f_equal. apply IH. tauto.
Qed.

(** ** [np.diff] *)

Lemma np_diff_short (t : result dtype) (a : list cell) :
  (length a <= 1)%nat -> np_diff t a = Ok [].
Proof.
  destruct a as [| x [| y a]]; simpl; intros H; try reflexivity. lia.
Qed.

Lemma diff_as_spec (t : dtype) (a ds : list cell) :
  diff_as t a = Ok ds ->
  (length ds = length a - 1)%nat /\
  forall i x y,
    nth_error a i = Some x -> nth_error a (S i) = Some y ->
    exists d, subtract t y x = Ok d /\ nth_error ds i = Some d.
Proof.
  revert ds. induction a as [| x a IH]; intros ds H.
  - injection H as <-. split; [reflexivity |]. intros i x y Hx. now destruct i.
  - destruct a as [| y a'].
    + injection H as <-. split; [reflexivity |].
      intros i x0 y0 _ Hy. simpl in Hy. now destruct i.
    + cbn [diff_as] in H.
      apply bind_ok_inv in H as [d [Hd H]].
      apply bind_ok_inv in H as [ds' [Hds' H]]. injection H as <-.
      destruct (IH ds' Hds') as [Hlen Hnth]. split.
      * simpl in *. lia.
      * intros [| i] x0 y0 Hx Hy.
        -- injection Hx as <-. injection Hy as <-. now exists d.
        -- simpl. apply (Hnth i x0 y0); assumption.
Qed.

Lemma np_diff_spec (t : result dtype) (a ds : list cell) :
  np_diff t a = Ok ds -> successive_differences t a ds.
Proof.
  destruct a as [| x [| y a]]; intro H.
  - injection H as <-. split; [reflexivity |]. intros i x y Hx. now destruct i.
  - injection H as <-. split; [reflexivity |].
    intros i x0 y0 _ Hy. simpl in Hy. now destruct i.
  - unfold np_diff in H. apply bind_ok_inv in H as [t' [-> H]].
    apply diff_as_spec in H as [Hlen Hnth]. split; [exact Hlen |].
    intros i x0 y0 Hx Hy. destruct (Hnth i x0 y0 Hx Hy) as [d [Hd Hi]].
    now exists t', d.
Qed.

(** ** Dict keys *)

Lemma is_nan_true (c : cell) : is_nan c = true -> c = CNaN.
Proof. now destruct c. Qed.

Lemma existsb_false_Forall {A : Type} (p : A -> bool) (l : list A) :
  existsb p l = false <-> Forall (fun x => p x = false) l.
Proof.
  induction l as [| x l IH]; simpl.
  - split; [constructor | reflexivity].
  - rewrite orb_false_iff, IH. split.
    + intros [H1 H2]. now constructor.
    + intro H. inversion H; now subst.
Qed.

(** A new key that is no float, into a dict without float keys, is found
    or missed by its value. *)
Lemma key_clash_fresh (k : cell) (d : dict) :
  is_float k = false ->
  Forall (fun c => is_float c = false) (dict_keys d) ->
  ~ In k (dict_keys d) ->
  key_clash k d = false.
Proof.
  intros Hk Hd Hnew. unfold key_clash. rewrite Hk.
  rewrite (proj2 (existsb_false_Forall _ _) Hd). cbn [orb].
  destruct (is_nan k) eqn:En; [| reflexivity]. cbn [andb].
  apply is_nan_true in En as ->.
  apply existsb_false_Forall, Forall_forall. intros c Hc.
  destruct (is_nan c) eqn:E; [| reflexivity].
  apply is_nan_true in E as ->. contradiction.
Qed.

Lemma dict_assign_ok_inv (k : cell) (v : list cell) (d d' : dict) :
  dict_assign k v d = Ok d' -> d' = dict_set k v d.
Proof.
  unfold dict_assign. destruct (key_clash k d); [discriminate |].
  intro H. now injection H as <-.
Qed.

Lemma dict_assign_fresh (k : cell) (v : list cell) (d : dict) :
  is_float k = false ->
  Forall (fun c => is_float c = false) (dict_keys d) ->
  ~ In k (dict_keys d) ->
  dict_assign k v d = Ok (dict_set k v d).
Proof.
  intros Hk Hd Hnew. unfold dict_assign.
  now rewrite (key_clash_fresh k d Hk Hd Hnew).
Qed.

Lemma last_cons_default {A : Type} (l : list A) :
  forall x d : A, last (x :: l) d = last l x.
Proof.
  induction l as [| y l IH]; intros x d; [reflexivity |].
  change (last (x :: y :: l) d) with (last (y :: l) d).
  now rewrite !IH.
Qed.

(** ** The loop of [calculate_differences] *)

Section DifferencesLoop.

Variable data : DataFrame.
Variables index_column value_column : string.
Variable labels : list cell.
Hypothesis Hlabels : get_level_values data index_column = Ok labels.

(** One round: the two difference sequences of the group are computed and
    stored under its key, and [subset] becomes the group. *)
Lemma differences_loop_step (value : cell) (values : list cell)
    (d0 f0 : dict) (s0 : option DataFrame) :
  differences_loop (value :: values) data index_column value_column d0 f0 s0 =
  (ds <- group_diff data labels value_column value ;;
   d1 <- dict_assign value ds d0 ;;
   fs <- group_diff data labels fatalities_column value ;;
   f1 <- dict_assign value fs f0 ;;
   differences_loop values data index_column value_column d1 f1
     (Some (subset_of data labels value))).
Proof.
  cbn [differences_loop]. rewrite Hlabels. cbn [bind]. unfold group_diff.
  destruct (getitem (subset_of data labels value) value_column); cbn [bind];
    [| reflexivity].
  destruct (np_diff (dtype_of_column data value_column) a); cbn [bind];
    [| reflexivity].
  destruct (dict_assign value a0 d0); cbn [bind]; [| reflexivity].
  destruct (getitem (subset_of data labels value) fatalities_column);
    cbn [bind]; [| reflexivity].
  destruct (np_diff (dtype_of_column data fatalities_column) a2); reflexivity.
Qed.

Lemma differences_loop_spec (values : list cell) :
  forall d0 f0 s0 d f s,
    differences_loop values data index_column value_column d0 f0 s0
    = Ok (d, f, s) ->
    NoDup values ->
    (forall v, In v values ->
       ~ In v (dict_keys d0) /\ ~ In v (dict_keys f0)) ->
    dict_keys d = dict_keys d0 ++ values /\
    dict_keys f = dict_keys f0 ++ values /\
    (forall v, In v values ->
       exists ds fs,
         group_diff data labels value_column v = Ok ds /\
         group_diff data labels fatalities_column v = Ok fs /\
         dict_get v d = Some ds /\ dict_get v f = Some fs) /\
    (forall v, ~ In v values ->
       dict_get v d = dict_get v d0 /\ dict_get v f = dict_get v f0) /\
    s = last (map (fun v => Some (subset_of data labels v)) values) s0.
Proof.
  induction values as [| value values IH]; intros d0 f0 s0 d f s Hrun Hnd Hfresh.
  - injection Hrun as <- <- <-. rewrite !app_nil_r.
    repeat split; auto. intros v [].
  - rewrite differences_loop_step in Hrun.
    apply bind_ok_inv in Hrun as [ds0 [Hds0 Hrun]].
    apply bind_ok_inv in Hrun as [d1 [Hd1 Hrun]].
    apply bind_ok_inv in Hrun as [fs0 [Hfs0 Hrun]].
    apply bind_ok_inv in Hrun as [f1 [Hf1 Hrun]].
    apply dict_assign_ok_inv in Hd1, Hf1. subst d1 f1.
    inversion Hnd as [| ? ? Hnin Hnd']; subst.
    destruct (Hfresh value (or_introl eq_refl)) as [Hd0 Hf0].
    apply IH in Hrun as [Hkd [Hkf [Hin [Hout Hs]]]]; [| exact Hnd' |].
    2:{ intros v Hv. rewrite !dict_keys_set_new by assumption.
        destruct (Hfresh v (or_intror Hv)) as [H1 H2].
        split; intro H; apply in_app_or in H as [H | [<- | []]]; tauto. }
    rewrite dict_keys_set_new in Hkd, Hkf by assumption.
    rewrite <- app_assoc in Hkd, Hkf.
    split; [exact Hkd |]. split; [exact Hkf |]. split; [| split].
    + intros v [<- | Hv].
      * exists ds0, fs0. destruct (Hout value Hnin) as [-> ->].
        now rewrite !dict_get_set_same.
      * now apply Hin.
    + intros v Hv. destruct (Hout v) as [-> ->]; [simpl in Hv; tauto |].
      rewrite !dict_get_set_other by (simpl in Hv; intuition congruence).
      now split.
    + rewrite Hs. cbn [map]. symmetry. apply last_cons_default.
Qed.

Lemma differences_loop_total (values : list cell) :
  Forall (fun v => is_ok (group_diff data labels value_column v) = true /\
                   is_ok (group_diff data labels fatalities_column v) = true)
         values ->
  NoDup values ->
  Forall (fun c => is_float c = false) values ->
  forall d0 f0 s0,
    Forall (fun c => is_float c = false) (dict_keys d0) ->
    Forall (fun c => is_float c = false) (dict_keys f0) ->
    (forall v, In v values ->
       ~ In v (dict_keys d0) /\ ~ In v (dict_keys f0)) ->
    exists st,
      differences_loop values data index_column value_column d0 f0 s0 = Ok st.
Proof.
  induction 1 as [| value values [H1 H2] _ IH];
    intros Hnd Hfl d0 f0 s0 Hd0 Hf0 Hfresh.
  - now eexists.
  - rewrite differences_loop_step.
    apply is_ok_true in H1 as [ds ->]. apply is_ok_true in H2 as [fs ->].
    inversion Hnd as [| ? ? Hnin Hnd']; subst.
    inversion Hfl as [| ? ? Hv Hfl']; subst.
    destruct (Hfresh value (or_introl eq_refl)) as [Hnd0 Hnf0].
    cbn [bind]. rewrite (dict_assign_fresh value ds d0 Hv Hd0 Hnd0).
    cbn [bind]. rewrite (dict_assign_fresh value fs f0 Hv Hf0 Hnf0).
    cbn [bind]. apply IH; try assumption.
    + rewrite dict_keys_set_new by assumption.
      apply Forall_app. split; [exact Hd0 | now constructor].
    + rewrite dict_keys_set_new by assumption.
      apply Forall_app. split; [exact Hf0 | now constructor].
    + intros v Hv'. rewrite !dict_keys_set_new by assumption.
      destruct (Hfresh v (or_intror Hv')) as [Ha Hb].
      split; intro H; apply in_app_or in H as [H | [<- | []]]; tauto.
Qed.

End DifferencesLoop.

Lemma last_map_some {A B : Type} (g : A -> B) (l : list A) (d : option B) :
  l <> [] -> exists a, In a l /\ (exists pre, l = pre ++ [a]) /\
                       last (map (fun v => Some (g v)) l) d = Some (g a).
Proof.
  intro Hne. destruct (exists_last Hne) as [pre [a ->]].
  exists a. split; [apply in_or_app; right; now left |].
  split; [now exists pre |].
  rewrite map_app. cbn [map]. apply last_last.
Qed.

(** What a returning call of [calculate_differences] went through. *)
Lemma calculate_differences_ok_inv (data : DataFrame) (ic vc : string)
    (diffs fats : dict) (dates uniq : list cell) :
  calculate_differences data ic vc = Ok (diffs, fats, dates, uniq) ->
  exists labels subset all_dates,
    get_level_values data ic = Ok labels /\
    uniq = unique labels /\
    differences_loop (unique labels) data ic vc [] [] None
    = Ok (diffs, fats, Some subset) /\
    get_level_values subset "date" = Ok all_dates /\
    dates = tl all_dates.
Proof.
  unfold calculate_differences. intro H.
  apply bind_ok_inv in H as [labels [Hl H]].
  apply bind_ok_inv in H as [[[d f] s] [Hloop H]].
  destruct s as [subset |]; [| discriminate].
  apply bind_ok_inv in H as [all_dates [Hd H]].
  injection H as <- <- <- <-.
  now exists labels, subset, all_dates.
Qed.

Lemma getitem_length (df : DataFrame) (col : string) (series : list cell) :
  getitem df col = Ok series -> length series = length (rows df).
Proof.
  unfold getitem. destruct (index_of String.eqb col (columns df));
    [| discriminate].
  intro H. injection H as <-. apply length_map.
Qed.

Lemma group_diff_ok_inv (data : DataFrame) (labels : list cell)
    (col : string) (value : cell) (ds : list cell) :
  group_diff data labels col value = Ok ds ->
  exists series,
    getitem (subset_of data labels value) col = Ok series /\
    length series = length (rows (subset_of data labels value)) /\
    successive_differences (dtype_of_column data col) series ds.
Proof.
  unfold group_diff. intro H. apply bind_ok_inv in H as [series [Hs H]].
  exists series. split; [exact Hs |].
  split; [now apply (getitem_length _ col) | now apply np_diff_spec].
Qed.

(** The round of a group with at most one row stores the empty sequence,
    whatever its cells are, as soon as the column exists. *)
Lemma group_diff_small (data : DataFrame) (labels : list cell)
    (col : string) (value : cell) :
  In col (columns data) ->
  (length (rows (subset_of data labels value)) <= 1)%nat ->
  group_diff data labels col value = Ok [].
Proof.
  intros Hin Hlen. apply In_index_of in Hin as [n Hn].
  unfold group_diff.
  rewrite (getitem_ok (subset_of data labels value) col n) by exact Hn.
  cbn [bind]. apply np_diff_short. now rewrite length_map.
Qed.

Lemma unique_nonempty (l : list cell) : l <> [] -> unique l <> [].
Proof. destruct l; [congruence | discriminate]. Qed.

Lemma select_rows_In (r : row) (rs : list row) :
  forall mask, In r (select_rows rs mask) -> In r rs.
Proof.
  induction rs as [| r0 rs IH]; intros [| b mask] H; try contradiction.
  simpl in H. destruct b.
  - destruct H as [<- | H]; [now left | right; now apply (IH mask)].
  - right. now apply (IH mask).
Qed.

(** The rows selected from a table whose index is modelled have a modelled
    index. *)
Lemma index_modelled_mask (data : DataFrame) (mask : list bool) :
  index_modelled data = true ->
  index_modelled (getitem_mask data mask) = true.
Proof.
  unfold index_modelled, getitem_mask. cbn [rows].
  rewrite !forallb_forall. intros H r Hr. apply H.
  now apply (select_rows_In r _ mask).
Qed.

Lemma get_level_values_modelled (data : DataFrame) (level : string)
    (labels : list cell) :
  get_level_values data level = Ok labels -> index_modelled data = true.
Proof.
  unfold get_level_values.
  destruct (positions (Some level) (index_names data) 0) as [| n [| ? ?]];
    try discriminate.
  now destruct (index_modelled data).
Qed.

Lemma get_level_values_subset (data : DataFrame) (labels : list cell)
    (value : cell) (level : string) (n : nat) :
  index_modelled data = true ->
  positions (Some level) (index_names data) O = [n] ->
  is_ok (get_level_values (subset_of data labels value) level) = true.
Proof.
  intros Hm H. unfold get_level_values.
  unfold subset_of at 1. unfold getitem_mask at 1. cbn [index_names].
  rewrite H. unfold subset_of. now rewrite index_modelled_mask.
Qed.

(** The labels of a level are no floats. *)
Lemma get_level_values_no_float (data : DataFrame) (level : string)
    (labels : list cell) :
  get_level_values data level = Ok labels ->
  Forall (fun c => is_float c = false) labels.
Proof.
  unfold get_level_values.
  destruct (positions (Some level) (index_names data) 0) as [| n [| ? ?]];
    try discriminate.
  destruct (index_modelled data) eqn:Hm; [| discriminate].
  intro H. injection H as <-.
  apply Forall_map, Forall_forall. intros r Hr.
  unfold index_modelled in Hm. rewrite forallb_forall in Hm.
  specialize (Hm r Hr). rewrite forallb_forall in Hm.
  unfold cell_at. destruct (nth_in_or_default n (r_index r) CNaN) as [Hin | ->];
    [| reflexivity].
  apply Hm in Hin. now apply negb_true_iff in Hin.
Qed.

(** [calculate_differences] returns on a table that has a row, the grouping
    level, a [date] level, and whose groups all have their two difference
    sequences. *)
Lemma calculate_differences_returns (data : DataFrame) (ic vc : string)
    (labels : list cell) (n : nat) :
  get_level_values data ic = Ok labels ->
  labels <> [] ->
  positions (Some "date"%string) (index_names data) O = [n] ->
  Forall (fun v => is_ok (group_diff data labels vc v) = true /\
                   is_ok (group_diff data labels fatalities_column v) = true)
         (unique labels) ->
  is_ok (calculate_differences data ic vc) = true.
Proof.
  intros Hl Hne Hdate HF. unfold calculate_differences.
  rewrite Hl. cbn [bind].
  assert (Hfl : Forall (fun c => is_float c = false) (unique labels)).
  { apply Forall_forall. intros c Hc. apply (proj1 (unique_In c labels)) in Hc.
    pose proof (get_level_values_no_float data ic labels Hl) as Hno.
    rewrite Forall_forall in Hno. now apply Hno. }
  assert (Hempty : Forall (fun c => is_float c = false)
                     (dict_keys (@nil (cell * list cell))))
    by constructor.
  destruct (differences_loop_total data ic vc labels Hl _ HF
              (unique_NoDup labels) Hfl [] [] None Hempty Hempty)
    as [[[d f] s] Hrun].
  { intros v _. split; intros []. }
  rewrite Hrun. cbn [bind].
  destruct (differences_loop_spec data ic vc labels Hl _ _ _ _ _ _ _ Hrun)
    as [_ [_ [_ [_ Hs]]]];
    [apply unique_NoDup | intros v _; split; intros [] |].
  destruct (last_map_some (subset_of data labels) (unique labels) None
              (unique_nonempty _ Hne)) as [a [_ [_ Ha]]].
  rewrite Ha in Hs. subst s.
  destruct (is_ok_true _ (get_level_values_subset data labels a _ n
                            (get_level_values_modelled data ic labels Hl)
                            Hdate))
    as [all_dates ->].
  reflexivity.
Qed.

(** X12: on a table without rows no round runs, [subset] is never bound,
    and reading it after the loop raises [UnboundLocalError]: the call does
    not return empty results. *)
Lemma calculate_differences_no_rows (data : DataFrame) (ic vc : string) :
  rows data = [] -> is_ok (get_level_values data ic) = true ->
  calculate_differences data ic vc = Err UnboundLocalError.
Proof.
  intros Hr Hl. apply is_ok_true in Hl as [labels Hl].
  unfold calculate_differences. rewrite Hl. cbn [bind].
  assert (labels = []) as ->.
  { unfold get_level_values in Hl. rewrite Hr in Hl.
    destruct (positions (Some ic) (index_names data) 0) as [| ? [| ? ?]];
      try discriminate.
    destruct (index_modelled data); simpl in Hl; congruence. }
  reflexivity.
Qed.

(** ** [calculate_differences] *)

(** C2: the date axis that [calculate_differences] returns is taken from one
    group only, the last one processed, that is the last of the distinct keys
    in order of first appearance: it is the [date] labels of that group's
    rows without the first. *)
Theorem calculate_differences_date_axis (data : DataFrame) (ic vc : string)
    (diffs fats : dict) (dates uniq : list cell) :
  calculate_differences data ic vc = Ok (diffs, fats, dates, uniq) ->
  exists labels pre last_value all_dates,
    get_level_values data ic = Ok labels /\
    uniq = unique labels /\
    uniq = pre ++ [last_value] /\
    get_level_values (subset_of data labels last_value) "date" = Ok all_dates /\
    dates = tl all_dates.
Proof.
  intro H.
  apply calculate_differences_ok_inv in H
    as [labels [subset [all_dates [Hl [Hu [Hrun [Hd Ht]]]]]]].
  destruct (differences_loop_spec data ic vc labels Hl _ _ _ _ _ _ _ Hrun)
    as [_ [_ [_ [_ Hs]]]];
    [apply unique_NoDup | intros v _; split; intros [] |].
  destruct (unique labels) as [| u0 us] eqn:Eu; [discriminate Hs |].
  destruct (last_map_some (subset_of data labels) (u0 :: us) None)
    as [a [_ [[pre Hpre] Ha]]]; [discriminate |].
  rewrite Ha in Hs. injection Hs as ->.
  exists labels, pre, a, all_dates. subst uniq. rewrite Eu. now repeat split.
Qed.

(** *** The arithmetic of a column *)

Lemma in_int64_range (z : Z) : in_int64 z = true <-> int64_range z.
Proof.
  unfold in_int64, int64_range, INT64_MIN, INT64_MAX.
  rewrite andb_true_iff, !Z.leb_le. reflexivity.
Qed.

Lemma wrap_int64_spec (z : Z) :
  int64_range (wrap_int64 z) /\ (wrap_int64 z - z) mod 2 ^ 64 = 0.
Proof.
  unfold wrap_int64, int64_range.
  pose proof (Z.mod_pos_bound (z + 2 ^ 63) (2 ^ 64) ltac:(lia)) as Hb.
  split; [lia |].
  rewrite (Z.mod_eq (z + 2 ^ 63) (2 ^ 64)) by lia.
  replace (z + 2 ^ 63 - 2 ^ 64 * ((z + 2 ^ 63) / 2 ^ 64) - 2 ^ 63 - z)
    with (- ((z + 2 ^ 63) / 2 ^ 64) * 2 ^ 64) by lia.
  apply Z.mod_mul. lia.
Qed.

Lemma wrap_int64_fits (z : Z) : int64_range z -> wrap_int64 z = z.
Proof.
  unfold wrap_int64, int64_range. intro H.
  rewrite Z.mod_small by lia. lia.
Qed.

Lemma as_float_value (c : cell) (f : spec_float) :
  as_float c = Some f -> float_value c f.
Proof.
  destruct c; intro H; try discriminate H; injection H as <-; constructor.
Qed.

(** The dtype read off a column is the number type of its cells. *)
Lemma dtype_of_kind (col : list cell) (t : dtype) :
  dtype_of col = Ok t -> column_kind col t.
Proof.
  unfold dtype_of.
  destruct (forallb is_int64_cell col) eqn:Ei.
  { intro H. injection H as <-. constructor.
    rewrite forallb_forall in Ei. apply Forall_forall. intros c Hc.
    specialize (Ei c Hc). destruct c; try discriminate Ei.
    exists z. split; [reflexivity | now apply in_int64_range]. }
  destruct (forallb is_float64_cell col) eqn:Ef.
  { intro H. injection H as <-.
    rewrite forallb_forall in Ef. constructor.
    - apply Forall_forall. intros c Hc. specialize (Ef c Hc).
      destruct (as_float c) as [f |] eqn:E;
        [exists f; now apply as_float_value | now destruct c].
    - assert (Hex : existsb (fun c => negb (is_int64_cell c)) col = true).
      { destruct (existsb (fun c => negb (is_int64_cell c)) col) eqn:E;
          [reflexivity |].
        rewrite <- Ei. apply forallb_forall. intros c Hc.
        apply (proj1 (existsb_false_Forall _ _)) in E.
        rewrite Forall_forall in E. specialize (E c Hc).
        now apply negb_false_iff in E. }
      apply existsb_exists in Hex as [c [Hc Hn]]. apply Exists_exists.
      exists c. split; [exact Hc |]. intros z ->.
      specialize (Ef _ Hc). cbn in Ef, Hn. now rewrite Ef in Hn. }
  destruct (existsb is_str_cell col) eqn:Es; [| discriminate].
  destruct (forallb is_object_cell col); [| discriminate].
  intro H. injection H as <-. apply kind_object.
  apply existsb_exists in Es as [c [Hc Hs]]. apply Exists_exists.
  exists c. split; [exact Hc |]. destruct c; try discriminate Hs. now exists s.
Qed.

Lemma py_float_ok_inv (z : Z) (f : spec_float) :
  py_float z = Ok f ->
  f = binary_normalize 53 1024 z 0 false /\ forall s, f <> S754_infinity s.
Proof.
  unfold py_float. destruct (is_finite (float_of_Z z)) eqn:E; [| discriminate].
  intro H. injection H as <-. split; [reflexivity |].
  intros s Hs. rewrite Hs in E. discriminate E.
Qed.

(** What [subtract] computes on two cells of a column of dtype [t] is the
    difference in the arithmetic of [t]. *)
Lemma subtract_difference (col : list cell) (t : dtype) (x y d : cell) :
  dtype_of col = Ok t -> In x col -> In y col ->
  subtract t y x = Ok d ->
  difference t y x d.
Proof.
  intros Ht Hx Hy Hd. destruct t.
  - unfold dtype_of in Ht.
    destruct (forallb is_int64_cell col) eqn:Ei.
    2:{ destruct (forallb is_float64_cell col); [discriminate |].
        destruct (existsb is_str_cell col && forallb is_object_cell col);
          discriminate. }
    rewrite forallb_forall in Ei.
    pose proof (Ei x Hx) as Hix. pose proof (Ei y Hy) as Hiy.
    destruct x as [a | | | |]; try discriminate Hix.
    destruct y as [b | | | |]; try discriminate Hiy.
    cbn in Hd. injection Hd as <-.
    destruct (wrap_int64_spec (b - a)) as [Hr Hm].
    now constructor.
  - cbn in Hd.
    destruct (as_float y) as [g |] eqn:Eg; [| discriminate].
    destruct (as_float x) as [f |] eqn:Ef; [| discriminate].
    injection Hd as <-.
    apply (difference_float64 x y f g); now apply as_float_value.
  - cbn in Hd.
    destruct y as [b | | | | g]; destruct x as [a | | | | f];
      try discriminate Hd.
    + injection Hd as <-. constructor.
    + cbn [py_sub] in Hd. apply bind_ok_inv in Hd as [g [Hg Hd]].
      injection Hd as <-. apply py_float_ok_inv in Hg as [-> Hfin].
      apply (difference_object_float (CFloat f) (CInt b) f _);
        [ constructor | constructor | discriminate | discriminate
        | intros ? ? ?; discriminate
        | intros ?; right; now exists f
        | intros ?; left; apply Hfin ].
    + cbn [py_sub] in Hd. apply bind_ok_inv in Hd as [f [Hf Hd]].
      injection Hd as <-. apply py_float_ok_inv in Hf as [-> Hfin].
      apply (difference_object_float (CInt a) (CFloat g) _ g);
        [ constructor | constructor | discriminate | discriminate
        | intros ? ? ? ?; discriminate
        | intros ?; left; apply Hfin
        | intros ?; right; now exists g ].
    + injection Hd as <-.
      apply (difference_object_float (CFloat f) (CFloat g) f g);
        [ constructor | constructor | discriminate | discriminate
        | intros ? ? ?; discriminate
        | intros ?; right; now exists f
        | intros ?; right; now exists g ].
Qed.

Lemma subtract_int64_fits (a b : Z) (d : cell) :
  subtract Int64 (CInt b) (CInt a) = Ok d ->
  int64_range (b - a) ->
  d = CInt (b - a).
Proof.
  cbn. intros H Hr. injection H as <-. now rewrite wrap_int64_fits.
Qed.

(** The cells of a column of the selected rows are cells of the column of
    the table. *)
Lemma getitem_mask_incl (data : DataFrame) (mask : list bool) (c : string)
    (series col : list cell) :
  getitem (getitem_mask data mask) c = Ok series ->
  getitem data c = Ok col ->
  incl series col.
Proof.
  unfold getitem, getitem_mask. cbn [columns rows].
  destruct (index_of String.eqb c (columns data)) as [n |]; [| discriminate].
  intros H1 H2. injection H1 as <-. injection H2 as <-.
  intros x Hx. apply in_map_iff in Hx as [r [<- Hr]].
  apply in_map_iff. exists r. split; [reflexivity |].
  now apply (select_rows_In r _ mask).
Qed.

Lemma getitem_mask_column (data : DataFrame) (mask : list bool) (c : string)
    (series : list cell) :
  getitem (getitem_mask data mask) c = Ok series ->
  exists col, getitem data c = Ok col.
Proof.
  unfold getitem, getitem_mask. cbn [columns rows].
  destruct (index_of String.eqb c (columns data)) as [n |]; [| discriminate].
  intros _. now eexists.
Qed.

(** The differences that [np.diff] took of two rows or more of a column
    are the successive differences in the arithmetic of that column. *)
Lemma successive_column_differences (data : DataFrame) (mask : list bool)
    (c : string) (series ds : list cell) :
  getitem (getitem_mask data mask) c = Ok series ->
  (2 <= length series)%nat ->
  successive_differences (dtype_of_column data c) series ds ->
  exists col t,
    getitem data c = Ok col /\ column_kind col t /\
    column_differences t series ds.
Proof.
  intros Hs Hlen [Hl Hnth].
  destruct (getitem_mask_column data mask c series Hs) as [col Hcol].
  pose proof (getitem_mask_incl data mask c series col Hs Hcol) as Hincl.
  destruct series as [| x0 [| y0 rest]]; try (simpl in Hlen; lia).
  destruct (Hnth O x0 y0 eq_refl eq_refl) as [t [d0 [Ht _]]].
  unfold dtype_of_column in Ht. rewrite Hcol in Ht. cbn [bind] in Ht.
  exists col, t. split; [exact Hcol |].
  split; [now apply dtype_of_kind |].
  split; [exact Hl |]. split.
  - intros i x y Hx Hy.
    destruct (Hnth i x y Hx Hy) as [t' [d [Ht' [Hd Hi]]]].
    unfold dtype_of_column in Ht'. rewrite Hcol in Ht'. cbn [bind] in Ht'.
    assert (t' = t) as -> by congruence.
    exists d. split; [exact Hi |].
    apply (subtract_difference col t x y d Ht);
      [apply Hincl; now apply (nth_error_In _ i)
      | apply Hincl; now apply (nth_error_In _ (S i)) | exact Hd].
  - intros i a b -> Hx Hy Hr.
    destruct (Hnth i _ _ Hx Hy) as [t' [d [Ht' [Hd Hi]]]].
    unfold dtype_of_column in Ht'. rewrite Hcol in Ht'. cbn [bind] in Ht'.
    assert (t' = Int64) as -> by congruence.
    rewrite Hi. f_equal. now apply subtract_int64_fits.
Qed.

(** C3: for every group of two rows or more, the sequence stored under its
    key is one element shorter than the group and its element [i] is
    [value[i+1] - value[i]], in the group's table order, in the arithmetic
    of the column: on an int64 column the difference of the two integers
    when it fits in 64 bits and the integer congruent to it modulo [2^64]
    otherwise, on a float64 column the float nearest to the difference.  The
    same holds for the fatality percentage. *)
Theorem calculate_differences_group_diffs (data : DataFrame) (ic vc : string)
    (diffs fats : dict) (dates uniq labels : list cell) (value : cell) :
  calculate_differences data ic vc = Ok (diffs, fats, dates, uniq) ->
  get_level_values data ic = Ok labels ->
  In value uniq ->
  (2 <= length (rows (subset_of data labels value)))%nat ->
  exists col col_f t t_f series series_f ds fs,
    getitem data vc = Ok col /\
    getitem data fatalities_column = Ok col_f /\
    column_kind col t /\
    column_kind col_f t_f /\
    getitem (subset_of data labels value) vc = Ok series /\
    getitem (subset_of data labels value) fatalities_column = Ok series_f /\
    length series = length (rows (subset_of data labels value)) /\
    length series_f = length (rows (subset_of data labels value)) /\
    dict_get value diffs = Some ds /\
    dict_get value fats = Some fs /\
    column_differences t series ds /\
    column_differences t_f series_f fs.
Proof.
  intros H Hl Hin Hk.
  apply calculate_differences_ok_inv in H
    as [labels' [subset [all_dates [Hl' [Hu [Hrun _]]]]]].
  assert (labels' = labels) as -> by congruence.
  destruct (differences_loop_spec data ic vc labels Hl _ _ _ _ _ _ _ Hrun)
    as [_ [_ [Hgroups _]]];
    [apply unique_NoDup | intros v _; split; intros [] |].
  subst uniq. destruct (Hgroups value Hin) as [ds [fs [Hds [Hfs [Hgd Hgf]]]]].
  apply group_diff_ok_inv in Hds as [series [Hs [Hls Hsd]]].
  apply group_diff_ok_inv in Hfs as [series_f [Hsf [Hlf Hfd]]].
  unfold subset_of in Hs, Hsf.
  destruct (successive_column_differences data _ vc series ds Hs)
    as [col [t [Hcol [Hkind Hcd]]]]; [lia | exact Hsd |].
  destruct (successive_column_differences data _ fatalities_column
              series_f fs Hsf)
    as [col_f [t_f [Hcol_f [Hkind_f Hcd_f]]]]; [lia | exact Hfd |].
  exists col, col_f, t, t_f, series, series_f, ds, fs.
  repeat (split; [assumption |]). assumption.
Qed.

(** C5: a group with no row or one row gets the empty sequence under its
    key in both dicts, and it never makes the call fail: the call returns
    whenever the two columns and the [date] level exist and the groups with
    two rows or more have their differences. *)
Theorem calculate_differences_small_group (data : DataFrame) (ic vc : string)
    (labels : list cell) (value : cell) :
  get_level_values data ic = Ok labels ->
  In value (unique labels) ->
  (length (rows (subset_of data labels value)) <= 1)%nat ->
  (forall diffs fats dates uniq,
     calculate_differences data ic vc = Ok (diffs, fats, dates, uniq) ->
     dict_get value diffs = Some [] /\ dict_get value fats = Some []) /\
  (In vc (columns data) ->
   In fatalities_column (columns data) ->
   (exists n, positions (Some "date"%string) (index_names data) O = [n]) ->
   (forall v, In v (unique labels) ->
      (2 <= length (rows (subset_of data labels v)))%nat ->
      is_ok (group_diff data labels vc v) = true /\
      is_ok (group_diff data labels fatalities_column v) = true) ->
   is_ok (calculate_differences data ic vc) = true).
Proof.
  intros Hl Hin Hsmall. split.
  - intros diffs fats dates uniq H.
    apply calculate_differences_ok_inv in H
      as [labels' [subset [all_dates [Hl' [Hu [Hrun _]]]]]].
    assert (labels' = labels) as -> by congruence.
    destruct (differences_loop_spec data ic vc labels Hl _ _ _ _ _ _ _ Hrun)
      as [_ [_ [Hgroups _]]];
      [apply unique_NoDup | intros v _; split; intros [] |].
    destruct (Hgroups value Hin) as [ds [fs [Hds [Hfs [-> ->]]]]].
    apply group_diff_ok_inv in Hds as [series [_ [Hls [Hlen _]]]].
    apply group_diff_ok_inv in Hfs as [series_f [_ [Hlf [Hlenf _]]]].
    destruct ds; [| simpl in Hlen; lia].
    destruct fs; [| simpl in Hlenf; lia].
    now split.
  - intros Hvc Hfc [n Hdate] Hbig.
    apply (calculate_differences_returns data ic vc labels n Hl); auto.
    + intros ->. destruct Hin.
    + apply Forall_forall. intros v Hv.
      destruct (le_lt_dec (length (rows (subset_of data labels v))) 1)
        as [Hle | Hgt].
      * rewrite !group_diff_small by assumption. now split.
      * apply Hbig; [exact Hv | lia].
Qed.

(** C10: the two dicts have the same keys, namely the returned
    [unique_values], each once; these are the distinct group keys, in order
    of first appearance. *)
Theorem calculate_differences_keys (data : DataFrame) (ic vc : string)
    (diffs fats : dict) (dates uniq : list cell) :
  calculate_differences data ic vc = Ok (diffs, fats, dates, uniq) ->
  exists labels,
    get_level_values data ic = Ok labels /\
    dict_keys diffs = uniq /\
    dict_keys fats = uniq /\
    NoDup uniq /\
    (forall x, In x uniq <-> In x labels) /\
    (forall x y, before x y uniq -> first_before x y labels).
Proof.
  intro H.
  apply calculate_differences_ok_inv in H
    as [labels [subset [all_dates [Hl [Hu [Hrun _]]]]]].
  destruct (differences_loop_spec data ic vc labels Hl _ _ _ _ _ _ _ Hrun)
    as [Hkd [Hkf _]];
    [apply unique_NoDup | intros v _; split; intros [] |].
  exists labels. subst uniq. repeat split; auto.
  - apply unique_NoDup.
  - now apply unique_In.
  - now apply unique_In.
  - intros x y. apply unique_first_before.
Qed.

Example calculate_differences_covid :
  calculate_differences covid_data "province" "confirmed"
  = Ok (covid_differences, covid_fatalities, covid_dates, covid_keys).
Proof. reflexivity. Qed.

Lemma calculate_differences_date_axis_witness :
  exists labels pre last_value all_dates,
    get_level_values covid_data "province" = Ok labels /\
    covid_keys = unique labels /\
    covid_keys = pre ++ [last_value] /\
    get_level_values (subset_of covid_data labels last_value) "date"
    = Ok all_dates /\
    covid_dates = tl all_dates.
Proof.
  apply (calculate_differences_date_axis covid_data "province" "confirmed"
           covid_differences covid_fatalities covid_dates covid_keys).
  reflexivity.
Defined.

(** The axis is that of the last group ["D"]; the group ["A"], whose own
    dates are others, is given the same axis. *)
Example calculate_differences_axis_of_last_group :
  get_level_values (subset_of covid_data covid_labels (CStr "D")) "date"
  = Ok (CDate (date_of_ymd 2020 3 4) :: covid_dates) /\
  get_level_values (subset_of covid_data covid_labels (CStr "A")) "date"
  = Ok [CDate (date_of_ymd 2020 3 1); CDate (date_of_ymd 2020 3 2);
        CDate (date_of_ymd 2020 3 3)].
Proof. split; reflexivity. Qed.

(** On [covid_data], group ["A"]: the values 10, 15, 13 give 5 and -2, the
    percentages 1, 3, 3 give 2 and 0. *)
Lemma calculate_differences_group_diffs_witness :
  exists t t_f,
    getitem (subset_of covid_data covid_labels (CStr "A")) "confirmed"
    = Ok [CInt 10; CInt 15; CInt 13] /\
    getitem (subset_of covid_data covid_labels (CStr "A")) fatalities_column
    = Ok [CInt 1; CInt 3; CInt 3] /\
    dict_get (CStr "A") covid_differences = Some [CInt 5; CInt (-2)] /\
    dict_get (CStr "A") covid_fatalities = Some [CInt 2; CInt 0] /\
    column_differences t [CInt 10; CInt 15; CInt 13] [CInt 5; CInt (-2)] /\
    column_differences t_f [CInt 1; CInt 3; CInt 3] [CInt 2; CInt 0].
Proof.
  destruct (calculate_differences_group_diffs covid_data "province"
              "confirmed" covid_differences covid_fatalities covid_dates
              covid_keys covid_labels (CStr "A"))
    as [col [col_f [t [t_f [series [series_f [ds [fs
         [_ [_ [_ [_ [Hs [Hsf [_ [_ [Hd [Hf [Hcd Hcf]]]]]]]]]]]]]]]]]]].
  - reflexivity.
  - reflexivity.
  - simpl. tauto.
  - simpl. lia.
  - assert (Es : series = [CInt 10; CInt 15; CInt 13])
      by (vm_compute in Hs; congruence).
    assert (Esf : series_f = [CInt 1; CInt 3; CInt 3])
      by (vm_compute in Hsf; congruence).
    assert (Ed : ds = [CInt 5; CInt (-2)]) by (vm_compute in Hd; congruence).
    assert (Ef : fs = [CInt 2; CInt 0]) by (vm_compute in Hf; congruence).
    subst. exists t, t_f.
    repeat (split; [reflexivity |]). split; assumption.
Defined.

(** On an int64 column the difference wraps around: from [-2^63] to
    [2^63 - 1] the recorded difference is [-1], not [2^64 - 1]. *)
Lemma calculate_differences_wraps_around :
  exists diffs fats dates uniq,
    calculate_differences wide_data "province" "confirmed"
    = Ok (diffs, fats, dates, uniq) /\
    getitem (subset_of wide_data [CStr "A"; CStr "A"] (CStr "A")) "confirmed"
    = Ok [CInt (- 2 ^ 63); CInt (2 ^ 63 - 1)] /\
    dict_get (CStr "A") diffs = Some [CInt (-1)] /\
    CInt (-1) <> CInt ((2 ^ 63 - 1) - (- 2 ^ 63)).
Proof.
  exists [(CStr "A", [CInt (-1)])], [(CStr "A", [CInt 1])],
         [CDate (date_of_ymd 2020 3 2)], [CStr "A"].
  split; [vm_compute; reflexivity |].
  split; [vm_compute; reflexivity |].
  split; [reflexivity | discriminate].
Qed.

(** On a float64 column the difference is rounded: three tenths minus one
    tenth is not the float two tenths, and a missing value gives a missing
    difference. *)
Example calculate_differences_rounds :
  exists diffs dates uniq nearest,
    calculate_differences rates_data "province" "confirmed"
    = Ok (diffs, [(CStr "A", [CFloat nearest; CNaN])], dates, uniq) /\
    nearest = SFsub 53 1024 three_tenths tenth /\
    nearest <> two_tenths.
Proof.
  exists [(CStr "A", [CInt 5; CInt (-2)])],
         [CDate (date_of_ymd 2020 3 2); CDate (date_of_ymd 2020 3 3)],
         [CStr "A"],
         (S754_finite false 7205759403792793 (-55)).
  split; [vm_compute; reflexivity |].
  split; [vm_compute; reflexivity | vm_compute; discriminate].
Qed.

(** The spec's example: the values 10, 15, 13 of group ["A"] give 5, -2. *)
Example calculate_differences_group_A :
  getitem (subset_of covid_data covid_labels (CStr "A")) "confirmed"
  = Ok [CInt 10; CInt 15; CInt 13] /\
  dict_get (CStr "A") covid_differences = Some [CInt 5; CInt (-2)].
Proof. split; reflexivity. Qed.

Lemma calculate_differences_small_group_witness :
  (forall diffs fats dates uniq,
     calculate_differences covid_data "province" "confirmed"
     = Ok (diffs, fats, dates, uniq) ->
     dict_get (CStr "C") diffs = Some [] /\
     dict_get (CStr "C") fats = Some []) /\
  (In "confirmed"%string (columns covid_data) ->
   In fatalities_column (columns covid_data) ->
   (exists n, positions (Some "date"%string) (index_names covid_data) O = [n]) ->
   (forall v, In v (unique covid_labels) ->
      (2 <= length (rows (subset_of covid_data covid_labels v)))%nat ->
      is_ok (group_diff covid_data covid_labels "confirmed" v) = true /\
      is_ok (group_diff covid_data covid_labels fatalities_column v) = true) ->
   is_ok (calculate_differences covid_data "province" "confirmed") = true).
Proof.
  apply (calculate_differences_small_group covid_data "province" "confirmed"
           covid_labels (CStr "C")).
  - reflexivity.
  - simpl. tauto.
  - simpl. lia.
Defined.

(** A missing key equals no label, so its group has no row at all; it too
    gets the empty sequence. *)
Example calculate_differences_missing_key :
  rows (subset_of covid_data covid_labels CNaN) = [] /\
  dict_get CNaN covid_differences = Some [] /\
  dict_get CNaN covid_fatalities = Some [].
Proof. repeat split. Qed.

Lemma calculate_differences_keys_witness :
  exists labels,
    get_level_values covid_data "province" = Ok labels /\
    dict_keys covid_differences = covid_keys /\
    dict_keys covid_fatalities = covid_keys /\
    NoDup covid_keys /\
    (forall x, In x covid_keys <-> In x labels) /\
    (forall x y, before x y covid_keys -> first_before x y labels).
Proof.
  apply (calculate_differences_keys covid_data "province" "confirmed"
           covid_differences covid_fatalities covid_dates covid_keys).
  reflexivity.
Defined.

(** ** Patterns of literal words *)

Lemma list_ascii_of_string_app (a b : string) :
  list_ascii_of_string (a ++ b)
  = list_ascii_of_string a ++ list_ascii_of_string b.
Proof.
  induction a as [| c a IH]; simpl; [reflexivity | now rewrite IH].
Qed.

Lemma plain_not_question (c : ascii) :
  is_plain c = true -> Ascii.eqb c "?" = false.
Proof.
  unfold is_plain. intro H.
  destruct (Ascii.eqb c "?"); [| reflexivity].
  rewrite !andb_true_iff in H. simpl in H. intuition discriminate.
Qed.

Lemma re_compile_plain (c : ascii) (p : list ascii) :
  is_plain c = true -> starts_with_question p = false ->
  re_compile (c :: p)
  = (alts <- re_compile p ;; Ok (push (IAtom (AChar c)) alts)).
Proof.
  unfold is_plain. rewrite !andb_true_iff, !negb_true_iff.
  intros [[[[H1 H2] H3] H4] H5] Hq.
  cbn [re_compile]. rewrite H1, H2, H3, H4.
  unfold atom_of. rewrite H5.
  destruct p as [| q p']; [reflexivity |].
  simpl in Hq. now rewrite Hq.
Qed.

Lemma re_compile_literal (w rest : list ascii) (a : list item)
    (alts : list (list item)) :
  Forall (fun c => is_plain c = true) w ->
  starts_with_question rest = false ->
  re_compile rest = Ok (a :: alts) ->
  re_compile (w ++ rest) = Ok ((literal w ++ a) :: alts).
Proof.
  intros Hw Hq Hrest. induction Hw as [| c w Hc Hw IH]; [exact Hrest |].
  cbn [app literal map].
  rewrite re_compile_plain; [| exact Hc |].
  - fold (literal w). rewrite IH. reflexivity.
  - destruct Hw as [| c' w' Hc' _]; [exact Hq |].
    simpl. now apply plain_not_question.
Qed.

(** The pattern of a word of characters that stand for themselves compiles
    to one alternative: boundary, the word, an optional ["s"], boundary. *)
Lemma re_compile_word_pattern (word : string) :
  Forall (fun c => is_plain c = true) (list_ascii_of_string word) ->
  re_compile (list_ascii_of_string (word_pattern word))
  = Ok [word_items (list_ascii_of_string word)].
Proof.
  intro Hw. unfold word_pattern.
  rewrite !list_ascii_of_string_app.
  change (list_ascii_of_string "\b") with ["\"%char; "b"%char].
  cbn [app].
  change (re_compile ("\"%char :: "b"%char :: ?p))
    with (alts <- re_compile p ;; Ok (push IWordB alts)).
  rewrite (re_compile_literal _ _ [IOpt (AChar "s"); IWordB] []).
  - reflexivity.
  - exact Hw.
  - reflexivity.
  - reflexivity.
Qed.

(** ** Matching a literal word *)

Lemma match_here_literal (w : list ascii) (its : list item) :
  forall prev text,
    match_here (literal w ++ its) prev text
    = match strip_prefix w text with
      | Some rest => match_here its (last (map Some w) prev) rest
      | None => false
      end.
Proof.
  induction w as [| a w IH]; intros prev text; [reflexivity |].
  cbn [literal map app match_here strip_prefix atom_matches].
  destruct text as [| c text]; [reflexivity |].
  destruct (Ascii.eqb_spec a c) as [<- | Hne]; [| reflexivity].
  cbn [andb]. fold (literal w). rewrite IH.
  now rewrite last_cons_default.
Qed.

Lemma strip_prefix_app (w v text : list ascii) :
  strip_prefix (w ++ v) text
  = match strip_prefix w text with
    | Some rest => strip_prefix v rest
    | None => None
    end.
Proof.
  revert text. induction w as [| a w IH]; intro text; [reflexivity |].
  cbn [app strip_prefix]. destruct text as [| c text].
  - reflexivity.
  - destruct (Ascii.eqb a c); [apply IH | reflexivity].
Qed.

Lemma strip_prefix_head (w text rest : list ascii) (a : ascii) :
  strip_prefix (a :: w) text = Some rest -> hd_error text = Some a.
Proof.
  destruct text as [| c text]; simpl; [discriminate |].
  destruct (Ascii.eqb_spec a c) as [<- | _]; [reflexivity | discriminate].
Qed.

Lemma last_some_default {A : Type} (w : list A) (d d' : option A) :
  w <> [] -> last (map Some w) d = last (map Some w) d'.
Proof.
  intro Hne. destruct (exists_last Hne) as [w' [a ->]].
  rewrite map_app. cbn [map]. now rewrite !last_last.
Qed.

(** At one position, the compiled pattern matches just when the word or the
    word with an ["s"] stands there as a whole word; the word begins and
    ends with a word character. *)
Lemma match_here_word_items (w : list ascii) (prev : option ascii)
    (text : list ascii) :
  is_word_opt (hd_error w) = true ->
  is_word_opt (last (map Some w) None) = true ->
  match_here (word_items w) prev text
  = whole_word_here w prev text || whole_word_here (w ++ ["s"%char]) prev text.
Proof.
  intros Hfirst Hlast. unfold word_items, whole_word_here.
  assert (Hne : w <> []) by (intros ->; discriminate Hfirst).
  cbn [match_here]. rewrite match_here_literal, strip_prefix_app.
  destruct (strip_prefix w text) as [rest |] eqn:Hs.
  2:{ now rewrite !andb_false_r. }
  assert (Hb : at_boundary prev text = negb (is_word_opt prev)).
  { destruct w as [| a w']; [congruence |].
    unfold at_boundary. rewrite (strip_prefix_head _ _ _ _ Hs).
    cbn [hd_error] in Hfirst. rewrite Hfirst.
    now destruct (is_word_opt prev). }
  rewrite Hb. cbn [match_here atom_matches].
  unfold at_boundary at 2.
  rewrite (last_some_default w prev None Hne), Hlast.
  rewrite andb_true_r.
  destruct rest as [| c rest']; cbn [strip_prefix hd_error is_word_opt].
  - destruct (is_word_opt prev); reflexivity.
  - destruct (Ascii.eqb_spec "s"%char c) as [<- | Hne'].
    + unfold at_boundary. cbn [is_word_opt].
      change (is_word_char "s") with true. cbn [xorb andb].
      destruct (is_word_opt prev), (is_word_char "s"),
        (is_word_opt (hd_error rest')); reflexivity.
    + cbn [andb orb].
      destruct (is_word_opt prev), (is_word_char c); reflexivity.
Qed.

Lemma re_search_word_items (w : list ascii) :
  is_word_opt (hd_error w) = true ->
  is_word_opt (last (map Some w) None) = true ->
  forall text prev,
    re_search [word_items w] prev text
    = whole_word_in w prev text || whole_word_in (w ++ ["s"%char]) prev text.
Proof.
  intros Hfirst Hlast. induction text as [| c text IH]; intro prev;
    cbn [re_search whole_word_in existsb];
    rewrite (match_here_word_items w prev _ Hfirst Hlast).
  - now rewrite !orb_false_r.
  - rewrite IH, orb_false_r.
    destruct (whole_word_here w prev (c :: text)),
      (whole_word_here (w ++ ["s"%char]) prev (c :: text)),
      (whole_word_in w (Some c) text),
      (whole_word_in (w ++ ["s"%char]) (Some c) text); reflexivity.
Qed.

(** ** [find_word] *)

Lemma str_accessor_strings (series : list cell) :
  Forall (fun c => is_str c = true) series -> str_accessor series = Ok tt.
Proof.
  intro H. destruct H as [| c l Hc _]; [reflexivity |].
  unfold str_accessor. cbn [existsb]. now rewrite Hc.
Qed.

Lemma bool_mask_strings (alts : list (list item)) (series : list cell) :
  Forall (fun c => is_str c = true) series ->
  bool_mask (map (str_contains alts) series)
  = Ok (map (fun c => match c with
                      | CStr s => re_search alts None (list_ascii_of_string s)
                      | _ => false
                      end) series).
Proof.
  induction 1 as [| c series Hc _ IH]; [reflexivity |].
  destruct c; try discriminate Hc.
  cbn [map str_contains bool_mask]. rewrite IH. reflexivity.
Qed.

Lemma word_nonempty (word : string) :
  word <> ""%string -> list_ascii_of_string word <> [].
Proof. destruct word; [congruence | discriminate]. Qed.

(** Where the code does what the word filter is said to do: for a word
    whose characters all stand for themselves in a pattern and which begins
    and ends with a word character, over a column of strings, [find_word]
    keeps exactly the rows whose text contains the word as a whole word, as
    it is or followed by one ["s"]; on the column ["cat runs"],
    ["cats jump"], ["dog barks"] and the word ["cat"] these are the first
    two rows. *)
Theorem find_word_whole_word :
  (forall (dataframe : DataFrame) (column word : string) (n : nat),
     index_of String.eqb column (columns dataframe) = Some n ->
     Forall (fun r => is_str (cell_at n (r_cells r)) = true) (rows dataframe) ->
     Forall (fun c => is_plain c = true) (list_ascii_of_string word) ->
     is_word_opt (hd_error (list_ascii_of_string word)) = true ->
     is_word_opt (last (map Some (list_ascii_of_string word)) None) = true ->
     find_word dataframe column word
     = Ok (mkDataFrame (index_names dataframe) (columns dataframe)
             (rows_with_word dataframe n word))) /\
  find_word animals "text" "cat"
  = Ok (mkDataFrame [None] ["text"%string]
          [ mkRow [CInt 0] [CStr "cat runs"];
            mkRow [CInt 1] [CStr "cats jump"] ]).
Proof.
  split; [| reflexivity].
  intros dataframe column word n Hn Hstr Hw Hfirst Hlast.
  unfold find_word. rewrite (getitem_ok _ _ _ Hn). cbn [bind].
  assert (Hs : Forall (fun c => is_str c = true)
                 (map (fun r => cell_at n (r_cells r)) (rows dataframe))).
  { apply Forall_map. exact Hstr. }
  rewrite (str_accessor_strings _ Hs). cbn [bind].
  rewrite (re_compile_word_pattern word Hw). cbn [bind].
  rewrite (bool_mask_strings _ _ Hs). cbn [bind].
  unfold getitem_mask, rows_with_word. do 2 f_equal.
  rewrite map_map.
  rewrite (select_rows_map
             (fun r => match cell_at n (r_cells r) with
                       | CStr s => re_search
                                     [word_items (list_ascii_of_string word)]
                                     None (list_ascii_of_string s)
                       | _ => false
                       end)).
  apply filter_ext. intro r.
  destruct (cell_at n (r_cells r)); try reflexivity.
  unfold contains_word.
  now apply re_search_word_items.
Qed.

Lemma find_word_whole_word_witness :
  find_word animals "text" "cat"
  = Ok (mkDataFrame (index_names animals) (columns animals)
          (rows_with_word animals 0 "cat")).
Proof.
  apply (proj1 find_word_whole_word animals "text"%string "cat"%string O).
  - reflexivity.
  - repeat constructor.
  - repeat constructor.
  - reflexivity.
  - reflexivity.
Defined.

(** A word with a dash or a blank inside is found as a whole word too. *)
Example find_word_with_dash :
  find_word
    (mkDataFrame [None] ["text"%string]
       [ mkRow [CInt 0] [CStr "the covid-19 wave"];
         mkRow [CInt 1] [CStr "covid-190"];
         mkRow [CInt 2] [CStr "in New York"] ])
    "text" "covid-19"
  = Ok (mkDataFrame [None] ["text"%string]
          [ mkRow [CInt 0] [CStr "the covid-19 wave"] ]).
Proof. reflexivity. Qed.

(** C8: the code does not select exactly the rows that contain the given
    word as a whole word.  The word is pasted into the pattern as it is, not
    escaped, so the dot of ["c.t"] stands for any character and the row
    ["a cut above"] is returned, though its text contains neither ["c.t"]
    nor ["c.ts"]. *)
Lemma find_word_word_is_a_pattern :
  find_word cuts "text" "c.t"
  = Ok (mkDataFrame [None] ["text"%string]
          [mkRow [CInt 0] [CStr "a cut above"]]) /\
  contains_word "c.t" "a cut above" = false /\
  rows_with_word cuts 0 "c.t" = [] /\
  ~ (forall dataframe column word n t,
       index_of String.eqb column (columns dataframe) = Some n ->
       find_word dataframe column word = Ok t ->
       rows t = rows_with_word dataframe n word).
Proof.
  split; [reflexivity |]. split; [reflexivity |]. split; [reflexivity |].
  intro H.
  specialize (H cuts "text"%string "c.t"%string O _ eq_refl eq_refl).
  discriminate H.
Qed.

(** The empty word makes the pattern [\bs?\b], which any text with a word
    in it matches. *)
Example find_word_empty_word :
  find_word animals "text" "" = Ok animals /\
  rows_with_word animals 0 "" = [].
Proof. split; reflexivity. Qed.

(** A missing value in the column makes the mask unusable: indexing with it
    raises instead of selecting rows. *)
Example find_word_missing_value :
  find_word gaps "text" "cat" = Err ValueError_mask_na.
Proof. reflexivity. Qed.


(** ** The heap *)

Lemma world_eta (w : world) : mkWorld (heap w) (surface w) = w.
Proof. now destruct w. Qed.

Lemma nth_error_snoc {A : Type} (l : list A) (x : A) (rest : list A) :
  nth_error (l ++ x :: rest) (length l) = Some x.
Proof.
  rewrite nth_error_app2 by lia. now rewrite Nat.sub_diag.
Qed.

Lemma replace_nth_length {A : Type} (n : nat) (x : A) (l : list A) :
  length (replace_nth n x l) = length l.
Proof.
  revert n. induction l as [| y l IH]; intros [| n]; simpl; auto.
Qed.

Lemma replace_nth_same {A : Type} (n : nat) (x : A) (l : list A) :
  nth_error l n = Some x -> replace_nth n x l = l.
Proof.
  revert n. induction l as [| y l IH]; intros [| n]; simpl; try congruence.
  intro H. f_equal. now apply IH.
Qed.

Lemma nth_error_replace_eq {A : Type} (n : nat) (x : A) (l : list A) :
  (n < length l)%nat -> nth_error (replace_nth n x l) n = Some x.
Proof.
  revert n. induction l as [| y l IH]; intros [| n]; simpl; intro H;
    try lia; [reflexivity |].
  apply IH. lia.
Qed.

Lemma nth_error_replace_neq {A : Type} (n m : nat) (x : A) (l : list A) :
  n <> m -> nth_error (replace_nth n x l) m = nth_error l m.
Proof.
  revert n m. induction l as [| y l IH]; intros [| n] [| m] H; simpl;
    try reflexivity; try congruence.
  apply IH. congruence.
Qed.

Lemma replace_nth_twice {A : Type} (n : nat) (x y : A) (l : list A) :
  replace_nth n x (replace_nth n y l) = replace_nth n x l.
Proof.
  revert n. induction l as [| z l IH]; intros [| n]; simpl; try reflexivity.
  now rewrite IH.
Qed.

Lemma replace_nth_comm {A : Type} (n m : nat) (x y : A) (l : list A) :
  n <> m ->
  replace_nth n x (replace_nth m y l) = replace_nth m y (replace_nth n x l).
Proof.
  revert n m. induction l as [| z l IH]; intros [| n] [| m] H; simpl;
    try reflexivity; try congruence.
  f_equal. apply IH. congruence.
Qed.

Lemma replace_nth_app_r {A : Type} (k : nat) (x : A) (l t : list A) :
  replace_nth (length l + k) x (l ++ t) = l ++ replace_nth k x t.
Proof.
  induction l as [| y l IH]; simpl; [reflexivity | now rewrite IH].
Qed.

Lemma nth_error_lt {A : Type} (l : list A) (n : nat) (x : A) :
  nth_error l n = Some x -> (n <? length l)%nat = true.
Proof.
  intro H. apply Nat.ltb_lt. apply nth_error_Some. congruence.
Qed.

Lemma grown_refl (w : world) : grown w w.
Proof. split; [reflexivity | exists []; now rewrite app_nil_r]. Qed.

Lemma grown_by (w : world) (new : list object) :
  grown w (mkWorld (heap w ++ new) (surface w)).
Proof. split; [reflexivity | now exists new]. Qed.

Lemma grown_untouched (w w' : world) : grown w w' -> untouched w w'.
Proof.
  intros [Hs [new Hh]]. split; [exact Hs |].
  intros a o H. rewrite Hh, nth_error_app1; [exact H |].
  apply nth_error_Some. congruence.
Qed.

(** ** [get_date_range] as a call *)

Lemma date_range_loop_call_step (start : datetime) (i : Z) (idx : list Z)
    (r : ref) (w : world) (acc : list datetime) :
  nth_error (heap w) r = Some (ODateList acc) ->
  date_range_loop_call start (i :: idx) r w
  = match timedelta i with
    | Err e => (Err e, w)
    | Ok delta =>
        match datetime_add start delta with
        | Err e => (Err e, w)
        | Ok date =>
            date_range_loop_call start idx r
              (mkWorld (replace_nth r (ODateList (acc ++ [date])) (heap w))
                 (surface w))
        end
    end.
Proof.
  intro H. cbn [date_range_loop_call].
  unfold and_then, list_append, and_then, load_date_list, and_then, load,
    lift, ret, store.
  destruct (timedelta i) as [delta |]; [| reflexivity].
  destruct (datetime_add start delta) as [date |]; [| reflexivity].
  rewrite H. now rewrite (nth_error_lt _ _ _ H).
Qed.

(** The loop changes the list it was given, and nothing else; the list ends
    as the list that [date_range_loop] computes. *)
Lemma date_range_loop_call_spec (start : datetime) (idx : list Z) (r : ref) :
  forall w acc,
    nth_error (heap w) r = Some (ODateList acc) ->
    exists final,
      date_range_loop_call start idx r w
      = (map_result (fun _ => tt) (date_range_loop start idx acc),
         mkWorld (replace_nth r (ODateList final) (heap w)) (surface w)) /\
      forall l, date_range_loop start idx acc = Ok l -> final = l.
Proof.
  induction idx as [| i idx IH]; intros w acc H.
  - exists acc. cbn. rewrite (replace_nth_same _ _ _ H), world_eta.
    split; [reflexivity | congruence].
  - rewrite (date_range_loop_call_step start i idx r w acc H).
    cbn [date_range_loop].
    destruct (timedelta i) as [delta | e]; cbn [bind].
    2:{ exists acc. rewrite (replace_nth_same _ _ _ H), world_eta.
        split; [reflexivity | discriminate]. }
    destruct (datetime_add start delta) as [date | e]; cbn [bind].
    2:{ exists acc. rewrite (replace_nth_same _ _ _ H), world_eta.
        split; [reflexivity | discriminate]. }
    destruct (IH (mkWorld (replace_nth r (ODateList (acc ++ [date])) (heap w))
                    (surface w)) (acc ++ [date])) as [final [Hrun Hfin]].
    { cbn [heap]. apply nth_error_replace_eq.
      apply Nat.ltb_lt. now apply (nth_error_lt _ _ (ODateList acc)). }
    exists final. rewrite Hrun. cbn [heap surface].
    rewrite replace_nth_twice. split; [reflexivity | exact Hfin].
Qed.

Lemma replace_nth_last (h : list object) (x o : object) :
  replace_nth (length h) o (h ++ [x]) = h ++ [o].
Proof.
  rewrite <- (Nat.add_0_r (length h)) at 1. now rewrite replace_nth_app_r.
Qed.

Lemma get_date_range_call_unfold (chosen_date : datetime) (days : Z)
    (w : world) :
  get_date_range_call chosen_date days w
  = match timedelta days with
    | Err e => (Err e, w)
    | Ok delta =>
        match datetime_sub chosen_date delta with
        | Err e => (Err e, w)
        | Ok start =>
            match date_range_loop_call start range7 (length (heap w))
                    (mkWorld (heap w ++ [ODateList []]) (surface w)) with
            | (Ok _, w') => (Ok (length (heap w)), w')
            | (Err e, w') => (Err e, w')
            end
        end
    end.
Proof.
  unfold get_date_range_call, and_then, lift, alloc, ret.
  destruct (timedelta days) as [delta |]; [| reflexivity].
  destruct (datetime_sub chosen_date delta); reflexivity.
Qed.

(** [get_date_range_call] adds one list to the heap (when no date
    arithmetic fails before the list is made); when the function returns,
    that list holds its result. *)
Lemma get_date_range_call_run (chosen_date : datetime) (days : Z) (w : world) :
  exists new,
    snd (get_date_range_call chosen_date days w)
    = mkWorld (heap w ++ new) (surface w) /\
    match get_date_range chosen_date days with
    | Ok l => fst (get_date_range_call chosen_date days w)
              = Ok (length (heap w)) /\ new = [ODateList l]
    | Err e => fst (get_date_range_call chosen_date days w) = Err e
    end.
Proof.
  rewrite get_date_range_call_unfold. unfold get_date_range.
  destruct (timedelta days) as [delta | e]; cbn [bind].
  2:{ exists []. cbn. now rewrite app_nil_r, world_eta. }
  destruct (datetime_sub chosen_date delta) as [start | e]; cbn [bind].
  2:{ exists []. cbn. now rewrite app_nil_r, world_eta. }
  set (w1 := mkWorld (heap w ++ [ODateList []]) (surface w)).
  destruct (date_range_loop_call_spec start range7 (length (heap w)) w1 [])
    as [final [Hrun Hfin]].
  { unfold w1. cbn [heap]. apply nth_error_snoc. }
  rewrite Hrun. unfold w1. cbn [heap surface].
  rewrite replace_nth_last.
  exists [ODateList final].
  destruct (date_range_loop start range7 []) as [l | e] eqn:El;
    cbn [map_result fst snd].
  - split; [reflexivity |]. split; [reflexivity |]. now rewrite (Hfin l).
  - split; reflexivity.
Qed.

Lemma get_date_range_call_spec (chosen_date : datetime) (days : Z) (w : world) :
  grown w (snd (get_date_range_call chosen_date days w)) /\
  fetch (get_date_range_call chosen_date days w)
  = map_result ODateList (get_date_range chosen_date days).
Proof.
  destruct (get_date_range_call_run chosen_date days w) as [new [Hw Hres]].
  split; [rewrite Hw; apply grown_by |].
  destruct (get_date_range_call chosen_date days w) as [res w'].
  cbn [fst snd] in *. subst w'.
  destruct (get_date_range chosen_date days) as [l | e].
  - destruct Hres as [-> ->]. cbn [fetch heap map_result].
    now rewrite nth_error_snoc.
  - subst res. reflexivity.
Qed.

Lemma grown_trans (w1 w2 w3 : world) :
  grown w1 w2 -> grown w2 w3 -> grown w1 w3.
Proof.
  intros [Hs1 [n1 Hh1]] [Hs2 [n2 Hh2]]. split; [congruence |].
  exists (n1 ++ n2). now rewrite Hh2, Hh1, app_assoc.
Qed.

(** ** Calls that only add objects *)

Lemma allocates_ret {A : Type} (a : A) : allocates (ret a).
Proof. intro w. apply grown_refl. Qed.

Lemma allocates_lift {A : Type} (r : result A) : allocates (lift r).
Proof. intro w. apply grown_refl. Qed.

Lemma allocates_load (r : ref) : allocates (load r).
Proof.
  intro w. unfold load. destruct (nth_error (heap w) r); apply grown_refl.
Qed.

Lemma allocates_alloc (o : object) : allocates (alloc o).
Proof. intro w. apply grown_by. Qed.

Lemma allocates_bind {A B : Type} (m : call A) (k : A -> call B) :
  allocates m -> (forall a, allocates (k a)) -> allocates (and_then m k).
Proof.
  intros Hm Hk w. unfold and_then. specialize (Hm w).
  destruct (m w) as [[a | e] w1]; cbn [snd] in *; [| exact Hm].
  eapply grown_trans; [exact Hm | apply Hk].
Qed.

Lemma allocates_load_frame (r : ref) : allocates (load_frame r).
Proof.
  apply allocates_bind; [apply allocates_load |].
  intros []; first [apply allocates_ret | apply allocates_lift].
Qed.

Lemma allocates_load_series (r : ref) : allocates (load_series r).
Proof.
  apply allocates_bind; [apply allocates_load |].
  intros []; first [apply allocates_ret | apply allocates_lift].
Qed.

Lemma allocates_load_mask (r : ref) : allocates (load_mask r).
Proof.
  apply allocates_bind; [apply allocates_load |].
  intros []; first [apply allocates_ret | apply allocates_lift].
Qed.

Lemma allocates_load_counts (r : ref) : allocates (load_counts r).
Proof.
  apply allocates_bind; [apply allocates_load |].
  intros []; first [apply allocates_ret | apply allocates_lift].
Qed.

(** ** [find_word] and [count_words] as calls *)

Lemma getitem_call_run (dataframe : ref) (column : string) (df : DataFrame)
    (w : world) :
  nth_error (heap w) dataframe = Some (OFrame df) ->
  getitem_call dataframe column w
  = match getitem df column with
    | Ok values =>
        (Ok (length (heap w)),
         mkWorld (heap w ++ [OSeries values]) (surface w))
    | Err e => (Err e, w)
    end.
Proof.
  intro H. unfold getitem_call, and_then, load_frame, and_then, load, lift,
    ret, alloc.
  rewrite H. now destruct (getitem df column).
Qed.

Lemma str_contains_call_run (series : ref) (pattern : string)
    (values : list cell) (w : world) :
  nth_error (heap w) series = Some (OSeries values) ->
  str_contains_call series pattern w
  = match str_accessor values with
    | Err e => (Err e, w)
    | Ok _ =>
        match re_compile (list_ascii_of_string pattern) with
        | Err e => (Err e, w)
        | Ok regex =>
            (Ok (length (heap w)),
             mkWorld (heap w ++ [OMask (map (str_contains regex) values)])
               (surface w))
        end
    end.
Proof.
  intro H. unfold str_contains_call, and_then, load_series, and_then, load,
    lift, ret, alloc.
  rewrite H. destruct (str_accessor values); [| reflexivity].
  now destruct (re_compile (list_ascii_of_string pattern)).
Qed.

Lemma getitem_mask_call_run (dataframe mask : ref) (df : DataFrame)
    (m : list (option bool)) (w : world) :
  nth_error (heap w) dataframe = Some (OFrame df) ->
  nth_error (heap w) mask = Some (OMask m) ->
  getitem_mask_call dataframe mask w
  = match bool_mask m with
    | Ok bm =>
        (Ok (length (heap w)),
         mkWorld (heap w ++ [OFrame (getitem_mask df bm)]) (surface w))
    | Err e => (Err e, w)
    end.
Proof.
  intros Hd Hm. unfold getitem_mask_call, and_then, load_frame, load_mask,
    and_then, load, lift, ret, alloc.
  rewrite Hd, Hm. now destruct (bool_mask m).
Qed.

Lemma nth_error_grown {A : Type} (l new : list A) (n : nat) (x : A) :
  nth_error l n = Some x -> nth_error (l ++ new) n = Some x.
Proof.
  intro H. rewrite nth_error_app1; [exact H |].
  apply nth_error_Some. congruence.
Qed.

Lemma find_word_call_allocates (dataframe : ref) (column word : string) :
  allocates (find_word_call dataframe column word).
Proof.
  unfold find_word_call, getitem_call, str_contains_call, getitem_mask_call.
  cbv zeta.
  repeat first
    [ apply allocates_load_frame | apply allocates_load_series
    | apply allocates_load_mask | apply allocates_lift
    | apply allocates_alloc | apply allocates_ret
    | apply allocates_bind; [| intro] ].
Qed.

(** [find_word] adds three objects, the Series of the column, the mask and
    the new table, and hands back the table that [find_word] computes. *)
Lemma find_word_call_spec (dataframe : ref) (column word : string)
    (w : world) :
  grown w (snd (find_word_call dataframe column word w)) /\
  forall df, nth_error (heap w) dataframe = Some (OFrame df) ->
    fetch (find_word_call dataframe column word w)
    = map_result OFrame (find_word df column word).
Proof.
  split; [apply find_word_call_allocates |].
  intros df Hdf. unfold find_word_call, find_word.
  unfold and_then at 1. rewrite (getitem_call_run _ _ df w Hdf).
  destruct (getitem df column) as [values | e]; cbn [bind]; [| reflexivity].
  set (w1 := mkWorld (heap w ++ [OSeries values]) (surface w)).
  unfold and_then at 1.
  rewrite (str_contains_call_run _ _ values w1)
    by (unfold w1; cbn [heap]; apply nth_error_snoc).
  destruct (str_accessor values) as [[] | e]; cbn [bind]; [| reflexivity].
  destruct (re_compile (list_ascii_of_string (word_pattern word)))
    as [regex | e]; cbn [bind]; [| reflexivity].
  set (m := map (str_contains regex) values).
  set (w2 := mkWorld (heap w1 ++ [OMask m]) (surface w1)).
  unfold and_then.
  rewrite (getitem_mask_call_run _ _ df m w2).
  - destruct (bool_mask m) as [bm | e]; [| reflexivity].
    unfold ret, fetch. cbn [heap map_result]. now rewrite nth_error_snoc.
  - unfold w2, w1. cbn [heap]. now do 2 apply nth_error_grown.
  - unfold w2. cbn [heap]. apply nth_error_snoc.
Qed.

Lemma last_words_call_run (series : ref) (values : list cell) (w : world) :
  nth_error (heap w) series = Some (OSeries values) ->
  last_words_call series w
  = match str_accessor values with
    | Err e => (Err e, w)
    | Ok _ =>
        (Ok (length (heap w)),
         mkWorld (heap w ++ [OSeries (map last_word values)]) (surface w))
    end.
Proof.
  intro H. unfold last_words_call, and_then, load_series, and_then, load,
    lift, ret, alloc.
  rewrite H. now destruct (str_accessor values).
Qed.

Lemma value_counts_call_run (series : ref) (values : list cell) (w : world) :
  nth_error (heap w) series = Some (OSeries values) ->
  value_counts_call series w
  = (Ok (length (heap w)),
     mkWorld (heap w ++ [OCounts (value_counts values)]) (surface w)).
Proof.
  intro H. unfold value_counts_call, and_then, load_series, and_then, load,
    lift, ret, alloc.
  now rewrite H.
Qed.

Lemma head_index_tolist_call_run (counts : ref) (n : Z)
    (c : list (cell * nat)) (w : world) :
  nth_error (heap w) counts = Some (OCounts c) ->
  head_index_tolist_call counts n w
  = (Ok (length (heap w)),
     mkWorld (heap w ++ [OCellList (map fst (head n c))]) (surface w)).
Proof.
  intro H. unfold head_index_tolist_call, and_then, load_counts, and_then,
    load, lift, ret, alloc.
  now rewrite H.
Qed.

(** [count_words] adds four objects, the Series of the column, the last
    words, their counts and the list, and hands back the list that
    [count_words] computes. *)
Lemma count_words_call_spec (dataframe : ref) (column : string) (n : Z)
    (w : world) :
  grown w (snd (count_words_call dataframe column n w)) /\
  forall df, nth_error (heap w) dataframe = Some (OFrame df) ->
    fetch (count_words_call dataframe column n w)
    = map_result OCellList (count_words df column n).
Proof.
  split.
  { revert w. change (allocates (count_words_call dataframe column n)).
    unfold count_words_call, getitem_call, last_words_call,
      value_counts_call, head_index_tolist_call.
    repeat first
      [ apply allocates_load_frame | apply allocates_load_series
      | apply allocates_load_counts | apply allocates_lift
      | apply allocates_alloc | apply allocates_ret
      | apply allocates_bind; [| intro] ]. }
  intros df Hdf. unfold count_words_call, count_words.
  unfold and_then at 1. rewrite (getitem_call_run _ _ df w Hdf).
  destruct (getitem df column) as [values | e]; cbn [bind]; [| reflexivity].
  set (w1 := mkWorld (heap w ++ [OSeries values]) (surface w)).
  unfold and_then at 1.
  rewrite (last_words_call_run _ values w1)
    by (unfold w1; cbn [heap]; apply nth_error_snoc).
  destruct (str_accessor values) as [[] | e]; cbn [bind]; [| reflexivity].
  set (w2 := mkWorld (heap w1 ++ [OSeries (map last_word values)])
               (surface w1)).
  unfold and_then at 1.
  rewrite (value_counts_call_run _ (map last_word values) w2)
    by (unfold w2; cbn [heap]; apply nth_error_snoc).
  set (w3 := mkWorld (heap w2 ++ [OCounts (value_counts (map last_word values))])
               (surface w2)).
  unfold and_then.
  rewrite (head_index_tolist_call_run _ n
             (value_counts (map last_word values)) w3)
    by (unfold w3; cbn [heap]; apply nth_error_snoc).
  unfold ret, fetch. cbn [heap map_result]. now rewrite nth_error_snoc.
Qed.

(** ** [get_matching_entries] as a call *)

Lemma matching_entries_loop_call_unfold (s : string) (dates : list string)
    (data : ref) (col : string) (days : Z) (acc_ref : ref) (w : world) :
  matching_entries_loop_call (s :: dates) data col days acc_ref w
  = match strptime_Ymd s with
    | Err e => (Err e, w)
    | Ok date_obj =>
        match get_date_range_call date_obj days w with
        | (Err e, w1) => (Err e, w1)
        | (Ok date_range, w1) =>
            match nth_error (heap w1) date_range with
            | Some (ODateList window) =>
                match nth_error (heap w1) data with
                | Some (OFrame df) =>
                    match getitem df col with
                    | Err e => (Err e, w1)
                    | Ok series =>
                        match nth_error (heap w1) acc_ref with
                        | Some (OFrame acc) =>
                            matching_entries_loop_call dates data col days
                              (length (heap w1))
                              (mkWorld
                                 (heap w1
                                  ++ [OFrame
                                        (concat_ignore_index acc
                                           (getitem_mask df
                                              (isin series window)))])
                                 (surface w1))
                        | Some _ => (Err TypeError, w1)
                        | None => (Err Unmodelled, w1)
                        end
                    end
                | Some _ => (Err TypeError, w1)
                | None => (Err Unmodelled, w1)
                end
            | Some _ => (Err TypeError, w1)
            | None => (Err Unmodelled, w1)
            end
        end
    end.
Proof.
  cbn [matching_entries_loop_call].
  unfold and_then, load_date_list, load_frame, and_then, load, lift, ret, alloc.
  destruct (strptime_Ymd s) as [date_obj |]; [| reflexivity].
  destruct (get_date_range_call date_obj days w) as [[date_range |] w1];
    [| reflexivity].
  destruct (nth_error (heap w1) date_range) as [[] |]; try reflexivity.
  destruct (nth_error (heap w1) data) as [[] |]; try reflexivity.
  destruct (getitem df col); [| reflexivity].
  destruct (nth_error (heap w1) acc_ref) as [[] |]; reflexivity.
Qed.

(** The loop only adds objects to the heap. *)
Lemma matching_entries_loop_call_grown (data : ref) (col : string) (days : Z)
    (dates : list string) :
  forall w acc_ref,
    grown w (snd (matching_entries_loop_call dates data col days acc_ref w)).
Proof.
  induction dates as [| s dates IH]; intros w acc_ref; [apply grown_refl |].
  rewrite matching_entries_loop_call_unfold.
  destruct (strptime_Ymd s) as [date_obj |]; [| apply grown_refl].
  destruct (get_date_range_call_run date_obj days w) as [new [Hw1 _]].
  destruct (get_date_range_call date_obj days w) as [[date_range |] w1];
    cbn [snd] in Hw1; subst w1; [| apply grown_by].
  set (w1 := mkWorld (heap w ++ new) (surface w)).
  assert (Hg : grown w w1) by apply grown_by.
  destruct (nth_error (heap w1) date_range) as [[] |]; try exact Hg.
  destruct (nth_error (heap w1) data) as [[] |]; try exact Hg.
  destruct (getitem df col); [| exact Hg].
  destruct (nth_error (heap w1) acc_ref) as [[] |]; try exact Hg.
  eapply grown_trans; [| apply IH].
  eapply grown_trans; [exact Hg |]. apply grown_by.
Qed.

(** The table that the loop ends with is the one that
    [matching_entries_loop] computes from the value of [data]. *)
Lemma matching_entries_loop_call_spec (data : ref) (col : string) (days : Z)
    (df : DataFrame) (dates : list string) :
  forall w acc_ref acc,
    nth_error (heap w) data = Some (OFrame df) ->
    nth_error (heap w) acc_ref = Some (OFrame acc) ->
    fetch (matching_entries_loop_call dates data col days acc_ref w)
    = map_result OFrame (matching_entries_loop dates df col days acc).
Proof.
  induction dates as [| s dates IH]; intros w acc_ref acc Hdata Hacc.
  - cbn. now rewrite Hacc.
  - rewrite matching_entries_loop_call_unfold. cbn [matching_entries_loop].
    destruct (strptime_Ymd s) as [date_obj | e]; cbn [bind]; [| reflexivity].
    destruct (get_date_range_call_run date_obj days w) as [new [Hw1 Hres]].
    destruct (get_date_range_call date_obj days w) as [res w1].
    cbn [fst snd] in Hw1, Hres. subst w1.
    destruct (get_date_range date_obj days) as [window | e]; cbn [bind].
    2:{ now subst res. }
    destruct Hres as [-> ->]. cbn [heap surface].
    rewrite nth_error_snoc.
    rewrite (nth_error_app1 (heap w) [ODateList window])
      by (apply Nat.ltb_lt; now apply (nth_error_lt _ _ (OFrame df))).
    rewrite Hdata.
    destruct (getitem df col) as [series | e]; cbn [bind]; [| reflexivity].
    rewrite (nth_error_app1 (heap w) [ODateList window])
      by (apply Nat.ltb_lt; now apply (nth_error_lt _ _ (OFrame acc))).
    rewrite Hacc.
    apply IH; cbn [heap].
    + rewrite <- app_assoc. rewrite nth_error_app1; [exact Hdata |].
      apply Nat.ltb_lt. now apply (nth_error_lt _ _ (OFrame df)).
    + apply nth_error_snoc.
Qed.

Lemma get_matching_entries_call_unfold (dates data : ref) (col : string)
    (days : Z) (w : world) :
  get_matching_entries_call dates data col days w
  = match nth_error (heap w) dates with
    | Some (OStrList l) =>
        matching_entries_loop_call l data col days (length (heap w))
          (mkWorld (heap w ++ [OFrame empty_frame]) (surface w))
    | Some _ => (Err TypeError, w)
    | None => (Err Unmodelled, w)
    end.
Proof.
  unfold get_matching_entries_call, and_then, load_str_list, and_then, load,
    lift, ret, alloc.
  destruct (nth_error (heap w) dates) as [[] |]; reflexivity.
Qed.

Lemma get_matching_entries_call_spec (dates data : ref) (col : string)
    (days : Z) (w : world) :
  grown w (snd (get_matching_entries_call dates data col days w)) /\
  forall l df,
    nth_error (heap w) dates = Some (OStrList l) ->
    nth_error (heap w) data = Some (OFrame df) ->
    fetch (get_matching_entries_call dates data col days w)
    = map_result OFrame (get_matching_entries l df col days).
Proof.
  rewrite get_matching_entries_call_unfold. split.
  - destruct (nth_error (heap w) dates) as [[] |]; try apply grown_refl.
    eapply grown_trans; [| apply matching_entries_loop_call_grown].
    apply grown_by.
  - intros l df Hl Hdf. rewrite Hl.
    apply matching_entries_loop_call_spec; cbn [heap].
    + rewrite nth_error_app1; [exact Hdf |].
      apply Nat.ltb_lt. now apply (nth_error_lt _ _ (OFrame df)).
    + apply nth_error_snoc.
Qed.

(** ** [calculate_differences] as a call *)

Section DifferencesCall.

Variables data d f : ref.
Variables index_column value_column : string.
Variable df : DataFrame.
Hypothesis Hdf : d <> f.

(** One round: the two dicts are updated in place, one after the other. *)
Lemma differences_loop_call_step (value : cell) (values : list cell)
    (s0 : option DataFrame) (w : world) (dd ff : dict) :
  nth_error (heap w) data = Some (OFrame df) ->
  nth_error (heap w) d = Some (ODict dd) ->
  nth_error (heap w) f = Some (ODict ff) ->
  differences_loop_call (value :: values) data index_column value_column
    d f s0 w
  = match get_level_values df index_column with
    | Err e => (Err e, w)
    | Ok labels =>
        match getitem (subset_of df labels value) value_column with
        | Err e => (Err e, w)
        | Ok series =>
            match np_diff (dtype_of_column df value_column) series with
            | Err e => (Err e, w)
            | Ok ds =>
                match dict_assign value ds dd with
                | Err e => (Err e, w)
                | Ok dd1 =>
                    let h1 := replace_nth d (ODict dd1) (heap w) in
                    match getitem (subset_of df labels value)
                            fatalities_column with
                    | Err e => (Err e, mkWorld h1 (surface w))
                    | Ok series_f =>
                        match np_diff (dtype_of_column df fatalities_column)
                                series_f with
                        | Err e => (Err e, mkWorld h1 (surface w))
                        | Ok fs =>
                            match dict_assign value fs ff with
                            | Err e => (Err e, mkWorld h1 (surface w))
                            | Ok ff1 =>
                                differences_loop_call values data index_column
                                  value_column d f
                                  (Some (subset_of df labels value))
                                  (mkWorld (replace_nth f (ODict ff1) h1)
                                     (surface w))
                            end
                        end
                    end
                end
            end
        end
    end.
Proof.
  intros Hdata Hd Hf. cbn [differences_loop_call].
  unfold and_then, dict_setitem, and_then, load_frame, load_dict, and_then,
    load, lift, ret, store.
  rewrite Hdata.
  destruct (get_level_values df index_column) as [labels |]; [| reflexivity].
  destruct (getitem (subset_of df labels value) value_column) as [series |];
    [| reflexivity].
  destruct (np_diff (dtype_of_column df value_column) series) as [ds |];
    [| reflexivity].
  rewrite Hd.
  destruct (dict_assign value ds dd) as [dd1 |]; [| reflexivity].
  rewrite (nth_error_lt _ _ _ Hd). cbn [heap surface].
  destruct (getitem (subset_of df labels value) fatalities_column)
    as [series_f |]; [| reflexivity].
  destruct (np_diff (dtype_of_column df fatalities_column) series_f)
    as [fs |]; [| reflexivity].
  rewrite (nth_error_replace_neq d f) by exact Hdf.
  rewrite Hf.
  destruct (dict_assign value fs ff) as [ff1 |]; [| reflexivity].
  cbn [heap surface].
  rewrite replace_nth_length, (nth_error_lt _ _ _ Hf).
  reflexivity.
Qed.

(** The loop changes the two dicts it was given and nothing else; when
    [differences_loop] returns, they end as it computes them. *)
Lemma differences_loop_call_spec (values : list cell) :
  forall w dd ff s0,
    nth_error (heap w) data = Some (OFrame df) ->
    nth_error (heap w) d = Some (ODict dd) ->
    nth_error (heap w) f = Some (ODict ff) ->
    exists dd' ff',
      snd (differences_loop_call values data index_column value_column
             d f s0 w)
      = mkWorld (replace_nth d (ODict dd')
                   (replace_nth f (ODict ff') (heap w))) (surface w) /\
      match differences_loop values df index_column value_column dd ff s0 with
      | Ok (r1, r2, s) =>
          fst (differences_loop_call values data index_column value_column
                 d f s0 w) = Ok s /\ dd' = r1 /\ ff' = r2
      | Err e =>
          fst (differences_loop_call values data index_column value_column
                 d f s0 w) = Err e
      end.
Proof.
  assert (Hid : forall (w : world) dd ff,
            nth_error (heap w) d = Some (ODict dd) ->
            nth_error (heap w) f = Some (ODict ff) ->
            mkWorld (replace_nth d (ODict dd)
                       (replace_nth f (ODict ff) (heap w))) (surface w) = w).
  { intros w dd ff Hd Hf.
    rewrite (replace_nth_same f _ _ Hf), (replace_nth_same d _ _ Hd).
    apply world_eta. }
  induction values as [| value values IH]; intros w dd ff s0 Hdata Hd Hf.
  - exists dd, ff. cbn. now rewrite (Hid w dd ff Hd Hf).
  - rewrite (differences_loop_call_step value values s0 w dd ff Hdata Hd Hf).
    cbn [differences_loop].
    destruct (get_level_values df index_column) as [labels | e]; cbn [bind].
    2:{ exists dd, ff. cbn. now rewrite (Hid w dd ff Hd Hf). }
    destruct (getitem (subset_of df labels value) value_column)
      as [series | e]; cbn [bind].
    2:{ exists dd, ff. cbn. now rewrite (Hid w dd ff Hd Hf). }
    destruct (np_diff (dtype_of_column df value_column) series)
      as [ds | e]; cbn [bind].
    2:{ exists dd, ff. cbn. now rewrite (Hid w dd ff Hd Hf). }
    destruct (dict_assign value ds dd) as [dd1 | e]; cbn [bind].
    2:{ exists dd, ff. cbn. now rewrite (Hid w dd ff Hd Hf). }
    cbv zeta.
    assert (Hmid : forall e : exn,
              exists dd' ff',
                snd (@Err (option DataFrame) e,
                     mkWorld (replace_nth d (ODict dd1) (heap w)) (surface w))
                = mkWorld (replace_nth d (ODict dd')
                             (replace_nth f (ODict ff') (heap w)))
                    (surface w) /\
                fst (@Err (option DataFrame) e,
                     mkWorld (replace_nth d (ODict dd1) (heap w)) (surface w))
                = Err e).
    { intro e. exists dd1, ff. cbn.
      now rewrite (replace_nth_same f _ _ Hf). }
    destruct (getitem (subset_of df labels value) fatalities_column)
      as [series_f | e]; cbn [bind]; [| apply Hmid].
    destruct (np_diff (dtype_of_column df fatalities_column) series_f)
      as [fs | e]; cbn [bind]; [| apply Hmid].
    destruct (dict_assign value fs ff) as [ff1 | e]; cbn [bind];
      [| apply Hmid].
    set (h2 := replace_nth f (ODict ff1)
                 (replace_nth d (ODict dd1) (heap w))).
    destruct (IH (mkWorld h2 (surface w)) dd1 ff1
                (Some (subset_of df labels value)))
      as [dd' [ff' [Hw Hres]]].
    { unfold h2. cbn [heap].
      rewrite !nth_error_replace_neq by congruence. exact Hdata. }
    { unfold h2. cbn [heap].
      rewrite nth_error_replace_neq by congruence.
      apply nth_error_replace_eq, Nat.ltb_lt.
      now apply (nth_error_lt _ _ (ODict dd)). }
    { unfold h2. cbn [heap].
      apply nth_error_replace_eq. rewrite replace_nth_length.
      apply Nat.ltb_lt. now apply (nth_error_lt _ _ (ODict ff)). }
    exists dd', ff'. split; [| exact Hres].
    rewrite Hw. unfold h2. cbn [heap surface].
    rewrite replace_nth_twice.
    rewrite (replace_nth_comm f d) by congruence.
    now rewrite replace_nth_twice.
Qed.

End DifferencesCall.

Lemma calculate_differences_call_unfold (data : ref) (ic vc : string)
    (w : world) :
  calculate_differences_call data ic vc w
  = match nth_error (heap w) data with
    | Some (OFrame df) =>
        match get_level_values df ic with
        | Err e => (Err e, w)
        | Ok labels =>
            match differences_loop_call (unique labels) data ic vc
                    (length (heap w)) (length (heap w ++ [ODict []])) None
                    (mkWorld ((heap w ++ [ODict []]) ++ [ODict []])
                       (surface w)) with
            | (Ok (Some subset), w') =>
                match get_level_values subset "date" with
                | Ok all_dates =>
                    (Ok (length (heap w), length (heap w ++ [ODict []]),
                         tl all_dates, unique labels), w')
                | Err e => (Err e, w')
                end
            | (Ok None, w') => (Err UnboundLocalError, w')
            | (Err e, w') => (Err e, w')
            end
        end
    | Some _ => (Err TypeError, w)
    | None => (Err Unmodelled, w)
    end.
Proof.
  unfold calculate_differences_call, and_then, load_frame, and_then, load,
    lift, ret, alloc. cbn [heap surface].
  destruct (nth_error (heap w) data) as [[] |]; try reflexivity.
  destruct (get_level_values df ic) as [labels |]; [| reflexivity].
  destruct (differences_loop_call _ _ _ _ _ _ _ _) as [[[subset |] |] w'];
    reflexivity.
Qed.

Lemma two_dicts_replaced (h : list object) (a b x y : object) :
  replace_nth (length h) x
    (replace_nth (length (h ++ [a])) y ((h ++ [a]) ++ [b]))
  = h ++ [x; y].
Proof.
  rewrite replace_nth_last.
  rewrite <- app_assoc. cbn [app].
  rewrite <- (Nat.add_0_r (length h)). now rewrite replace_nth_app_r.
Qed.

Lemma calculate_differences_call_spec (data : ref) (ic vc : string) (w : world) :
  grown w (snd (calculate_differences_call data ic vc w)) /\
  forall df,
    nth_error (heap w) data = Some (OFrame df) ->
    fetch_differences (calculate_differences_call data ic vc w)
    = calculate_differences df ic vc.
Proof.
  rewrite calculate_differences_call_unfold.
  destruct (nth_error (heap w) data) as [o |] eqn:E.
  2:{ split; [apply grown_refl | discriminate]. }
  destruct o as [df | | | | | | |];
    try (split; [apply grown_refl | discriminate]).
  match goal with
  | |- grown w (snd ?X) /\ _ =>
      enough (Hmain : grown w (snd X) /\
                      fetch_differences X = calculate_differences df ic vc)
        by (destruct Hmain as [Hg Hf]; split;
            [exact Hg | intros df' H; injection H as <-; exact Hf])
  end.
  unfold calculate_differences.
  destruct (get_level_values df ic) as [labels | e]; cbn [bind].
  2:{ split; [apply grown_refl | reflexivity]. }
  assert (Hlt : (data < length (heap w))%nat)
    by (apply Nat.ltb_lt; now apply (nth_error_lt _ _ (OFrame df))).
  set (w2 := mkWorld ((heap w ++ [ODict []]) ++ [ODict []]) (surface w)).
  assert (H1 : length (heap w) <> length (heap w ++ [ODict []]))
    by (rewrite length_app; simpl; lia).
  destruct (differences_loop_call_spec data (length (heap w))
              (length (heap w ++ [ODict []])) ic vc df H1
              (unique labels) w2 [] [] None)
    as [dd' [ff' [Hw Hres]]].
  { unfold w2. cbn [heap]. rewrite <- app_assoc.
    rewrite nth_error_app1 by exact Hlt. exact E. }
  { unfold w2. cbn [heap]. rewrite <- app_assoc. apply nth_error_snoc. }
  { unfold w2. cbn [heap]. apply nth_error_snoc. }
  destruct (differences_loop_call (unique labels) data ic vc
              (length (heap w)) (length (heap w ++ [ODict []])) None w2)
    as [res w'].
  cbn [fst snd] in Hw, Hres. subst w'.
  unfold w2. cbn [heap surface]. rewrite two_dicts_replaced.
  assert (Hg : grown w (mkWorld (heap w ++ [ODict dd'; ODict ff']) (surface w)))
    by apply grown_by.
  destruct (differences_loop (unique labels) df ic vc [] [] None)
    as [[[r1 r2] s] | e]; cbn [bind].
  - destruct Hres as [-> [-> ->]].
    destruct s as [subset |]; [| split; [exact Hg | reflexivity]].
    destruct (get_level_values subset "date") as [all_dates | e];
      cbn [bind snd]; [| split; [exact Hg | reflexivity]].
    split; [exact Hg |].
    cbn [fetch_differences heap].
    rewrite nth_error_snoc.
    change (heap w ++ [ODict r1; ODict r2])
      with (heap w ++ [ODict r1] ++ [ODict r2]).
    rewrite app_assoc.
    replace (length (heap w ++ [ODict []]))
      with (length (heap w ++ [ODict r1]))
      by (rewrite !length_app; reflexivity).
    now rewrite nth_error_snoc.
  - subst res. split; [exact Hg | reflexivity].
Qed.

(** ** The plotting calls *)

Lemma set_parameters_call_spec (title xlabel ylabel : string) (rotation : Z)
    (w : world) :
  set_parameters_call title xlabel ylabel rotation w
  = (Ok tt,
     mkWorld (heap w)
       (surface w ++ [Title title; XLabel xlabel; YLabel ylabel;
                      XTicks rotation; Legend])).
Proof.
  unfold set_parameters_call, and_then, plt. cbn [heap surface].
  now rewrite <- !app_assoc.
Qed.

(** One round of the loop of [plot_differences]. *)
Lemma plot_differences_loop_step (value : cell) (values xaxis : list cell)
    (yaxis : ref) (w : world) :
  plot_differences_loop (value :: values) xaxis yaxis w
  = match nth_error (heap w) yaxis with
    | Some (ODict d) =>
        match dict_item d value with
        | Ok y =>
            if (length xaxis =? length y)%nat
            then plot_differences_loop values xaxis yaxis
                   (mkWorld (heap w) (surface w ++ [Line xaxis y value]))
            else (Err ValueError_shape, w)
        | Err e => (Err e, w)
        end
    | Some _ => (Err TypeError, w)
    | None => (Err Unmodelled, w)
    end.
Proof.
  cbn [plot_differences_loop].
  unfold and_then, load_dict, and_then, load, lift, ret, plt_plot.
  destruct (nth_error (heap w) yaxis) as [o |]; [| reflexivity].
  destruct o; try reflexivity.
  destruct (dict_item d value) as [l |]; [| reflexivity].
  destruct (length xaxis =? length l)%nat; reflexivity.
Qed.

(** [plot_differences] leaves the heap alone and only adds lines; when it
    returns, it has added one line per key, over the same [xaxis]. *)
Lemma plot_differences_loop_spec (xaxis : list cell) (yaxis : ref)
    (values : list cell) :
  forall w,
    heap (snd (plot_differences_loop values xaxis yaxis w)) = heap w /\
    (exists drawn,
       surface (snd (plot_differences_loop values xaxis yaxis w))
       = surface w ++ drawn) /\
    forall d,
      nth_error (heap w) yaxis = Some (ODict d) ->
      fst (plot_differences_loop values xaxis yaxis w) = Ok tt ->
      exists ys,
        Forall2 (fun v y => dict_item d v = Ok y) values ys /\
        surface (snd (plot_differences_loop values xaxis yaxis w))
        = surface w
          ++ map (fun vy => Line xaxis (snd vy) (fst vy)) (combine values ys).
Proof.
  assert (Hstop : forall (w : world) (e : exn) (vs : list cell)
                         (Q : dict -> Prop),
            heap (snd (@Err unit e, w)) = heap w /\
            (exists drawn, surface (snd (@Err unit e, w)) = surface w ++ drawn) /\
            forall d : dict,
              Q d ->
              fst (@Err unit e, w) = Ok tt ->
              exists ys,
                Forall2 (fun v y => dict_item d v = Ok y) vs ys /\
                surface (snd (@Err unit e, w))
                = surface w
                  ++ map (fun vy => Line xaxis (snd vy) (fst vy))
                       (combine vs ys)).
  { intros w e vs Q. split; [reflexivity |].
    split; [exists []; now rewrite app_nil_r |]. intros d _ H. discriminate H. }
  induction values as [| value values IH]; intro w.
  - cbn. split; [reflexivity |]. split; [exists []; now rewrite app_nil_r |].
    intros d _ _. exists []. split; [constructor | now rewrite app_nil_r].
  - rewrite plot_differences_loop_step.
    destruct (nth_error (heap w) yaxis) as [o |] eqn:E; [| apply Hstop].
    destruct o as [| | | | d | | |]; try apply Hstop.
    destruct (dict_item d value) as [y |] eqn:Ey; [| apply Hstop].
    destruct (length xaxis =? length y)%nat; [| apply Hstop].
    set (w1 := mkWorld (heap w) (surface w ++ [Line xaxis y value])).
    destruct (IH w1) as [Hh [[drawn Hd] Hok]].
    split; [exact Hh |]. split.
    + exists (Line xaxis y value :: drawn). rewrite Hd. unfold w1.
      cbn [surface]. now rewrite <- app_assoc.
    + intros d' Hd' Hrun. injection Hd' as <-.
      destruct (Hok d E Hrun) as [ys [HF Hs]].
      exists (y :: ys). split; [now constructor |].
      rewrite Hs. unfold w1. cbn [surface combine map fst snd].
      now rewrite <- app_assoc.
Qed.

(** ** Purity *)

(** *** What [plot_data] tells [pyplot] *)

Lemma appends_compute {A : Type} (r : result A) : appends (compute r).
Proof. intro s. exists []. cbn. now rewrite app_nil_r. Qed.

Lemma appends_emit (c : draw) : appends (emit c).
Proof. intro s. now exists [c]. Qed.

Lemma appends_emit_each (cs : list draw) : appends (emit_each cs).
Proof. intro s. now exists cs. Qed.

Lemma appends_then {A B : Type} (m : drawing A) (k : A -> drawing B) :
  appends m -> (forall a, appends (k a)) -> appends (then_draw m k).
Proof.
  intros Hm Hk s. unfold then_draw. destruct (Hm s) as [d1 H1].
  destruct (m s) as [[a | e] s1]; cbn [snd] in *.
  - destruct (Hk a s1) as [d2 H2]. exists (d1 ++ d2).
    now rewrite H2, H1, app_assoc.
  - now exists d1.
Qed.

Lemma appends_set_xlim (lo hi : spec_float) : appends (set_xlim lo hi).
Proof.
  unfold set_xlim. destruct (is_finite lo && is_finite hi);
    [apply appends_emit | apply appends_compute].
Qed.

Lemma appends_set_ylim (lo hi : spec_float) : appends (set_ylim lo hi).
Proof.
  unfold set_ylim. destruct (is_finite lo && is_finite hi);
    [apply appends_emit | apply appends_compute].
Qed.

(** What follows the map layers in [plot_data] only adds commands. *)
Lemma plot_data_after_layers_appends (mapping_data : DataFrame)
    (zoom_level : spec_float) (name_data : GeoDataFrame) :
  appends
    (extent <~~ compute (extent_of mapping_data zoom_level) ;;
     let '(x0, x1, y0, y1) := extent in
     _ <~~ set_xlim x0 x1 ;;
     _ <~~ set_ylim y0 y1 ;;
     _ <~~ emit (Aspect "equal") ;;
     points <~~ compute (points_of mapping_data) ;;
     _ <~~ emit (Markers (fst points) (snd points)
                   [("color", "red"); ("alpha", "0.5")]%string) ;;
     labels <~~ compute (annotations name_data) ;;
     emit_each labels).
Proof.
  apply appends_then; [apply appends_compute |].
  intros [[[x0 x1] y0] y1].
  repeat first
    [ apply appends_compute | apply appends_emit | apply appends_emit_each
    | apply appends_set_xlim | apply appends_set_ylim
    | apply appends_then; [| intro] ].
Qed.

(** [plot_data] never takes back a command; and as soon as the three files
    are read and filtered, it has opened a figure of its own and put the
    three layers of the map on it, whatever happens afterwards. *)
Lemma plot_data_spec (read_file : string -> result GeoDataFrame)
    (mapping_data : DataFrame) (zoom_level : spec_float) (s : list draw) :
  (exists drawn,
     snd (plot_data read_file mapping_data zoom_level s) = s ++ drawn) /\
  (forall e, load_maps read_file = Err e ->
     plot_data read_file mapping_data zoom_level s = (Err e, s)) /\
  (forall map_data district_data name_data,
     load_maps read_file = Ok (map_data, district_data, name_data) ->
     exists rest,
       snd (plot_data read_file mapping_data zoom_level s)
       = s ++ [ Subplots 8 8;
                GeoPlot (geometries map_data) [];
                GeoPlot (geometries district_data)
                  [("edgecolor", "black"); ("facecolor", "none")]%string;
                GeoPlot (geometries name_data)
                  [("color", "black"); ("markersize", "3")]%string ]
           ++ rest).
Proof.
  assert (Hlayers : forall map_data district_data name_data,
            load_maps read_file = Ok (map_data, district_data, name_data) ->
            exists rest,
              snd (plot_data read_file mapping_data zoom_level s)
              = s ++ [ Subplots 8 8;
                       GeoPlot (geometries map_data) [];
                       GeoPlot (geometries district_data)
                         [("edgecolor", "black"); ("facecolor", "none")]%string;
                       GeoPlot (geometries name_data)
                         [("color", "black"); ("markersize", "3")]%string ]
                  ++ rest).
  { intros map_data district_data name_data H.
    unfold plot_data. unfold then_draw at 1. unfold compute at 1. rewrite H.
    do 4 (unfold then_draw at 1; unfold emit at 1).
    destruct (plot_data_after_layers_appends mapping_data zoom_level
                name_data
                ((((s ++ [Subplots 8 8])
                   ++ [GeoPlot (geometries map_data) []])
                  ++ [GeoPlot (geometries district_data)
                        [("edgecolor", "black"); ("facecolor", "none")]%string])
                 ++ [GeoPlot (geometries name_data)
                       [("color", "black"); ("markersize", "3")]%string]))
      as [rest Hrest].
    exists rest. rewrite Hrest. now rewrite <- !app_assoc. }
  split; [| split; [| exact Hlayers]].
  - destruct (load_maps read_file) as [[[a b] c] | e] eqn:E.
    + destruct (Hlayers a b c eq_refl) as [rest ->]. now eexists.
    + exists []. unfold plot_data, then_draw, compute. rewrite E.
      cbn. now rewrite app_nil_r.
  - intros e E. unfold plot_data, then_draw, compute. now rewrite E.
Qed.

(** C9: [find_word], [count_words], [get_date_range],
    [get_matching_entries] and [calculate_differences] leave every object
    that exists when they are called as it was, the tables, lists and dicts
    they are handed included, and give [pyplot] no command; what they hand
    back is what the function computes from the values of its arguments,
    whatever else the world holds.  Three routines give commands to
    [pyplot]: [set_parameters] and [plot_differences], which add to the
    current figure and leave the heap alone, and [plot_data], which opens a
    figure of its own and draws the map on it. *)
Theorem non_plotting_calls_are_pure :
  (forall dataframe column word w,
     untouched w (snd (find_word_call dataframe column word w)) /\
     forall df, nth_error (heap w) dataframe = Some (OFrame df) ->
       fetch (find_word_call dataframe column word w)
       = map_result OFrame (find_word df column word)) /\
  (forall dataframe column n w,
     untouched w (snd (count_words_call dataframe column n w)) /\
     forall df, nth_error (heap w) dataframe = Some (OFrame df) ->
       fetch (count_words_call dataframe column n w)
       = map_result OCellList (count_words df column n)) /\
  (forall chosen_date days w,
     untouched w (snd (get_date_range_call chosen_date days w)) /\
     fetch (get_date_range_call chosen_date days w)
     = map_result ODateList (get_date_range chosen_date days)) /\
  (forall dates data col days w,
     untouched w (snd (get_matching_entries_call dates data col days w)) /\
     forall l df,
       nth_error (heap w) dates = Some (OStrList l) ->
       nth_error (heap w) data = Some (OFrame df) ->
       fetch (get_matching_entries_call dates data col days w)
       = map_result OFrame (get_matching_entries l df col days)) /\
  (forall data ic vc w,
     untouched w (snd (calculate_differences_call data ic vc w)) /\
     forall df, nth_error (heap w) data = Some (OFrame df) ->
       fetch_differences (calculate_differences_call data ic vc w)
       = calculate_differences df ic vc) /\
  (forall title xlabel ylabel rotation w,
     heap (snd (set_parameters_call title xlabel ylabel rotation w)) = heap w /\
     surface (snd (set_parameters_call title xlabel ylabel rotation w))
     = surface w ++ [Title title; XLabel xlabel; YLabel ylabel;
                     XTicks rotation; Legend]) /\
  (forall unique_values xaxis yaxis w,
     heap (snd (plot_differences_call unique_values xaxis yaxis w)) = heap w /\
     forall d,
       nth_error (heap w) yaxis = Some (ODict d) ->
       fst (plot_differences_call unique_values xaxis yaxis w) = Ok tt ->
       exists ys,
         Forall2 (fun v y => dict_item d v = Ok y) unique_values ys /\
         surface (snd (plot_differences_call unique_values xaxis yaxis w))
         = surface w
           ++ map (fun vy => Line xaxis (snd vy) (fst vy))
                (combine unique_values ys)) /\
  (forall read_file mapping_data zoom_level s,
     (exists drawn,
        snd (plot_data read_file mapping_data zoom_level s) = s ++ drawn) /\
     forall map_data district_data name_data,
       load_maps read_file = Ok (map_data, district_data, name_data) ->
       exists rest,
         snd (plot_data read_file mapping_data zoom_level s)
         = s ++ [ Subplots 8 8;
                  GeoPlot (geometries map_data) [];
                  GeoPlot (geometries district_data)
                    [("edgecolor", "black"); ("facecolor", "none")]%string;
                  GeoPlot (geometries name_data)
                    [("color", "black"); ("markersize", "3")]%string ]
             ++ rest).
Proof.
  split.
  { intros dataframe column word w.
    destruct (find_word_call_spec dataframe column word w) as [Hg Hf].
    split; [now apply grown_untouched | exact Hf]. }
  split.
  { intros dataframe column n w.
    destruct (count_words_call_spec dataframe column n w) as [Hg Hf].
    split; [now apply grown_untouched | exact Hf]. }
  split.
  { intros chosen_date days w.
    destruct (get_date_range_call_spec chosen_date days w) as [Hg Hf].
    split; [now apply grown_untouched | exact Hf]. }
  split.
  { intros dates data col days w.
    destruct (get_matching_entries_call_spec dates data col days w) as [Hg Hf].
    split; [now apply grown_untouched | exact Hf]. }
  split.
  { intros data ic vc w.
    destruct (calculate_differences_call_spec data ic vc w) as [Hg Hf].
    split; [now apply grown_untouched | exact Hf]. }
  split.
  { intros. now rewrite set_parameters_call_spec. }
  split.
  { intros uniq xaxis yaxis w.
    destruct (plot_differences_loop_spec xaxis yaxis uniq w) as [Hh [_ Hok]].
    split; [exact Hh | exact Hok]. }
  intros read_file mapping_data zoom_level s.
  destruct (plot_data_spec read_file mapping_data zoom_level s)
    as [Happ [_ Hlayers]].
  split; [exact Happ | exact Hlayers].
Qed.

(** C9 as stated fails: [plot_data] is a third routine that writes to the
    drawing surface.  On the sample maps and cases it returns after opening
    a figure and giving nine commands. *)
Lemma plot_data_draws :
  plot_data sample_files cases half []
  = (Ok tt,
     [ Subplots 8 8;
       GeoPlot [GShape 1] [];
       GeoPlot [GShape 3]
         [("edgecolor", "black"); ("facecolor", "none")]%string;
       GeoPlot [GPoint (float_of_Z 127) (float_of_Z 37)]
         [("color", "black"); ("markersize", "3")]%string;
       XLim (float_sub (float_of_Z 126) half) (float_add (float_of_Z 129) half);
       YLim (float_sub (float_of_Z 35) half) (float_add (float_of_Z 37) half);
       Aspect "equal";
       Markers [ GPoint (float_of_Z 126) (float_of_Z 37);
                 GPoint (float_of_Z 129) (float_of_Z 35) ]
         [CInt 10; CInt 20]
         [("color", "red"); ("alpha", "0.5")]%string;
       Annotate (CStr "Seoul") (float_of_Z 127) (float_of_Z 37)
         annotate_style ]) /\
  snd (plot_data sample_files cases half []) <> [].
Proof.
  split; [vm_compute; reflexivity | vm_compute; discriminate].
Qed.

(** Without the files nothing is drawn; with them and a table without rows
    the figure is opened and the map drawn before the limits are refused. *)
Example plot_data_partial :
  plot_data (fun _ => Err Unmodelled) cases half [Title "before"]
  = (Err Unmodelled, [Title "before"]) /\
  exists drawn,
    plot_data sample_files
      (mkDataFrame [None] ["longitude"; "latitude"; "confirmed"]%string [])
      half [Title "before"]
    = (Err ValueError_limits, Title "before" :: Subplots 8 8 :: drawn).
Proof.
  split; [reflexivity |]. eexists. vm_compute. reflexivity.
Qed.

(** On the sample world: [calculate_differences] adds its two dicts as new
    objects and leaves the five objects and the figure as they were; the
    plotting call writes two lines to the figure. *)
Example calculate_differences_call_sample :
  calculate_differences_call 3%nat "province" "confirmed" sample_world
  = (Ok (5%nat, 6%nat, covid_dates, covid_keys),
     mkWorld (heap sample_world
              ++ [ODict covid_differences; ODict covid_fatalities])
             [Title "before"]).
Proof. reflexivity. Qed.

Example get_matching_entries_call_sample :
  fetch (get_matching_entries_call 2%nat 1%nat "start_date" 7 sample_world)
  = map_result OFrame
      (get_matching_entries ["2023-05-01"; "2023-05-02"]%string policy_data
         "start_date" 7) /\
  length (heap (snd (get_matching_entries_call 2%nat 1%nat "start_date" 7
                       sample_world))) = 10%nat.
Proof. split; reflexivity. Qed.

Example plot_differences_call_sample :
  plot_differences_call [CStr "A"; CStr "D"] covid_dates 4%nat sample_world
  = (Ok tt,
     mkWorld (heap sample_world)
       [ Title "before";
         Line covid_dates [CInt 5; CInt (-2)] (CStr "A");
         Line covid_dates [CInt 4; CInt 2] (CStr "D") ]).
Proof. reflexivity. Qed.

(* ===================================================================== *)
(** * Further properties *)
(* ===================================================================== *)

(** ** [get_date_range]: when it returns, and what the window covers *)

Lemma datetime_add_ok_inv (dt : datetime) (n : Z) (d : datetime) :
  datetime_add dt n = Ok d ->
  d = shift_days dt n /\ 1 <= ordinal dt + n <= MAXORDINAL.
Proof.
  unfold datetime_add, shift_days.
  destruct (Z.leb_spec 1 (ordinal dt + n)) as [H1 | H1]; cbn [andb];
    [| discriminate].
  destruct (Z.leb_spec (ordinal dt + n) MAXORDINAL) as [H2 | H2];
    [| discriminate].
  intro E. injection E as <-. split; [reflexivity | lia].
Qed.

Lemma date_range_loop_ok_inv (start : datetime) (idx : list Z) :
  forall acc l,
    date_range_loop start idx acc = Ok l ->
    l = acc ++ map (shift_days start) idx /\
    Forall (fun i => 1 <= ordinal start + i <= MAXORDINAL) idx.
Proof.
  induction idx as [| i idx IH]; intros acc l H.
  - injection H as <-. rewrite app_nil_r. split; [reflexivity | constructor].
  - cbn [date_range_loop] in H.
    apply bind_ok_inv in H as [delta [Hd H]].
    apply bind_ok_inv in H as [date [Ha H]].
    unfold timedelta in Hd.
    destruct (Z.abs i <=? MAX_DELTA_DAYS); [| discriminate].
    injection Hd as <-.
    apply datetime_add_ok_inv in Ha as [-> Hr].
    apply IH in H as [-> HF]. rewrite <- app_assoc.
    split; [reflexivity | now constructor].
Qed.

(** Whatever the reference date, a window that is returned is the seven
    days from [chosen_date - days] on, and they all are dates. *)
Lemma get_date_range_ok_inv (D : datetime) (days : Z) (l : list datetime) :
  get_date_range D days = Ok l ->
  l = map (fun i => shift_days D (i - days)) range7 /\
  1 <= ordinal D - days /\ ordinal D - days + 6 <= MAXORDINAL.
Proof.
  unfold get_date_range. intro H.
  apply bind_ok_inv in H as [delta [Hd H]].
  apply bind_ok_inv in H as [start [Hs H]].
  unfold timedelta in Hd.
  destruct (Z.abs days <=? MAX_DELTA_DAYS); [| discriminate].
  injection Hd as <-.
  apply datetime_add_ok_inv in Hs as [-> Hr].
  apply date_range_loop_ok_inv in H as [-> HF].
  cbn [app]. split.
  - cbn [map range7]. rewrite !shift_days_shift.
    repeat (f_equal; try lia).
  - unfold range7 in HF.
    repeat match goal with
           | H : Forall _ (_ :: _) |- _ => inversion H; clear H; subst
           end.
    cbn [shift_days ordinal] in *. lia.
Qed.

(** X1: for a reference date that is a date, [get_date_range] returns
    exactly when the seven days from [chosen_date - days] on lie between
    0001-01-01 and 9999-12-31, and otherwise raises [OverflowError]. *)
Theorem get_date_range_returns_iff (D : datetime) (days : Z) :
  valid_datetime D ->
  (is_ok (get_date_range D days) = true <->
   1 <= ordinal D - days /\ ordinal D - days + 6 <= MAXORDINAL) /\
  (is_ok (get_date_range D days) = false ->
   get_date_range D days = Err OverflowError).
Proof.
  intro HD. split; [split |].
  - intro H. apply is_ok_true in H as [l Hl].
    now apply get_date_range_ok_inv in Hl.
  - intros [H1 H2]. now rewrite (get_date_range_ok D days HD H1 H2).
  - intro H. apply is_ok_false in H as [e He].
    rewrite He. f_equal. now apply (get_date_range_error D days).
Qed.

Lemma get_date_range_returns_iff_witness :
  (is_ok (get_date_range (date_of_ymd 9999 12 31) 5) = true <->
   1 <= ordinal (date_of_ymd 9999 12 31) - 5 /\
   ordinal (date_of_ymd 9999 12 31) - 5 + 6 <= MAXORDINAL) /\
  (is_ok (get_date_range (date_of_ymd 9999 12 31) 5) = false ->
   get_date_range (date_of_ymd 9999 12 31) 5 = Err OverflowError).
Proof.
  apply (get_date_range_returns_iff (date_of_ymd 9999 12 31) 5).
  unfold valid_datetime. vm_compute. repeat split; discriminate.
Defined.

Lemma shift_days_zero (D : datetime) : shift_days D 0 = D.
Proof. destruct D as [o t]. unfold shift_days. simpl. f_equal. lia. Qed.

Lemma shift_days_eq (D : datetime) (a b : Z) :
  shift_days D a = shift_days D b <-> a = b.
Proof.
  unfold shift_days. split; [| now intros ->].
  intro H. injection H as H. lia.
Qed.

(** X2: the reference date itself is one of the seven returned dates exactly
    when [0 <= days <= 6]; with the docstring's [days = 7] the window ends
    the day before it. *)
Theorem get_date_range_contains_chosen_date (D : datetime) (days : Z)
    (l : list datetime) :
  get_date_range D days = Ok l ->
  (In D l <-> 0 <= days <= 6).
Proof.
  intro H. apply get_date_range_ok_inv in H as [-> _].
  rewrite in_map_iff. split.
  - intros [i [Hi Hin]].
    rewrite <- (shift_days_zero D) in Hi at 2.
    apply shift_days_eq in Hi.
    unfold range7 in Hin. simpl in Hin. lia.
  - intro Hd. exists days. split.
    + rewrite Z.sub_diag. apply shift_days_zero.
    + unfold range7. simpl. lia.
Qed.

Lemma get_date_range_contains_chosen_date_witness :
  In (date_of_ymd 2023 5 1)
     (map (fun i => shift_days (date_of_ymd 2023 5 1) (i - 3)) range7)
  <-> 0 <= 3 <= 6.
Proof.
  apply (get_date_range_contains_chosen_date (date_of_ymd 2023 5 1) 3).
  reflexivity.
Defined.

(** ** [get_matching_entries]: which rows, which index, which error *)

Lemma strptime_midnight (s : string) (D : datetime) :
  strptime_Ymd s = Ok D -> tod D = 0.
Proof.
  unfold strptime_Ymd.
  destruct (match_Ymd (list_ascii_of_string s)) as [[[[y m] d] rest] |];
    [| discriminate].
  destruct rest; [| discriminate].
  destruct ((MINYEAR <=? y) && (1 <=? d) && (d <=? days_in_month y m));
    [| discriminate].
  intro H. now injection H as <-.
Qed.

Lemma datetime_eqb_true (a b : datetime) :
  datetime_eqb a b = true <-> ordinal a = ordinal b /\ tod a = tod b.
Proof.
  unfold datetime_eqb. rewrite andb_true_iff, !Z.eqb_eq. tauto.
Qed.

(** X3: the rows that one reference date selects are the rows whose cell in
    the date column is a datetime at midnight from [date - days] up to
    [date - days + 6]; a datetime with a time of day is never selected. *)
Theorem window_rows_interval (data : DataFrame) (n : nat) (days : Z)
    (s : string) (D : datetime) (r : row) :
  strptime_Ymd s = Ok D ->
  is_ok (window_of s days) = true ->
  (In r (window_rows data n days s) <->
   In r (rows data) /\
   exists d, cell_at n (r_cells r) = CDate d /\ tod d = 0 /\
             ordinal D - days <= ordinal d <= ordinal D - days + 6).
Proof.
  intros HD Hw. apply is_ok_true in Hw as [w Hw].
  unfold window_rows. rewrite Hw.
  unfold window_of in Hw. rewrite HD in Hw. cbn [bind] in Hw.
  apply get_date_range_ok_inv in Hw as [-> _].
  pose proof (strptime_midnight s D HD) as Ht.
  unfold rows_in_window. rewrite filter_In.
  apply and_iff_compat_l.
  destruct (cell_at n (r_cells r)) as [z | t | d | | f]; cbn [cell_isin];
    try (split; [discriminate | intros [d [H _]]; discriminate]).
  rewrite existsb_exists. split.
  - intros [x [Hx He]]. apply in_map_iff in Hx as [i [<- Hi]].
    apply datetime_eqb_true in He as [Ho Htd].
    cbn [shift_days ordinal tod] in Ho, Htd.
    exists d. split; [reflexivity |]. split; [congruence |].
    unfold range7 in Hi. simpl in Hi. lia.
  - intros [d' [Hd' [Htd Hr]]]. injection Hd' as <-.
    exists (shift_days D (ordinal d - ordinal D)). split.
    + apply in_map_iff. exists (ordinal d - ordinal D + days). split.
      * f_equal. lia.
      * unfold range7. simpl. lia.
    + apply datetime_eqb_true. cbn [shift_days ordinal tod].
      split; [lia | congruence].
Qed.

Lemma window_rows_interval_witness :
  In (mkRow [CInt 2] [CDate (date_of_ymd 2023 4 30); CStr "travel"])
     (window_rows policy_data 0 7 "2023-05-01") <->
  In (mkRow [CInt 2] [CDate (date_of_ymd 2023 4 30); CStr "travel"])
     (rows policy_data) /\
  exists d,
    cell_at 0 (r_cells (mkRow [CInt 2]
                          [CDate (date_of_ymd 2023 4 30); CStr "travel"]))
    = CDate d /\ tod d = 0 /\
    ordinal (date_of_ymd 2023 5 1) - 7 <= ordinal d
    <= ordinal (date_of_ymd 2023 5 1) - 7 + 6.
Proof.
  apply (window_rows_interval policy_data 0 7 "2023-05-01"
           (date_of_ymd 2023 5 1)).
  - reflexivity.
  - reflexivity.
Defined.

(** *** Rows and counts *)

(** The window of a date whose seven days exist. *)
Lemma get_date_range_window (D : datetime) (days : Z) :
  Z.abs days <= MAX_DELTA_DAYS ->
  1 <= ordinal D - days -> ordinal D - days + 6 <= MAXORDINAL ->
  get_date_range D days = Ok (map (fun i => shift_days D (i - days)) range7).
Proof.
  intros Hd Hlo Hhi. unfold MAXORDINAL in *.
  unfold get_date_range.
  rewrite timedelta_ok by exact Hd. cbn [bind].
  unfold datetime_sub.
  rewrite datetime_add_ok by (unfold MAXORDINAL; lia). cbn [bind].
  rewrite date_range_loop_ok.
  - cbn [app map range7]. rewrite !shift_days_shift.
    repeat (f_equal; try lia).
  - unfold range7, MAX_DELTA_DAYS, MAXORDINAL.
    repeat constructor; simpl; lia.
Qed.

(** Being one of the seven dates of the window is lying in the week. *)
Lemma cell_isin_week (D : datetime) (days : Z) (c : cell) :
  cell_isin (map (fun i => shift_days D (i - days)) range7) c
  = in_week D days c.
Proof.
  destruct c as [z | t | d | | f]; try reflexivity.
  cbn [cell_isin in_week]. apply eq_true_iff_eq.
  rewrite existsb_exists, !andb_true_iff, Z.eqb_eq, !Z.leb_le. split.
  - intros [x [Hx He]]. apply in_map_iff in Hx as [i [<- Hi]].
    apply datetime_eqb_true in He as [Ho Htd].
    cbn [shift_days ordinal tod] in Ho, Htd.
    unfold range7 in Hi. simpl in Hi. lia.
  - intros [[Htd Hlo] Hhi].
    exists (shift_days D (ordinal d - ordinal D)). split.
    + apply in_map_iff. exists (ordinal d - ordinal D + days). split.
      * f_equal. lia.
      * unfold range7. simpl. lia.
    + apply datetime_eqb_true. cbn [shift_days ordinal tod].
      split; [lia | exact Htd].
Qed.

(** The rows that the loop selects for a reference date are the rows of
    its week. *)
Lemma window_rows_week (data : DataFrame) (n : nat) (days : Z)
    (s : string) (D : datetime) :
  strptime_Ymd s = Ok D ->
  Z.abs days <= MAX_DELTA_DAYS ->
  1 <= ordinal D - days -> ordinal D - days + 6 <= MAXORDINAL ->
  is_ok (window_of s days) = true /\
  window_rows data n days s = week_rows data n days D.
Proof.
  intros HD Hd Hlo Hhi.
  assert (Hw : window_of s days
               = Ok (map (fun i => shift_days D (i - days)) range7)).
  { unfold window_of. rewrite HD. cbn [bind].
    now apply get_date_range_window. }
  split; [now rewrite Hw |].
  unfold window_rows. rewrite Hw. unfold rows_in_window, week_rows.
  apply filter_ext. intro r. apply cell_isin_week.
Qed.

(** C4: when the date column is present, every reference date is read as a
    date and its seven days exist, [get_matching_entries] returns a table
    whose rows are, for each reference date in turn, the source rows whose
    cell in the date column is one of the seven days that start [days] days
    before the date, in table order; a row is there once for every window
    it lies in, so the row count is the sum of the per-window counts. *)
Theorem get_matching_entries_rows (dates : list string)
    (parsed : list datetime) (data : DataFrame) (col : string) (days : Z)
    (n : nat) :
  index_of String.eqb col (columns data) = Some n ->
  Forall2 (fun s D => strptime_Ymd s = Ok D) dates parsed ->
  Z.abs days <= MAX_DELTA_DAYS ->
  Forall (fun D => 1 <= ordinal D - days /\
                   ordinal D - days + 6 <= MAXORDINAL) parsed ->
  exists t,
    get_matching_entries dates data col days = Ok t /\
    length (rows t)
    = list_sum (map (fun D => length (week_rows data n days D)) parsed) /\
    map r_cells (rows t)
    = flat_map (fun D => map r_cells (week_rows data n days D)) parsed /\
    (dates <> [] -> columns t = columns data).
Proof.
  intros Hn Hparse Hd Hweeks.
  assert (Hall : Forall (fun s => is_ok (window_of s days) = true) dates /\
                 flat_map (fun s => map r_cells (window_rows data n days s))
                   dates
                 = flat_map (fun D => map r_cells (week_rows data n days D))
                     parsed).
  { induction Hparse as [| s D dates parsed HD Hparse IH].
    - split; [constructor | reflexivity].
    - inversion Hweeks as [| ? ? [Hlo Hhi] Hweeks']; subst.
      destruct (IH Hweeks') as [HF Hflat].
      destruct (window_rows_week data n days s D HD Hd Hlo Hhi) as [Hok Hrows].
      split; [now constructor |].
      cbn [flat_map]. now rewrite Hrows, Hflat. }
  destruct Hall as [HF Hflat].
  destruct (matching_entries_loop_ok data col days n dates Hn HF empty_frame)
    as [t [Ht [Hrows Hcols]]].
  { right. split; reflexivity. }
  exists t. split; [exact Ht |].
  simpl in Hrows. rewrite Hflat in Hrows.
  split; [| split; assumption].
  rewrite <- (length_map r_cells), Hrows, length_flat_map.
  f_equal. apply map_ext. intro D. apply length_map.
Qed.

(** On the policy table, with the reference dates 2023-05-01 and
    2023-05-02 and [days = 7]: the weeks are 04-24 to 04-30 and 04-25 to
    05-01, so the first selects the rows of 04-24 and 04-30 and the second
    the row of 04-30 again; the row of 05-24 lies in neither. *)
Lemma get_matching_entries_rows_witness :
  get_matching_entries ["2023-05-01"; "2023-05-02"]%string policy_data
    "start_date" 7 = Ok policy_matches /\
  length (rows policy_matches)
  = list_sum (map (fun D => length (week_rows policy_data 0 7 D)) may_days) /\
  length (rows policy_matches) = 3%nat /\
  flat_map (fun D => map r_cells (week_rows policy_data 0 7 D)) may_days
  = [ [CDate (date_of_ymd 2023 4 24); CStr "masks"];
      [CDate (date_of_ymd 2023 4 30); CStr "travel"];
      [CDate (date_of_ymd 2023 4 30); CStr "travel"] ] /\
  map r_cells (rows policy_matches)
  = flat_map (fun D => map r_cells (week_rows policy_data 0 7 D)) may_days.
Proof.
  destruct (get_matching_entries_rows ["2023-05-01"; "2023-05-02"]%string
              may_days policy_data "start_date" 7 0%nat)
    as [t [Ht [Hlen [Hrows _]]]].
  - reflexivity.
  - repeat constructor.
  - unfold MAX_DELTA_DAYS. simpl. lia.
  - unfold may_days, MAXORDINAL.
    repeat constructor; vm_compute; discriminate.
  - assert (Hpin : get_matching_entries ["2023-05-01"; "2023-05-02"]%string
                     policy_data "start_date" 7 = Ok policy_matches)
      by reflexivity.
    rewrite Hpin in Ht. injection Ht as <-.
    split; [exact Hpin |]. split; [exact Hlen |].
    split; [reflexivity |]. split; [reflexivity | exact Hrows].
Defined.

Lemma renumber_index (cs : list (list cell)) :
  forall n i r,
    nth_error (renumber n cs) i = Some r ->
    r_index r = [CInt (n + Z.of_nat i)].
Proof.
  induction cs as [| c cs IH]; intros n i r H.
  - now destruct i.
  - destruct i as [| i]; simpl in H.
    + injection H as <-. simpl. now rewrite Z.add_0_r.
    + apply IH in H. rewrite H. do 2 f_equal. lia.
Qed.

Lemma concat_range_indexed (a b : DataFrame) :
  range_indexed (concat_ignore_index a b).
Proof.
  split; [reflexivity |]. intros i r H.
  unfold concat_ignore_index in H. cbn [rows] in H.
  now apply renumber_index in H.
Qed.

Lemma matching_entries_loop_range_indexed (data : DataFrame) (col : string)
    (days : Z) (dates : list string) :
  forall acc t,
    range_indexed acc ->
    matching_entries_loop dates data col days acc = Ok t ->
    range_indexed t.
Proof.
  induction dates as [| s dates IH]; intros acc t Hacc H.
  - now injection H as <-.
  - cbn [matching_entries_loop] in H.
    apply bind_ok_inv in H as [d [_ H]].
    apply bind_ok_inv in H as [w [_ H]].
    apply bind_ok_inv in H as [series [_ H]].
    apply (IH _ _ (concat_range_indexed _ _) H).
Qed.

(** X4: the table that [get_matching_entries] returns never carries the
    index of the source table: its index is one unnamed level numbering the
    returned rows 0, 1, 2, ... *)
Theorem get_matching_entries_range_indexed (dates : list string)
    (data : DataFrame) (col : string) (days : Z) (t : DataFrame) :
  get_matching_entries dates data col days = Ok t ->
  range_indexed t.
Proof.
  apply matching_entries_loop_range_indexed.
  split; [reflexivity |]. intros i r H. now destruct i.
Qed.

Lemma get_matching_entries_range_indexed_witness :
  range_indexed policy_matches.
Proof.
  apply (get_matching_entries_range_indexed
           ["2023-05-01"; "2023-05-02"]%string policy_data "start_date" 7).
  reflexivity.
Defined.

Lemma window_of_ok_or_err (s : string) (days : Z) :
  is_ok (window_of s days) = true \/ exists e, window_of s days = Err e.
Proof.
  destruct (window_of s days) as [w | e]; [now left | right; now exists e].
Qed.

Lemma matching_entries_loop_first_error (data : DataFrame) (col : string)
    (days : Z) (e : exn) (dates : list string) :
  forall acc,
    matching_entries_loop dates data col days acc = Err e <->
    exists pre s post,
      dates = pre ++ s :: post /\
      Forall (fun p => is_ok (window_of p days) = true) pre /\
      (pre = [] \/ In col (columns data)) /\
      (window_of s days = Err e \/
       (is_ok (window_of s days) = true /\
        ~ In col (columns data) /\ e = KeyError)).
Proof.
  induction dates as [| s dates IH]; intro acc.
  - simpl. split; [discriminate |].
    intros [pre [s [post [H _]]]]. now destruct pre.
  - assert (Hw : forall _ : unit,
                 matching_entries_loop (s :: dates) data col days acc
                 = (w <- window_of s days ;;
                    series <- getitem data col ;;
                    matching_entries_loop dates data col days
                      (concat_ignore_index acc
                         (getitem_mask data (isin series w))))).
    { intros _. cbn [matching_entries_loop]. unfold window_of.
      destruct (strptime_Ymd s); [| reflexivity]. cbn [bind].
      destruct (get_date_range a days); reflexivity. }
    rewrite (Hw tt). clear Hw.
    destruct (window_of s days) as [w | e'] eqn:Ew; cbn [bind].
    2:{ split.
        - intro H. injection H as ->. exists [], s, dates.
          repeat split; auto.
        - intros [pre [s0 [post [Heq [HF [_ Hs0]]]]]].
          destruct pre as [| p pre']; simpl in Heq.
          + injection Heq as <- _. rewrite Ew in Hs0.
            destruct Hs0 as [H | [H _]]; [congruence | discriminate H].
          + injection Heq as <- _. inversion HF as [| ? ? Hok _]; subst.
            rewrite Ew in Hok. discriminate Hok. }
    destruct (getitem data col) as [series | e'] eqn:Eg; cbn [bind].
    2:{ destruct (getitem_err _ _ _ Eg) as [-> Hnin]. split.
        - intro H. injection H as <-. exists [], s, dates.
          repeat split; auto. right. rewrite Ew. now repeat split.
        - intros [pre [s0 [post [Heq [HF [Hc Hs0]]]]]].
          destruct pre as [| p pre']; simpl in Heq.
          + injection Heq as <- _. rewrite Ew in Hs0.
            destruct Hs0 as [H | [_ [_ ->]]]; [discriminate H | reflexivity].
          + destruct Hc as [Hc | Hc]; [discriminate Hc | tauto]. }
    assert (Hin : In col (columns data)).
    { unfold getitem in Eg.
      destruct (index_of String.eqb col (columns data)) eqn:E; [| discriminate].
      now apply index_of_In in E. }
    rewrite IH. split.
    + intros [pre [s0 [post [-> [HF [_ Hs0]]]]]].
      exists (s :: pre), s0, post. split; [reflexivity |].
      split; [constructor; [now rewrite Ew | exact HF] |].
      split; [now right | exact Hs0].
    + intros [pre [s0 [post [Heq [HF [_ Hs0]]]]]].
      destruct pre as [| p pre']; simpl in Heq.
      * injection Heq as <- _. rewrite Ew in Hs0.
        destruct Hs0 as [H | [_ [H _]]]; [discriminate H | tauto].
      * injection Heq as <- ->. exists pre', s0, post.
        split; [reflexivity |]. split; [now inversion HF |].
        split; [now right | exact Hs0].
Qed.

(** X5: the error that [get_matching_entries] raises is that of the first
    reference date at which a round fails, the steps of a round being tried
    in the order parse, window, column: the parse or overflow error of that
    date, or [KeyError] when the date column is absent (which the first
    round already meets).  Dates after the failing one are never looked
    at. *)
Theorem get_matching_entries_first_error (dates : list string)
    (data : DataFrame) (col : string) (days : Z) (e : exn) :
  get_matching_entries dates data col days = Err e <->
  exists pre s post,
    dates = pre ++ s :: post /\
    Forall (fun p => is_ok (window_of p days) = true) pre /\
    (pre = [] \/ In col (columns data)) /\
    (window_of s days = Err e \/
     (is_ok (window_of s days) = true /\
      ~ In col (columns data) /\ e = KeyError)).
Proof. apply matching_entries_loop_first_error. Qed.

(** ** [find_word]: what a returned table is made of *)

Lemma bool_mask_ok_inv (alts : list (list item)) (series : list cell) :
  forall mask,
    bool_mask (map (str_contains alts) series) = Ok mask ->
    Forall (fun c => is_str c = true) series /\
    mask = map (str_keep alts) series.
Proof.
  induction series as [| c series IH]; intros mask H.
  - injection H as <-. split; [constructor | reflexivity].
  - cbn [map bool_mask] in H. unfold str_keep at 1.
    destruct c; cbn [str_contains] in *; try discriminate H.
    apply bind_ok_inv in H as [bs [Hbs H]]. injection H as <-.
    apply IH in Hbs as [HF ->]. split; [now constructor | reflexivity].
Qed.

Lemma bool_mask_keep (alts : list (list item)) (series : list cell) :
  Forall (fun c => is_str c = true) series ->
  bool_mask (map (str_contains alts) series) = Ok (map (str_keep alts) series).
Proof.
  induction 1 as [| c series Hc _ IH]; [reflexivity |].
  destruct c; try discriminate Hc.
  cbn [map bool_mask str_contains]. rewrite IH. reflexivity.
Qed.

(** A call of [find_word] that returns: the column is there, it holds
    strings only, the pattern compiles, and the rows kept are those whose
    text the pattern is found in. *)
Lemma find_word_ok_inv (df : DataFrame) (column word : string) (t : DataFrame) :
  find_word df column word = Ok t ->
  exists n alts,
    index_of String.eqb column (columns df) = Some n /\
    re_compile (list_ascii_of_string (word_pattern word)) = Ok alts /\
    Forall (fun r => is_str (cell_at n (r_cells r)) = true) (rows df) /\
    t = mkDataFrame (index_names df) (columns df)
          (filter (fun r => str_keep alts (cell_at n (r_cells r))) (rows df)).
Proof.
  unfold find_word. intro H.
  apply bind_ok_inv in H as [series [Hs H]].
  apply bind_ok_inv in H as [u [_ H]].
  apply bind_ok_inv in H as [alts [Ha H]].
  apply bind_ok_inv in H as [mask [Hm H]]. injection H as <-.
  unfold getitem in Hs.
  destruct (index_of String.eqb column (columns df)) as [n |] eqn:En;
    [| discriminate].
  injection Hs as <-.
  apply bool_mask_ok_inv in Hm as [HF ->].
  exists n, alts. split; [reflexivity |]. split; [exact Ha |]. split.
  - apply Forall_map in HF. exact HF.
  - unfold getitem_mask. f_equal. rewrite map_map.
    apply (select_rows_map
             (fun r => str_keep alts (cell_at n (r_cells r)))).
Qed.

Lemma find_word_ok (df : DataFrame) (column word : string) (n : nat)
    (alts : list (list item)) :
  index_of String.eqb column (columns df) = Some n ->
  re_compile (list_ascii_of_string (word_pattern word)) = Ok alts ->
  Forall (fun r => is_str (cell_at n (r_cells r)) = true) (rows df) ->
  find_word df column word
  = Ok (mkDataFrame (index_names df) (columns df)
          (filter (fun r => str_keep alts (cell_at n (r_cells r))) (rows df))).
Proof.
  intros Hn Ha HF. unfold find_word.
  rewrite (getitem_ok _ _ _ Hn). cbn [bind].
  assert (Hs : Forall (fun c => is_str c = true)
                 (map (fun r => cell_at n (r_cells r)) (rows df)))
    by (apply Forall_map; exact HF).
  rewrite (str_accessor_strings _ Hs). cbn [bind].
  rewrite Ha. cbn [bind].
  rewrite (bool_mask_keep _ _ Hs). cbn [bind].
  unfold getitem_mask. do 2 f_equal. rewrite map_map.
  apply (select_rows_map (fun r => str_keep alts (cell_at n (r_cells r)))).
Qed.

(** X6: whatever the word, a table that [find_word] returns has the index
    names and columns of the input and, as its rows, rows of the input in
    their order and with their own index labels, chosen by looking at the
    text cell alone; and the call only returns when every entry of the
    column is a string. *)
Theorem find_word_keeps_rows (df : DataFrame) (column word : string)
    (t : DataFrame) :
  find_word df column word = Ok t ->
  exists n keep,
    index_of String.eqb column (columns df) = Some n /\
    index_names t = index_names df /\
    columns t = columns df /\
    rows t = filter (fun r => keep (cell_at n (r_cells r))) (rows df) /\
    Forall (fun r => is_str (cell_at n (r_cells r)) = true) (rows df).
Proof.
  intro H. apply find_word_ok_inv in H as [n [alts [Hn [_ [HF ->]]]]].
  exists n, (str_keep alts). now repeat split.
Qed.

Lemma find_word_keeps_rows_witness :
  exists n keep,
    index_of String.eqb "text"%string (columns animals) = Some n /\
    index_names animals = index_names animals /\
    columns animals = columns animals /\
    rows animals = filter (fun r => keep (cell_at n (r_cells r))) (rows animals) /\
    Forall (fun r => is_str (cell_at n (r_cells r)) = true) (rows animals).
Proof.
  apply (find_word_keeps_rows animals "text" "" animals).
  reflexivity.
Defined.

Lemma filter_idem {A : Type} (p : A -> bool) (l : list A) :
  filter p (filter p l) = filter p l.
Proof.
  induction l as [| a l IH]; simpl; [reflexivity |].
  destruct (p a) eqn:E; simpl; [rewrite E; now f_equal | exact IH].
Qed.

(** X7: filtering twice changes nothing: [find_word] applied to a table it
    returned, with the same column and word, returns that table again. *)
Theorem find_word_idempotent (df : DataFrame) (column word : string)
    (t : DataFrame) :
  find_word df column word = Ok t ->
  find_word t column word = Ok t.
Proof.
  intro H. apply find_word_ok_inv in H as [n [alts [Hn [Ha [HF ->]]]]].
  rewrite (find_word_ok _ column word n alts); cbn [columns rows index_names].
  - now rewrite filter_idem.
  - exact Hn.
  - exact Ha.
  - apply Forall_forall. intros r Hr. apply filter_In in Hr as [Hr _].
    revert r Hr. now apply Forall_forall.
Qed.

Lemma find_word_idempotent_witness :
  find_word (mkDataFrame [None] ["text"%string]
               [ mkRow [CInt 0] [CStr "cat runs"];
                 mkRow [CInt 1] [CStr "cats jump"] ]) "text" "cat"
  = Ok (mkDataFrame [None] ["text"%string]
          [ mkRow [CInt 0] [CStr "cat runs"];
            mkRow [CInt 1] [CStr "cats jump"] ]).
Proof.
  apply (find_word_idempotent animals "text" "cat").
  reflexivity.
Defined.

(** X8: a word that begins with ["?"] makes the pattern [\b?...], in which
    the [?] has nothing to repeat: on a column of strings [find_word] then
    raises [re.error], whatever follows in the word and whatever the rows
    hold. *)
Theorem find_word_nothing_to_repeat (df : DataFrame) (column rest : string)
    (n : nat) :
  index_of String.eqb column (columns df) = Some n ->
  Forall (fun r => is_str (cell_at n (r_cells r)) = true) (rows df) ->
  find_word df column (String "?" rest) = Err re_error.
Proof.
  intros Hn HF. unfold find_word.
  rewrite (getitem_ok _ _ _ Hn). cbn [bind].
  assert (Hs : Forall (fun c => is_str c = true)
                 (map (fun r => cell_at n (r_cells r)) (rows df)))
    by (apply Forall_map; exact HF).
  rewrite (str_accessor_strings _ Hs). cbn [bind].
  reflexivity.
Qed.

Lemma find_word_nothing_to_repeat_witness :
  find_word animals "text" (String "?" "cat") = Err re_error.
Proof.
  apply (find_word_nothing_to_repeat animals "text" "cat" 0).
  - reflexivity.
  - repeat constructor.
Defined.

(** ** [count_words]: the tally and its order *)

Lemma occurrences_snoc (k c : cell) (done : list cell) :
  occurrences k (done ++ [c])
  = (occurrences k done + (if cell_eq_dec c k then 1 else 0))%nat.
Proof.
  unfold occurrences. rewrite count_occ_app. simpl.
  destruct (cell_eq_dec c k); reflexivity.
Qed.

Lemma count_add_absent (c : cell) (counts : list (cell * nat)) :
  ~ In c (map fst counts) -> count_add c counts = counts ++ [(c, 1%nat)].
Proof.
  induction counts as [| [k n] counts IH]; simpl; intro H; [reflexivity |].
  assert (E : cell_same c k = false) by (apply cell_same_false; intuition).
  rewrite E. f_equal. apply IH. tauto.
Qed.

Lemma count_add_present (c : cell) (counts : list (cell * nat)) :
  In c (map fst counts) ->
  exists l1 n l2,
    counts = l1 ++ (c, n) :: l2 /\
    count_add c counts = l1 ++ (c, S n) :: l2.
Proof.
  induction counts as [| [k n] counts IH]; simpl; intro H; [destruct H |].
  destruct (cell_same c k) eqn:E.
  - apply cell_same_true in E as <-. now exists [], n, counts.
  - apply cell_same_false in E.
    destruct H as [H | H]; [congruence |].
    destruct (IH H) as [l1 [m [l2 [-> ->]]]].
    now exists ((k, n) :: l1), m, l2.
Qed.

Lemma NoDup_snoc {A : Type} (l : list A) (x : A) :
  NoDup l -> ~ In x l -> NoDup (l ++ [x]).
Proof.
  induction 1 as [| a l Ha Hnd IH]; intro Hx; simpl.
  - constructor; [tauto | constructor].
  - constructor.
    + intro H. apply in_app_or in H as [H | [-> | []]]; [tauto |].
      apply Hx. now left.
    + apply IH. intro H. apply Hx. now right.
Qed.

Lemma tallied_count_add (done : list cell) (counts : list (cell * nat))
    (c : cell) :
  c <> CNaN -> tallied done counts ->
  tallied (done ++ [c]) (count_add c counts).
Proof.
  intros Hc [Hnd [HF Hin]].
  destruct (in_dec cell_eq_dec c (map fst counts)) as [Hp | Ha].
  - destruct (count_add_present c counts Hp) as [l1 [n [l2 [-> ->]]]].
    unfold tallied. rewrite map_app in *. cbn [map fst] in *.
    split; [exact Hnd |]. split.
    + apply Forall_app in HF as [HF1 HF2].
      inversion HF2 as [| ? ? [Hn0 Hn] HF2']; subst. cbn [fst snd] in *.
      apply NoDup_remove_2 in Hnd.
      apply Forall_app. split; [| constructor].
      * apply Forall_forall. intros [k m] Hk.
        pose proof (proj1 (Forall_forall _ _) HF1 _ Hk) as [Hk0 Hkm].
        cbn [fst snd] in *. split; [exact Hk0 |].
        rewrite occurrences_snoc.
        destruct (cell_eq_dec c k) as [<- | _]; [| lia].
        exfalso. apply Hnd. apply in_or_app. left.
        apply in_map_iff. now exists (c, m).
      * cbn [fst snd]. split; [exact Hc |]. rewrite occurrences_snoc.
        destruct (cell_eq_dec c c); [lia | congruence].
      * apply Forall_forall. intros [k m] Hk.
        pose proof (proj1 (Forall_forall _ _) HF2' _ Hk) as [Hk0 Hkm].
        cbn [fst snd] in *. split; [exact Hk0 |].
        rewrite occurrences_snoc.
        destruct (cell_eq_dec c k) as [<- | _]; [| lia].
        exfalso. apply Hnd. apply in_or_app. right.
        apply in_map_iff. now exists (c, m).
    + intros k Hk Hkin. apply in_app_or in Hkin as [Hkin | [<- | []]].
      * now apply Hin.
      * apply in_or_app. right. now left.
  - rewrite (count_add_absent c counts Ha).
    unfold tallied. rewrite map_app. cbn [map fst].
    split; [| split].
    + now apply NoDup_snoc.
    + apply Forall_app. split.
      * apply Forall_forall. intros [k m] Hk.
        pose proof (proj1 (Forall_forall _ _) HF _ Hk) as [Hk0 Hkm].
        cbn [fst snd] in *. split; [exact Hk0 |].
        rewrite occurrences_snoc.
        destruct (cell_eq_dec c k) as [<- | _]; [| lia].
        exfalso. apply Ha. apply in_map_iff. now exists (c, m).
      * constructor; [| constructor]. cbn [fst snd]. split; [exact Hc |].
        rewrite occurrences_snoc.
        destruct (cell_eq_dec c c); [| congruence].
        assert (Hz : occurrences c done = 0%nat).
        { unfold occurrences. apply count_occ_not_In. intro Hd.
          apply Ha. now apply Hin. }
        lia.
    + intros k Hk Hkin. apply in_or_app.
      apply in_app_or in Hkin as [Hkin | [<- | []]].
      * left. now apply Hin.
      * right. now left.
Qed.

Lemma tallied_missing (done : list cell) (counts : list (cell * nat)) :
  tallied done counts -> tallied (done ++ [CNaN]) counts.
Proof.
  intros [Hnd [HF Hin]]. split; [exact Hnd |]. split.
  - eapply Forall_impl; [| exact HF]. intros [k m] [Hk Hm]. cbn [fst snd] in *.
    split; [exact Hk |]. rewrite occurrences_snoc.
    destruct (cell_eq_dec CNaN k); [congruence | lia].
  - intros k Hk H. apply in_app_or in H as [H | [<- | []]];
      [now apply Hin | congruence].
Qed.

Lemma tallied_fold (l : list cell) :
  forall done counts,
    tallied done counts ->
    tallied (done ++ l)
      (fold_left (fun counts c => match c with
                                  | CNaN => counts
                                  | _ => count_add c counts
                                  end) l counts).
Proof.
  induction l as [| c l IH]; intros done counts H.
  - now rewrite app_nil_r.
  - cbn [fold_left].
    replace (done ++ c :: l) with ((done ++ [c]) ++ l)
      by (now rewrite <- app_assoc).
    apply IH.
    destruct c; try (apply tallied_count_add; [discriminate | exact H]).
    now apply tallied_missing.
Qed.

Lemma count_add_keys (c k : cell) (counts : list (cell * nat)) :
  In k (map fst (count_add c counts)) -> k = c \/ In k (map fst counts).
Proof.
  induction counts as [| [k0 n] counts IH]; simpl.
  - intros [<- | []]. now left.
  - destruct (cell_same c k0); simpl; [tauto |].
    intros [<- | H]; [tauto |]. apply IH in H. tauto.
Qed.

Lemma tally_keys_from (l : list cell) :
  forall counts k,
    In k (map fst (fold_left (fun counts c => match c with
                                              | CNaN => counts
                                              | _ => count_add c counts
                                              end) l counts)) ->
    In k (map fst counts) \/ In k l.
Proof.
  induction l as [| c l IH]; intros counts k H; [now left |].
  cbn [fold_left] in H. apply IH in H as [H | H]; [| right; now right].
  destruct c; try (apply count_add_keys in H as [-> | H];
                   [right; now left | now left]).
  now left.
Qed.

Lemma insert_count_perm (x : cell * nat) (l : list (cell * nat)) :
  Permutation (insert_count x l) (x :: l).
Proof.
  induction l as [| y l IH]; simpl; [reflexivity |].
  destruct (snd y <=? snd x)%nat; [reflexivity |].
  rewrite IH. apply perm_swap.
Qed.

Lemma sort_counts_perm (l : list (cell * nat)) :
  Permutation (fold_right insert_count [] l) l.
Proof.
  induction l as [| x l IH]; simpl; [reflexivity |].
  rewrite insert_count_perm. now constructor.
Qed.

Lemma insert_count_sorted (x : cell * nat) (l : list (cell * nat)) :
  Sorted falling l -> Sorted falling (insert_count x l).
Proof.
  induction 1 as [| y l Hs IH Hhd]; simpl.
  - repeat constructor.
  - destruct (Nat.leb_spec (snd y) (snd x)) as [Hle | Hgt].
    + constructor; [now constructor |]. constructor. exact Hle.
    + constructor; [exact IH |].
      destruct l as [| z l]; simpl.
      * constructor. unfold falling. lia.
      * destruct (snd z <=? snd x)%nat.
        -- constructor. unfold falling. lia.
        -- constructor. now inversion Hhd.
Qed.

Lemma sort_counts_sorted (l : list (cell * nat)) :
  StronglySorted falling (fold_right insert_count [] l).
Proof.
  apply Sorted_StronglySorted.
  - intros x y z Hxy Hyz. unfold falling in *. lia.
  - induction l as [| x l IH]; simpl; [constructor |].
    now apply insert_count_sorted.
Qed.

Lemma StronglySorted_app_cross {A : Type} (R : A -> A -> Prop)
    (l1 l2 : list A) :
  StronglySorted R (l1 ++ l2) ->
  StronglySorted R l1 /\ forall x y, In x l1 -> In y l2 -> R x y.
Proof.
  induction l1 as [| a l1 IH]; simpl; intro H.
  - split; [constructor | intros x y []].
  - apply StronglySorted_inv in H as [Hs Ha].
    destruct (IH Hs) as [Hs1 Hc]. split.
    + constructor; [exact Hs1 |].
      apply Forall_app in Ha. tauto.
    + intros x y [<- | Hx] Hy; [| now apply Hc].
      apply (proj1 (Forall_forall _ _) Ha). apply in_or_app. now right.
Qed.

Lemma StronglySorted_before {A : Type} (R : A -> A -> Prop)
    (m1 m2 m3 : list A) (x y : A) :
  StronglySorted R (m1 ++ x :: m2 ++ y :: m3) -> R x y.
Proof.
  intro H.
  replace (m1 ++ x :: m2 ++ y :: m3) with ((m1 ++ [x]) ++ (m2 ++ y :: m3)) in H
    by (now rewrite <- app_assoc).
  apply StronglySorted_app_cross in H as [_ Hc].
  apply Hc; apply in_or_app; right; now left.
Qed.

(** [value_counts] lists every value that is not missing once, with the
    number of its occurrences, the more frequent first. *)
Lemma value_counts_spec (lw : list cell) :
  NoDup (map fst (value_counts lw)) /\
  StronglySorted falling (value_counts lw) /\
  Forall (fun p => fst p <> CNaN /\ snd p = occurrences (fst p) lw)
         (value_counts lw) /\
  (forall k, k <> CNaN -> In k lw -> In k (map fst (value_counts lw))) /\
  (forall k, In k (map fst (value_counts lw)) -> In k lw).
Proof.
  unfold value_counts.
  set (t := fold_left _ lw []).
  assert (Ht : tallied lw t).
  { apply (tallied_fold lw [] []).
    split; [constructor |]. split; [constructor | intros k _ []]. }
  destruct Ht as [Hnd [HF Hin]].
  pose proof (sort_counts_perm t) as Hp.
  split; [| split; [| split; [| split]]].
  - eapply Permutation_NoDup; [| exact Hnd].
    apply Permutation_map. now symmetry.
  - apply sort_counts_sorted.
  - eapply Permutation_Forall; [| exact HF]. now symmetry.
  - intros k Hk Hl. eapply Permutation_in; [| apply (Hin k Hk Hl)].
    apply Permutation_map. now symmetry.
  - intros k Hk.
    assert (Hk' : In k (map fst t))
      by (eapply Permutation_in; [apply Permutation_map; exact Hp | exact Hk]).
    apply tally_keys_from in Hk' as [[] | H]. exact H.
Qed.

Lemma head_prefix {A : Type} (n : Z) (l : list A) :
  exists k, head n l = firstn k l /\ (0 <= n -> k = Z.to_nat n).
Proof.
  unfold head. destruct (Z.leb_spec 0 n).
  - now exists (Z.to_nat n).
  - exists (length l - Z.to_nat (- n))%nat. split; [reflexivity | lia].
Qed.

Lemma count_words_ok_inv (df : DataFrame) (column : string) (n : Z)
    (words : list cell) :
  count_words df column n = Ok words ->
  exists k,
    words = map fst (firstn k (value_counts (last_words_of df column))) /\
    (0 <= n -> k = Z.to_nat n).
Proof.
  unfold count_words, last_words_of. intro H.
  apply bind_ok_inv in H as [series [Hs H]]. rewrite Hs.
  apply bind_ok_inv in H as [u [_ H]]. injection H as <-.
  destruct (head_prefix n (value_counts (map last_word series)))
    as [k [-> Hk]].
  now exists k.
Qed.

Lemma NoDup_firstn {A : Type} (k : nat) (l : list A) :
  NoDup l -> NoDup (firstn k l).
Proof.
  intro H. rewrite <- (firstn_skipn k l) in H.
  now apply NoDup_app_remove_r in H.
Qed.

Lemma In_firstn {A : Type} (k : nat) (l : list A) (x : A) :
  In x (firstn k l) -> In x l.
Proof.
  intro H. rewrite <- (firstn_skipn k l). apply in_or_app. now left.
Qed.

(** X9: the words that [count_words] returns are pairwise distinct, each is
    the last word of some entry of the column (never a missing value), and
    for [n >= 0] there are at most [n] of them. *)
Theorem count_words_shape (df : DataFrame) (column : string) (n : Z)
    (words : list cell) :
  count_words df column n = Ok words ->
  NoDup words /\
  (0 <= n -> (length words <= Z.to_nat n)%nat) /\
  forall w, In w words -> w <> CNaN /\ In w (last_words_of df column).
Proof.
  intro H. apply count_words_ok_inv in H as [k [-> Hk]].
  destruct (value_counts_spec (last_words_of df column))
    as [Hnd [_ [HF [_ Hin]]]].
  rewrite <- firstn_map.
  split; [now apply NoDup_firstn |]. split.
  - intro Hn. rewrite (Hk Hn). apply firstn_le_length.
  - intros w Hw. apply In_firstn in Hw. split; [| now apply Hin].
    apply in_map_iff in Hw as [p [<- Hp]].
    now apply (proj1 (Forall_forall _ _) HF).
Qed.

Lemma count_words_shape_witness :
  NoDup [CStr "rules"; CStr "rise"] /\
  (0 <= 2 -> (length [CStr "rules"; CStr "rise"] <= Z.to_nat 2)%nat) /\
  forall w, In w [CStr "rules"; CStr "rise"] ->
            w <> CNaN /\ In w (last_words_of headlines "title").
Proof.
  apply (count_words_shape headlines "title" 2 [CStr "rules"; CStr "rise"]).
  reflexivity.
Defined.

(** X10: [count_words] ranks by frequency: a returned word occurs, as a last
    word of the column, at least as often as every word returned after it,
    and at least as often as every last word that is left out. *)
Theorem count_words_ranked (df : DataFrame) (column : string) (n : Z)
    (words : list cell) :
  count_words df column n = Ok words ->
  (forall a b, before a b words ->
     (occurrences b (last_words_of df column)
      <= occurrences a (last_words_of df column))%nat) /\
  (forall a b, In a words -> In b (last_words_of df column) ->
     b <> CNaN -> ~ In b words ->
     (occurrences b (last_words_of df column)
      <= occurrences a (last_words_of df column))%nat).
Proof.
  intro H. apply count_words_ok_inv in H as [k [-> _]].
  set (lw := last_words_of df column).
  destruct (value_counts_spec lw) as [_ [Hs [HF [Hin _]]]].
  assert (Hocc : forall p, In p (value_counts lw) ->
                           snd p = occurrences (fst p) lw).
  { intros p Hp. now apply (proj1 (Forall_forall _ _) HF). }
  rewrite <- (firstn_skipn k (value_counts lw)) in Hs.
  split.
  - intros a b [l1 [l2 [l3 Heq]]].
    apply StronglySorted_app_cross in Hs as [Hs _].
    apply map_eq_app in Heq as [m1 [r1 [Hf [_ Hr1]]]].
    apply map_eq_cons in Hr1 as [x [r2 [-> [<- Hr2]]]].
    apply map_eq_app in Hr2 as [m2 [r3 [-> [_ Hr3]]]].
    apply map_eq_cons in Hr3 as [y [m3 [-> [<- _]]]].
    rewrite Hf in Hs. pose proof (StronglySorted_before _ _ _ _ _ _ Hs) as Hxy.
    unfold falling in Hxy.
    rewrite <- (Hocc x), <- (Hocc y); [exact Hxy | |];
      apply (In_firstn k); rewrite Hf; apply in_or_app; right;
      [right; apply in_or_app; right; now left | now left].
  - intros a b Ha Hb Hb0 Hnb.
    apply StronglySorted_app_cross in Hs as [_ Hc].
    apply in_map_iff in Ha as [x [<- Hx]].
    pose proof (Hin b Hb0 Hb) as Hbk.
    rewrite <- (firstn_skipn k (value_counts lw)), map_app in Hbk.
    apply in_app_or in Hbk as [Hbk | Hbk]; [tauto |].
    apply in_map_iff in Hbk as [y [<- Hy]].
    pose proof (Hc x y Hx Hy) as Hxy. unfold falling in Hxy.
    rewrite <- (Hocc x), <- (Hocc y); [exact Hxy | |].
    + rewrite <- (firstn_skipn k (value_counts lw)).
      apply in_or_app. now right.
    + now apply (In_firstn k).
Qed.

Lemma count_words_ranked_witness :
  (forall a b, before a b [CStr "rules"; CStr "rise"] ->
     (occurrences b (last_words_of headlines "title")
      <= occurrences a (last_words_of headlines "title"))%nat) /\
  (forall a b, In a [CStr "rules"; CStr "rise"] ->
     In b (last_words_of headlines "title") ->
     b <> CNaN -> ~ In b [CStr "rules"; CStr "rise"] ->
     (occurrences b (last_words_of headlines "title")
      <= occurrences a (last_words_of headlines "title"))%nat).
Proof.
  apply (count_words_ranked headlines "title" 2).
  reflexivity.
Defined.

(** ** [calculate_differences]: when it returns, and what the outputs share *)

Lemma calculate_differences_no_rows_witness :
  calculate_differences covid_no_rows "province" "confirmed"
  = Err UnboundLocalError.
Proof.
  apply (calculate_differences_no_rows covid_no_rows "province" "confirmed").
  - reflexivity.
  - reflexivity.
Defined.

Lemma get_level_values_ok_inv (data : DataFrame) (level : string)
    (labels : list cell) :
  get_level_values data level = Ok labels ->
  exists n,
    positions (Some level) (index_names data) O = [n] /\
    labels = map (fun r => cell_at n (r_index r)) (rows data).
Proof.
  unfold get_level_values.
  destruct (positions (Some level) (index_names data) 0) as [| n [| ? ?]];
    try discriminate.
  destruct (index_modelled data); [| discriminate].
  intro H. injection H as <-. now exists n.
Qed.

(** What the loop of a returning call did, for every key: both difference
    sequences of the group were computed and stored under the key; and
    [subset] ended as the group of the last key. *)
Lemma calculate_differences_ok_groups (data : DataFrame) (ic vc : string)
    (diffs fats : dict) (dates uniq : list cell) :
  calculate_differences data ic vc = Ok (diffs, fats, dates, uniq) ->
  exists labels pre last_value all_dates,
    get_level_values data ic = Ok labels /\
    uniq = unique labels /\
    uniq = pre ++ [last_value] /\
    get_level_values (subset_of data labels last_value) "date" = Ok all_dates /\
    dates = tl all_dates /\
    dict_keys diffs = uniq /\ dict_keys fats = uniq /\
    forall v, In v uniq ->
      exists ds fs,
        group_diff data labels vc v = Ok ds /\
        group_diff data labels fatalities_column v = Ok fs /\
        dict_get v diffs = Some ds /\ dict_get v fats = Some fs.
Proof.
  intro H.
  apply calculate_differences_ok_inv in H
    as [labels [subset [all_dates [Hl [Hu [Hrun [Hd Ht]]]]]]].
  destruct (differences_loop_spec data ic vc labels Hl _ _ _ _ _ _ _ Hrun)
    as [Hkd [Hkf [Hgroups [_ Hs]]]];
    [apply unique_NoDup | intros v _; split; intros [] |].
  destruct (unique labels) as [| u0 us] eqn:Eu; [discriminate Hs |].
  destruct (last_map_some (subset_of data labels) (u0 :: us) None)
    as [a [_ [[pre Hpre] Ha]]]; [discriminate |].
  rewrite Ha in Hs. injection Hs as ->.
  simpl in Hkd, Hkf.
  exists labels, pre, a, all_dates. subst uniq.
  repeat (split; [assumption || (symmetry; assumption) |]).
  exact Hgroups.
Qed.

(** X11: [calculate_differences] returns exactly when the grouping level
    exists under one name, the table has at least one row, the index has one
    level named [date], and for every distinct key both columns exist and
    the differences of the group can be taken. *)
Theorem calculate_differences_returns_iff (data : DataFrame) (ic vc : string) :
  is_ok (calculate_differences data ic vc) = true <->
  exists labels n,
    get_level_values data ic = Ok labels /\
    labels <> [] /\
    positions (Some "date"%string) (index_names data) O = [n] /\
    Forall (fun v => is_ok (group_diff data labels vc v) = true /\
                     is_ok (group_diff data labels fatalities_column v) = true)
           (unique labels).
Proof.
  split.
  - intro H. apply is_ok_true in H as [[[[d f] dates] uniq] H].
    apply calculate_differences_ok_groups in H
      as [labels [pre [a [all_dates
           [Hl [Hu [Hpre [Hd [_ [_ [_ Hgroups]]]]]]]]]]].
    apply get_level_values_ok_inv in Hd as [n [Hn _]].
    exists labels, n. split; [exact Hl |]. split.
    + intros ->. subst uniq. now destruct pre.
    + split; [exact Hn |]. apply Forall_forall. intros v Hv.
      rewrite <- Hu in Hv.
      destruct (Hgroups v Hv) as [ds [fs [-> [-> _]]]]. now split.
  - intros [labels [n [Hl [Hne [Hn HF]]]]].
    now apply (calculate_differences_returns data ic vc labels n).
Qed.

Lemma get_level_values_length (data : DataFrame) (level : string)
    (labels : list cell) :
  get_level_values data level = Ok labels ->
  length labels = length (rows data).
Proof.
  intro H. apply get_level_values_ok_inv in H as [n [_ ->]].
  apply length_map.
Qed.

(** X13: the returned date axis is as long as the two difference sequences
    of the last key, whatever the sizes of the other groups. *)
Theorem calculate_differences_axis_length (data : DataFrame) (ic vc : string)
    (diffs fats : dict) (dates uniq : list cell) :
  calculate_differences data ic vc = Ok (diffs, fats, dates, uniq) ->
  exists pre last_value ds fs,
    uniq = pre ++ [last_value] /\
    dict_get last_value diffs = Some ds /\
    dict_get last_value fats = Some fs /\
    length dates = length ds /\ length dates = length fs.
Proof.
  intro H.
  apply calculate_differences_ok_groups in H
    as [labels [pre [a [all_dates
         [Hl [Hu [Hpre [Hd [Ht [_ [_ Hgroups]]]]]]]]]]].
  destruct (Hgroups a) as [ds [fs [Hds [Hfs [Hgd Hgf]]]]].
  { rewrite Hpre. apply in_or_app. right. now left. }
  apply group_diff_ok_inv in Hds as [series [_ [Hls [Hlen _]]]].
  apply group_diff_ok_inv in Hfs as [series_f [_ [Hlf [Hlenf _]]]].
  apply get_level_values_length in Hd.
  exists pre, a, ds, fs. repeat (split; [assumption |]).
  subst dates. destruct all_dates as [| x all_dates]; simpl in *; lia.
Qed.

Lemma calculate_differences_axis_length_witness :
  exists pre last_value ds fs,
    covid_keys = pre ++ [last_value] /\
    dict_get last_value covid_differences = Some ds /\
    dict_get last_value covid_fatalities = Some fs /\
    length covid_dates = length ds /\ length covid_dates = length fs.
Proof.
  apply (calculate_differences_axis_length covid_data "province" "confirmed"
           covid_differences covid_fatalities covid_dates covid_keys).
  reflexivity.
Defined.

Lemma select_rows_none (rs : list row) (mask : list bool) :
  Forall (fun b => b = false) mask -> select_rows rs mask = [].
Proof.
  revert mask. induction rs as [| r rs IH]; intros mask H; [reflexivity |].
  destruct H as [| b mask Hb H]; [reflexivity |]. subst b. simpl. now apply IH.
Qed.

Lemma subset_of_missing (data : DataFrame) (labels : list cell) :
  rows (subset_of data labels CNaN) = [].
Proof.
  unfold subset_of, getitem_mask. cbn [rows].
  apply select_rows_none. apply Forall_map, Forall_forall.
  intros c _. now destruct c.
Qed.

(** X14: when the last distinct key is a missing value, the returned date
    axis is empty: [==] finds no row equal to NaN, so the last [subset] has
    no rows. *)
Theorem calculate_differences_missing_last_key (data : DataFrame)
    (ic vc : string) (diffs fats : dict) (dates uniq pre : list cell) :
  calculate_differences data ic vc = Ok (diffs, fats, dates, uniq) ->
  uniq = pre ++ [CNaN] ->
  dates = [].
Proof.
  intros H Hlast.
  apply calculate_differences_ok_groups in H
    as [labels [pre' [a [all_dates [_ [_ [Hpre [Hd [-> _]]]]]]]]].
  rewrite Hlast in Hpre. apply app_inj_tail in Hpre as [_ <-].
  apply get_level_values_length in Hd.
  rewrite subset_of_missing in Hd. now destruct all_dates.
Qed.

Lemma calculate_differences_missing_last_key_witness : @nil cell = [].
Proof.
  apply (calculate_differences_missing_last_key covid_missing_last
           "province" "confirmed"
           [(CStr "A", [CInt 5]); (CNaN, [])]
           [(CStr "A", [CInt 2]); (CNaN, [])]
           [] [CStr "A"; CNaN] [CStr "A"]).
  - reflexivity.
  - reflexivity.
Defined.

Lemma dict_ext (a : dict) :
  forall b : dict,
    dict_keys a = dict_keys b ->
    NoDup (dict_keys a) ->
    (forall k, In k (dict_keys a) -> dict_get k a = dict_get k b) ->
    a = b.
Proof.
  induction a as [| [k v] a IH]; intros [| [k' v'] b] Hk Hnd Hget;
    try discriminate Hk; [reflexivity |].
  simpl in Hk. injection Hk as <- Hk.
  simpl in Hnd. apply NoDup_cons_iff in Hnd as [Hfresh Hnd].
  assert (v = v') as <-.
  { specialize (Hget k (or_introl eq_refl)). simpl in Hget.
    rewrite cell_same_refl in Hget. congruence. }
  f_equal. apply IH; [exact Hk | exact Hnd |].
  intros k0 Hin. specialize (Hget k0 (or_intror Hin)). simpl in Hget.
  assert (Hne : cell_same k0 k = false).
  { apply cell_same_false. intros ->. now apply Hfresh. }
  now rewrite Hne in Hget.
Qed.

(** X15: the fatality differences, the date axis and the keys that
    [calculate_differences] returns do not depend on the value column that
    is asked for: only the first dict does. *)
Theorem calculate_differences_fatalities_independent (data : DataFrame)
    (ic vc vc' : string) (diffs fats diffs' fats' : dict)
    (dates uniq dates' uniq' : list cell) :
  calculate_differences data ic vc = Ok (diffs, fats, dates, uniq) ->
  calculate_differences data ic vc' = Ok (diffs', fats', dates', uniq') ->
  fats = fats' /\ dates = dates' /\ uniq = uniq'.
Proof.
  intros H H'.
  apply calculate_differences_ok_groups in H
    as [labels [pre [a [all_dates
         [Hl [Hu [Hpre [Hd [Ht [_ [Hkf Hgroups]]]]]]]]]]].
  apply calculate_differences_ok_groups in H'
    as [labels' [pre' [a' [all_dates'
         [Hl' [Hu' [Hpre' [Hd' [Ht' [_ [Hkf' Hgroups']]]]]]]]]]].
  rewrite Hl in Hl'. injection Hl' as <-.
  assert (Huu : uniq = uniq') by congruence.
  assert (Hlast : pre ++ [a] = pre' ++ [a']) by congruence.
  apply app_inj_tail in Hlast as [_ <-].
  rewrite Hd in Hd'. injection Hd' as <-.
  split; [| split; [congruence | exact Huu]].
  apply dict_ext.
  - congruence.
  - rewrite Hkf, Hu. apply unique_NoDup.
  - intros k Hk. rewrite Hkf in Hk.
    destruct (Hgroups k Hk) as [ds [fs [_ [Hfs [_ Hg]]]]].
    rewrite Huu in Hk.
    destruct (Hgroups' k Hk) as [ds' [fs' [_ [Hfs' [_ Hg']]]]].
    congruence.
Qed.

Lemma calculate_differences_fatalities_independent_witness :
  covid_fatalities = covid_fatalities /\
  covid_dates = covid_dates /\ covid_keys = covid_keys.
Proof.
  apply (calculate_differences_fatalities_independent covid_data "province"
           "confirmed" "fatalities, %"
           covid_differences covid_fatalities
           covid_fatalities covid_fatalities
           covid_dates covid_keys covid_dates covid_keys).
  - reflexivity.
  - reflexivity.
Defined.

(** ** [plot_differences]: when it returns, and what a failing call leaves *)

Lemma world_nothing_drawn (w : world) :
  mkWorld (heap w) (surface w ++ []) = w.
Proof. destruct w. cbn. now rewrite app_nil_r. Qed.

Lemma dict_item_ok_inv (d : dict) (k : cell) (y : list cell) :
  dict_item d k = Ok y -> dict_get k d = Some y.
Proof.
  unfold dict_item. destruct (key_clash k d); [discriminate |].
  destruct (dict_get k d); [| discriminate]. intro H. now injection H as <-.
Qed.


Lemma plottable_line (xaxis : list cell) (d : dict) (v : cell)
    (y : list cell) :
  dict_item d v = Ok y -> line_of xaxis d v = Line xaxis y v.
Proof.
  intro H. apply dict_item_ok_inv in H. unfold line_of. now rewrite H.
Qed.

(** The loop over keys that all have a series of the length of the axis. *)
Lemma plot_differences_loop_all (xaxis : list cell) (yaxis : ref) (d : dict)
    (values : list cell) :
  forall w,
    nth_error (heap w) yaxis = Some (ODict d) ->
    Forall (plottable xaxis d) values ->
    plot_differences_loop values xaxis yaxis w
    = (Ok tt, mkWorld (heap w) (surface w ++ map (line_of xaxis d) values)).
Proof.
  induction values as [| v values IH]; intros w Hd HF.
  - cbn [plot_differences_loop map]. unfold ret.
    now rewrite world_nothing_drawn.
  - apply Forall_cons_iff in HF as [[y [Hy Hlen]] HF].
    rewrite plot_differences_loop_step, Hd, Hy, <- Hlen, Nat.eqb_refl.
    rewrite IH; [| exact Hd | exact HF].
    cbn [heap surface map]. rewrite (plottable_line xaxis d v y Hy).
    now rewrite <- app_assoc.
Qed.

(** The loop at a key whose lookup fails, or finds a series of another
    length. *)
Lemma plot_differences_loop_gap (xaxis : list cell) (yaxis : ref) (d : dict)
    (v : cell) (values : list cell) (w : world) :
  nth_error (heap w) yaxis = Some (ODict d) ->
  (forall e, dict_item d v = Err e ->
   plot_differences_loop (v :: values) xaxis yaxis w = (Err e, w)) /\
  (forall y, dict_item d v = Ok y -> length y <> length xaxis ->
   plot_differences_loop (v :: values) xaxis yaxis w
   = (Err ValueError_shape, w)).
Proof.
  intro Hd. rewrite plot_differences_loop_step, Hd. split.
  - now intros e ->.
  - intros y -> Hne.
    destruct (Nat.eqb_spec (length xaxis) (length y)) as [E | _];
      [now elim Hne | reflexivity].
Qed.

Lemma plot_differences_loop_app (xaxis : list cell) (yaxis : ref) (d : dict)
    (pre rest : list cell) (w : world) :
  nth_error (heap w) yaxis = Some (ODict d) ->
  Forall (plottable xaxis d) pre ->
  plot_differences_loop (pre ++ rest) xaxis yaxis w
  = plot_differences_loop rest xaxis yaxis
      (mkWorld (heap w) (surface w ++ map (line_of xaxis d) pre)).
Proof.
  revert w. induction pre as [| v pre IH]; intros w Hd HF.
  - cbn [app map]. now rewrite world_nothing_drawn.
  - apply Forall_cons_iff in HF as [[y [Hy Hlen]] HF].
    cbn [app]. rewrite plot_differences_loop_step, Hd, Hy, <- Hlen, Nat.eqb_refl.
    rewrite IH; [| exact Hd | exact HF].
    cbn [heap surface map]. rewrite (plottable_line xaxis d v y Hy).
    now rewrite <- app_assoc.
Qed.

(** A loop that returns met only keys with a series as long as the axis. *)
Lemma plot_differences_loop_ok_inv (xaxis : list cell) (yaxis : ref)
    (d : dict) (values : list cell) :
  forall w,
    nth_error (heap w) yaxis = Some (ODict d) ->
    fst (plot_differences_loop values xaxis yaxis w) = Ok tt ->
    Forall (plottable xaxis d) values.
Proof.
  induction values as [| v values IH]; intros w Hd Hrun; [constructor |].
  rewrite plot_differences_loop_step, Hd in Hrun.
  destruct (dict_item d v) as [y |] eqn:Hy; [| discriminate Hrun].
  destruct (Nat.eqb_spec (length xaxis) (length y)) as [E | _];
    [| discriminate Hrun].
  constructor.
  - exists y. now split.
  - eapply IH; [| exact Hrun]. exact Hd.
Qed.

(** X16: [plot_differences] returns exactly when, for every key it is
    given, the lookup in the dict finds a sequence that is as long as the
    x axis. *)
Theorem plot_differences_returns_iff (unique_values xaxis : list cell)
    (yaxis : ref) (d : dict) (w : world) :
  nth_error (heap w) yaxis = Some (ODict d) ->
  fst (plot_differences_call unique_values xaxis yaxis w) = Ok tt <->
  Forall (plottable xaxis d) unique_values.
Proof.
  intro Hd. unfold plot_differences_call. split.
  - now apply plot_differences_loop_ok_inv.
  - intro HF. now rewrite (plot_differences_loop_all xaxis yaxis d).
Qed.

Lemma plot_differences_returns_iff_witness :
  fst (plot_differences_call [CStr "A"; CStr "D"] covid_dates 4%nat
         sample_world) = Ok tt <->
  Forall (plottable covid_dates two_series) [CStr "A"; CStr "D"].
Proof.
  apply (plot_differences_returns_iff [CStr "A"; CStr "D"] covid_dates 4%nat
           two_series sample_world).
  reflexivity.
Defined.

(** X17: [plot_differences] stops at the first key whose lookup in the dict
    fails, with the error of the lookup ([KeyError] when no key is equal to
    it), or finds a sequence that is not as long as the x axis, with
    [ValueError]; the lines of the keys before it have been drawn and stay
    on the figure, and no later key is looked at. *)
Theorem plot_differences_stops_at_first_gap (pre post : list cell) (v : cell)
    (xaxis : list cell) (yaxis : ref) (d : dict) (w : world) :
  nth_error (heap w) yaxis = Some (ODict d) ->
  Forall (plottable xaxis d) pre ->
  (forall e, dict_item d v = Err e ->
   plot_differences_call (pre ++ v :: post) xaxis yaxis w
   = (Err e,
      mkWorld (heap w) (surface w ++ map (line_of xaxis d) pre))) /\
  (forall y, dict_item d v = Ok y -> length y <> length xaxis ->
   plot_differences_call (pre ++ v :: post) xaxis yaxis w
   = (Err ValueError_shape,
      mkWorld (heap w) (surface w ++ map (line_of xaxis d) pre))).
Proof.
  intros Hd HF. unfold plot_differences_call.
  rewrite (plot_differences_loop_app xaxis yaxis d pre (v :: post) w Hd HF).
  apply plot_differences_loop_gap. exact Hd.
Qed.

Lemma plot_differences_stops_at_first_gap_witness :
  plot_differences_call [CStr "A"; CStr "B"; CStr "D"] covid_dates 4%nat
    sample_world
  = (Err KeyError,
     mkWorld (heap sample_world)
       [Title "before";
        Line covid_dates [CInt 5; CInt (-2)] (CStr "A")]).
Proof.
  destruct (plot_differences_stops_at_first_gap [CStr "A"] [CStr "D"]
              (CStr "B") covid_dates 4%nat two_series sample_world)
    as [Hkey _].
  - reflexivity.
  - constructor; [| constructor].
    exists [CInt 5; CInt (-2)]. split; reflexivity.
  - apply Hkey. reflexivity.
Defined.


